(** * Smart Waste Management dashboard: the bin-fleet model of [app.py]

    A shallow embedding of the decision logic of [app.py]: the reading
    generator [generate_bin_data], the marker colouring of
    [create_city_map], the aggregator [create_efficiency_metrics], the
    route catalog of [create_route_optimization_chart] and the refresh and
    alert blocks of [main].

    Python integers are [Z]; Python floats are IEEE 754 binary64 values,
    taken from the Standard Library's [SpecFloat] with [prec = 53] and
    [emax = 1024]; strings are [string]; a list of dicts with fixed keys is
    a list of records; exceptions are an explicit result type; the random
    source and the wall clock are threaded as an explicit world.

    The definitions come first.  The properties follow: the classifier,
    the generator and the refresh controls, the alert lists, the routes,
    and the collection-efficiency score, whose rounding is analysed over
    the reals. *)

From Stdlib Require Import ZArith List String Bool Lia QArith.
From Stdlib Require Import Reals Lra Qreals.
From Stdlib Require Import DecimalString.
From Stdlib Require Import Floats.SpecFloat.
Import ListNotations.

Open Scope string_scope.
Open Scope list_scope.
Open Scope Z_scope.

(** ** Python values *)

Module Py.

(** The built-in exceptions the modelled code can raise. *)
Inductive exn : Type :=
| ZeroDivisionError
| OverflowError.

Inductive result (A : Type) : Type :=
| Ok (a : A)
| Raise (e : exn).
Arguments Ok {A} a.
Arguments Raise {A} e.

Definition bind {A B : Type} (r : result A) (k : A -> result B) : result B :=
  match r with
  | Ok a => k a
  | Raise e => Raise e
  end.

(** [sum(xs)] over integers, accumulated from 0 left to right. *)
Definition sum (xs : list Z) : Z := fold_left Z.add xs 0.

(** [len(xs)]. *)
Definition len {A : Type} (xs : list A) : Z := Z.of_nat (List.length xs).

(** CPython's [sys.maxsize]: no list is longer. *)
Definition maxsize : Z := 2 ^ 63 - 1.

End Py.

Notation "x <- r ;; k" := (Py.bind r (fun x => k))
  (at level 61, r at next level, right associativity).

(** ** Binary64 floats *)

Module F64.

Definition prec : Z := 53.
Definition emax : Z := 1024.

Definition float : Type := spec_float.

Definition add : float -> float -> float := SFadd prec emax.
Definition mul : float -> float -> float := SFmul prec emax.
Definition div : float -> float -> float := SFdiv prec emax.
Definition eqb : float -> float -> bool := SFeqb.
Definition leb : float -> float -> bool := SFleb.
Definition ltb : float -> float -> bool := SFltb.

(** The nearest binary64 value to an integer (ties to even); an
    infinity when the integer is out of range. *)
Definition round_int (z : Z) : float := binary_normalize prec emax z 0 false.

Definition is_finite (x : float) : bool :=
  match x with
  | S754_zero _ | S754_finite _ _ _ => true
  | _ => false
  end.

Definition is_zero (x : float) : bool :=
  match x with
  | S754_zero _ => true
  | _ => false
  end.

(** A decimal literal [m]e-[k] of the source text: the binary64 value
    nearest to m / 10^k.  Both operands are exact for the literals of
    [app.py], so one correctly rounded division yields it. *)
Definition literal (m : Z) (k : Z) : float :=
  div (round_int m) (round_int (10 ^ k)).

(** The exact rational value of a finite float. *)
Definition to_Q (x : float) : Q :=
  match x with
  | S754_finite s m e =>
      let n := if s then Zneg m else Zpos m in
      match e with
      | Z0 => inject_Z n
      | Zpos p => inject_Z (n * 2 ^ Zpos p)
      | Zneg p => Qmake n (2 ^ p)
      end
  | _ => 0%Q
  end.

(** [float(z)] for a Python int: raises [OverflowError] when [z] does
    not fit in a double. *)
Definition of_int (z : Z) : Py.result float :=
  let x := round_int z in
  if is_finite x then Py.Ok x else Py.Raise Py.OverflowError.

(** [x / y] on floats: CPython tests the divisor against 0.0 first. *)
Definition truediv (x y : float) : Py.result float :=
  if is_zero y then Py.Raise Py.ZeroDivisionError else Py.Ok (div x y).

End F64.

(** ** The status classifier (line 83 of [generate_bin_data]) *)

(** ["Critical" if fill_level > 85 else "Warning" if fill_level > 70 else "Good"] *)
Definition classify (fill_level : Z) : string :=
  if fill_level >? 85 then "Critical"
  else if fill_level >? 70 then "Warning"
  else "Good".

(** ** The world: random source and wall clock *)

(** [random.randint] and [datetime.now] read from the outside.  The world
    holds the raw values they will see, as two streams with a cursor each,
    so a statement over all worlds covers every run.  [time.sleep] only
    delays the next reading and leaves the world as it is. *)
Record World : Type := {
  rand : nat -> Z;
  rand_pos : nat;
  clock : nat -> Z;
  clock_pos : nat
}.

(** [random.randint(a, b)]: an integer N with a <= N <= b. *)
Definition random_randint (a b : Z) (w : World) : Z * World :=
  (a + rand w (rand_pos w) mod (b - a + 1),
   {| rand := rand w; rand_pos := S (rand_pos w);
      clock := clock w; clock_pos := clock_pos w |}).

(** A naive [datetime] is its number of microseconds since the epoch. *)
Definition datetime : Type := Z.

Definition datetime_now (w : World) : datetime * World :=
  (clock w (clock_pos w),
   {| rand := rand w; rand_pos := rand_pos w;
      clock := clock w; clock_pos := S (clock_pos w) |}).

(** A [timedelta], normalised as Python keeps it:
    0 <= seconds < 86400 and 0 <= microseconds < 1000000. *)
Record timedelta : Type := {
  days : Z;
  seconds : Z;
  microseconds : Z
}.

Definition timedelta_of_us (us : Z) : timedelta :=
  {| days := us / 86400000000;
     seconds := (us / 1000000) mod 86400;
     microseconds := us mod 1000000 |}.

Definition timedelta_us (d : timedelta) : Z :=
  days d * 86400000000 + seconds d * 1000000 + microseconds d.

(** [timedelta(hours=h)] *)
Definition timedelta_hours (h : Z) : timedelta := timedelta_of_us (h * 3600000000).

(** [a - b] on two datetimes. *)
Definition datetime_sub (a b : datetime) : timedelta := timedelta_of_us (a - b).

(** [a - d] for a datetime and a timedelta. *)
Definition datetime_minus (a : datetime) (d : timedelta) : datetime := a - timedelta_us d.

(** ** The data model *)

(** An entry of [bin_locations]. *)
Record Location : Type := {
  loc_id : string;
  loc_lat : F64.float;
  loc_lon : F64.float;
  loc_area : string
}.

(** A bin dict: the keys of the location, then those added in the loop. *)
Record Bin : Type := {
  id : string;
  lat : F64.float;
  lon : F64.float;
  area : string;
  fill_level : Z;
  status : string;
  last_collection : datetime;
  daily_waste : Z;
  waste_classification : list (string * Z);
  temperature : Z;
  humidity : Z
}.

Definition bin_locations : list Location := [
  {| loc_id := "BIN001"; loc_lat := F64.literal 286139 4; loc_lon := F64.literal 772090 4; loc_area := "Connaught Place" |};
  {| loc_id := "BIN002"; loc_lat := F64.literal 286562 4; loc_lon := F64.literal 772410 4; loc_area := "Red Fort" |};
  {| loc_id := "BIN003"; loc_lat := F64.literal 285535 4; loc_lon := F64.literal 772588 4; loc_area := "Lotus Temple" |};
  {| loc_id := "BIN004"; loc_lat := F64.literal 286129 4; loc_lon := F64.literal 772295 4; loc_area := "India Gate" |};
  {| loc_id := "BIN005"; loc_lat := F64.literal 286448 4; loc_lon := F64.literal 772167 4; loc_area := "Chandni Chowk" |};
  {| loc_id := "BIN006"; loc_lat := F64.literal 285244 4; loc_lon := F64.literal 771855 4; loc_area := "Qutub Minar" |};
  {| loc_id := "BIN007"; loc_lat := F64.literal 286692 4; loc_lon := F64.literal 774538 4; loc_area := "Akshardham" |};
  {| loc_id := "BIN008"; loc_lat := F64.literal 286304 4; loc_lon := F64.literal 772177 4; loc_area := "Rajpath" |}
].

(** The location a bin dict carries (the [**location] part). *)
Definition location_of (b : Bin) : Location :=
  {| loc_id := id b; loc_lat := lat b; loc_lon := lon b; loc_area := area b |}.

(** ** [generate_bin_data] *)

(** One pass of the loop body (lines 82 to 103), in the order the draws
    are made. *)
Definition generate_bin (location : Location) (w0 : World) : Bin * World :=
  let '(fill, w1) := random_randint 10 95 w0 in
  let status_ := classify fill in
  let '(plastic, w2) := random_randint 20 40 w1 in
  let '(paper, w3) := random_randint 15 30 w2 in
  let '(glass, w4) := random_randint 5 20 w3 in
  let '(metal, w5) := random_randint 5 15 w4 in
  let '(organic, w6) := random_randint 25 45 w5 in
  let waste_types :=
    [("Plastic", plastic); ("Paper", paper); ("Glass", glass);
     ("Metal", metal); ("Organic", organic)] in
  let '(now, w7) := datetime_now w6 in
  let '(hours, w8) := random_randint 2 48 w7 in
  let '(waste, w9) := random_randint 50 200 w8 in
  let '(temp, w10) := random_randint 20 35 w9 in
  let '(hum, w11) := random_randint 40 80 w10 in
  ({| id := loc_id location;
      lat := loc_lat location;
      lon := loc_lon location;
      area := loc_area location;
      fill_level := fill;
      status := status_;
      last_collection := datetime_minus now (timedelta_hours hours);
      daily_waste := waste;
      waste_classification := waste_types;
      temperature := temp;
      humidity := hum |}, w11).

(** [for location in bin_locations: ... bins.append(...)] *)
Fixpoint generate_loop (locations : list Location) (bins : list Bin) (w : World)
  : list Bin * World :=
  match locations with
  | [] => (bins, w)
  | location :: rest =>
      let '(b, w') := generate_bin location w in
      generate_loop rest (bins ++ [b]) w'
  end.

Definition generate_bin_data (w : World) : list Bin * World :=
  generate_loop bin_locations [] w.

(** ** [create_city_map]: the marker colour (line 119) *)

Definition marker_color (bin_info : Bin) : string :=
  if fill_level bin_info >? 85 then "red"
  else if fill_level bin_info >? 70 then "orange"
  else "green".

(** The colour of every marker added to the map, in order. *)
Definition create_city_map (bin_data : list Bin) : list string :=
  map marker_color bin_data.

(** ** [create_efficiency_metrics] *)

Record Metrics : Type := {
  total_bins : Z;
  critical_bins : Z;
  warning_bins : Z;
  good_bins : Z;
  avg_fill_level : F64.float;
  total_daily_waste : Z;
  collection_efficiency : F64.float
}.

(** [sum(1 for bin_info in bin_data if bin_info['status'] == s)] *)
Definition count_status (s : string) (bin_data : list Bin) : Z :=
  Py.sum (map (fun _ => 1) (filter (fun bin_info => String.eqb (status bin_info) s) bin_data)).

(** [np.mean(xs)] on a list of Python ints (line 185), as NumPy 2
    computes it.

    [np.asanyarray] first gives the array an element type.  An int that
    fits a C long is an int64, one that fits only an unsigned 64-bit word
    is a uint64, any other stays a Python object; int64 with uint64 gives
    float64, anything with object gives object, and the empty list is an
    array of float64. *)
Inductive dtype : Type := int64 | uint64 | float64 | object.

Definition discover (x : Z) : dtype :=
  if (- 2 ^ 63 <=? x) && (x <? 2 ^ 63) then int64
  else if (0 <=? x) && (x <? 2 ^ 64) then uint64
  else object.

Definition promote (a b : dtype) : dtype :=
  match a, b with
  | object, _ | _, object => object
  | float64, _ | _, float64 => float64
  | int64, int64 => int64
  | uint64, uint64 => uint64
  | _, _ => float64
  end.

Definition array_dtype (xs : list Z) : dtype :=
  match xs with
  | [] => float64
  | x :: rest => fold_left (fun d y => promote d (discover y)) rest (discover x)
  end.

(** [r[j] += a[i + j]] for [j] in 0..7, over the next [blocks] groups of
    8 elements of [a]; what is left of [a] comes back with the sums. *)
Fixpoint add_blocks (blocks : nat) (r a : list F64.float)
  : list F64.float * list F64.float :=
  match blocks with
  | O => (r, a)
  | S blocks' =>
      add_blocks blocks'
                 (map (fun p => F64.add (fst p) (snd p)) (combine r (firstn 8 a)))
                 (skipn 8 a)
  end.

(** The unrolled loop of NumPy's [pairwise_sum], for 8 to 128 doubles:
    eight partial sums over the whole groups of 8, combined as a tree,
    then the remaining elements added in order. *)
Definition unrolled_sum (a : list F64.float) : F64.float :=
  let '(r, rest) := add_blocks (List.length a / 8 - 1) (firstn 8 a) (skipn 8 a) in
  match r with
  | [r0; r1; r2; r3; r4; r5; r6; r7] =>
      fold_left F64.add rest
                (F64.add (F64.add (F64.add r0 r1) (F64.add r2 r3))
                         (F64.add (F64.add r4 r5) (F64.add r6 r7)))
  | _ => fold_left F64.add a (S754_zero false)
  end.

(** NumPy's [pairwise_sum]: fewer than 8 doubles are added in order from
    0.0; up to 128 go through the unrolled loop; more are split in two
    at a multiple of 8 next to the middle and the two sums are added.
    Each half is shorter than the whole, so the length of the block is
    fuel enough. *)
Fixpoint pairwise_sum (fuel : nat) (a : list F64.float) : F64.float :=
  let n := List.length a in
  if (n <? 8)%nat then fold_left F64.add a (S754_zero false)
  else if (n <=? 128)%nat then unrolled_sum a
  else match fuel with
       | O => unrolled_sum a
       | S fuel' =>
           let n2 := (n / 2 - (n / 2) mod 8)%nat in
           F64.add (pairwise_sum fuel' (firstn n2 a)) (pairwise_sum fuel' (skipn n2 a))
       end.

(** The consecutive blocks of at most [size] elements of a list. *)
Fixpoint chunks {A : Type} (fuel size : nat) (a : list A) : list (list A) :=
  match fuel, a with
  | O, _ | _, [] => []
  | S fuel', _ => firstn size a :: chunks fuel' size (skipn size a)
  end.

(** NumPy's default buffer size, in elements. *)
Definition bufsize : nat := Z.to_nat 8192.

(** [np.add.reduce(arr, dtype='f8')] on an array of 64-bit ints: the
    ints are cast to doubles through a buffer of [bufsize] elements, and
    each bufferful is summed pairwise and added to the running total,
    which starts at 0.0. *)
Definition buffered_sum (xs : list Z) : F64.float :=
  fold_left (fun total block => F64.add total (pairwise_sum (List.length block) block))
            (chunks (List.length xs) bufsize (map F64.round_int xs))
            (S754_zero false).

(** [np.mean] itself.  An array of ints is summed in float64 and the
    sum divided by the count; an array of float64 (the empty list, or
    int64 mixed with uint64) is summed as it stands; both divisions are
    NumPy's, which give nan or an infinity where Python would raise.  An
    object array is summed with Python's exact [+], and the Python int
    that results is divided by the count, an [np.intp]: NumPy converts
    the int to int64 for that, and raises [OverflowError] when it does
    not fit. *)
Definition np_mean (xs : list Z) : Py.result F64.float :=
  let rcount := F64.round_int (Py.len xs) in
  match array_dtype xs with
  | int64 | uint64 => Py.Ok (F64.div (buffered_sum xs) rcount)
  | float64 =>
      let a := map F64.round_int xs in
      Py.Ok (F64.div (F64.add (S754_zero false) (pairwise_sum (List.length a) a)) rcount)
  | object =>
      let ret := Py.sum xs in
      if (- 2 ^ 63 <=? ret) && (ret <? 2 ^ 63)
      then Py.Ok (F64.div (F64.round_int ret) rcount)
      else Py.Raise Py.OverflowError
  end.

(** [((good_bins + warning_bins * 0.7) / total_bins) * 100] (line 189):
    each int operand is converted to a double when its operation runs. *)
Definition efficiency (good warning total : Z) : Py.result F64.float :=
  w <- F64.of_int warning ;;
  let weighted := F64.mul w (F64.literal 7 1) in
  g <- F64.of_int good ;;
  let served := F64.add g weighted in
  t <- F64.of_int total ;;
  ratio <- F64.truediv served t ;;
  hundred <- F64.of_int 100 ;;
  Py.Ok (F64.mul ratio hundred).

Definition create_efficiency_metrics (bin_data : list Bin) : Py.result Metrics :=
  let total := Py.len bin_data in
  let critical := count_status "Critical" bin_data in
  let warning := count_status "Warning" bin_data in
  let good := total - critical - warning in
  avg <- np_mean (map fill_level bin_data) ;;
  let waste := Py.sum (map daily_waste bin_data) in
  eff <- efficiency good warning total ;;
  Py.Ok {| total_bins := total;
           critical_bins := critical;
           warning_bins := warning;
           good_bins := good;
           avg_fill_level := avg;
           total_daily_waste := waste;
           collection_efficiency := eff |}.

(** The exact value of the formula, 100 (good + 0.7 warning) / total, as a
    rational. *)
Definition exact_efficiency (good warning total : Z) : Q :=
  (100 * (inject_Z good + (7 # 10) * inject_Z warning) / inject_Z total)%Q.

(** ** Session state and the refresh controls of [main] *)

(** [st.session_state]: the two keys set at lines 108 to 110. *)
Record SessionState : Type := {
  last_update : datetime;
  bin_data : list Bin
}.

(** Lines 108 to 110: the keys are set when [last_update] is absent. *)
Definition init_session (state : option SessionState) (w : World) : SessionState * World :=
  match state with
  | Some s => (s, w)
  | None =>
      let '(now, w1) := datetime_now w in
      let '(bins, w2) := generate_bin_data w1 in
      ({| last_update := now; bin_data := bins |}, w2)
  end.

(** The two assignments shared by both refresh paths (lines 242-243 and
    248-249): the snapshot first, then the timestamp. *)
Definition refresh (w : World) : SessionState * World :=
  let '(bins, w1) := generate_bin_data w in
  let '(now, w2) := datetime_now w1 in
  ({| last_update := now; bin_data := bins |}, w2).

(** [st.rerun()] abandons the pass; otherwise [main] goes on to render. *)
Inductive Flow : Type :=
| Rerun
| Render.

(** Lines 238 to 244, reached when [auto_refresh] is ticked. *)
Definition auto_refresh_check (s : SessionState) (w : World) : Flow * SessionState * World :=
  let '(now, w1) := datetime_now w in
  if seconds (datetime_sub now (last_update s)) >? 30 then
    let '(s', w2) := refresh w1 in (Rerun, s', w2)
  else (Render, s, w1).

(** Lines 236 to 250: the checkbox, then the button. *)
Definition main_controls (auto_refresh button : bool) (s : SessionState) (w : World)
  : Flow * SessionState * World :=
  let '(flow, s1, w1) :=
    if auto_refresh then auto_refresh_check s w else (Render, s, w) in
  match flow with
  | Rerun => (Rerun, s1, w1)
  | Render =>
      if button then
        let '(s2, w2) := refresh w1 in (Rerun, s2, w2)
      else (Render, s1, w1)
  end.

(** The session states a run can reach: the first pass creates one; each
    later pass applies the controls to it. *)
Inductive reachable : SessionState -> Prop :=
| reach_init : forall w, reachable (fst (init_session None w))
| reach_pass : forall s auto_refresh button w,
    reachable s ->
    reachable (snd (fst (main_controls auto_refresh button s w))).

(** ** The alert lists of [main] (lines 289 and 301 to 304) *)

Definition critical_alerts (bin_data : list Bin) : list Bin :=
  filter (fun bin_info => String.eqb (status bin_info) "Critical") bin_data.

(** The Warning bins, and the slice [warning_bins[:3]] that is shown. *)
Definition warning_list (bin_data : list Bin) : list Bin :=
  filter (fun bin_info => String.eqb (status bin_info) "Warning") bin_data.

Definition warning_alerts (bin_data : list Bin) : list Bin :=
  firstn 3 (warning_list bin_data).

(** ** The route catalog of [create_route_optimization_chart] *)

Record Route : Type := {
  Route_name : string;
  Bins : Z;
  Distance : F64.float;
  Time : F64.float;
  Efficiency : Z
}.

Definition routes : list Route := [
  {| Route_name := "Route A"; Bins := 8; Distance := F64.literal 255 1; Time := F64.literal 32 1; Efficiency := 85 |};
  {| Route_name := "Route B"; Bins := 6; Distance := F64.literal 183 1; Time := F64.literal 28 1; Efficiency := 92 |};
  {| Route_name := "Route C"; Bins := 10; Distance := F64.literal 321 1; Time := F64.literal 41 1; Efficiency := 78 |};
  {| Route_name := "Route D"; Bins := 7; Distance := F64.literal 217 1; Time := F64.literal 30 1; Efficiency := 88 |}
].

(** The two route recommendations of [main] (lines 381 and 382), after
    their leading pictograph. *)
Definition recommendations : list string := [
  "Route B shows highest efficiency (92%) - consider as template for other routes";
  "Route C has lowest efficiency (78%) - recommend redistribution of bins"
].

(** Modelled from the spec: [app.py] has no route query, it only
    hard-codes the answers in [recommendations].  The choice among the
    entries of a catalog, as the spec words it: the running choice changes
    only on a strictly better entry, so the first occurrence wins a tie. *)
Definition pick_by (better : Z -> Z -> bool) (first : Route) (rest : list Route) : Route :=
  fold_left (fun chosen r => if better (Efficiency r) (Efficiency chosen) then r else chosen)
            rest first.

(** Modelled from the spec: the maximum by efficiency of a catalog. *)
Definition best_of (catalog : list Route) : option Route :=
  match catalog with
  | [] => None
  | r :: rest => Some (pick_by Z.gtb r rest)
  end.

(** Modelled from the spec: the minimum by efficiency of a catalog. *)
Definition worst_of (catalog : list Route) : option Route :=
  match catalog with
  | [] => None
  | r :: rest => Some (pick_by Z.ltb r rest)
  end.

(** Modelled from the spec: [best_route()] over the fixed catalog. *)
Definition best_route : option Route := best_of routes.

(** Modelled from the spec: [worst_route()] over the fixed catalog. *)
Definition worst_route : option Route := worst_of routes.

(** A score as Python's f-string prints an int. *)
Definition decimal (z : Z) : string := NilZero.string_of_int (Z.to_int z).

(** The two recommendation texts as they read for a given route. *)
Definition best_text (r : Route) : string :=
  (Route_name r ++ " shows highest efficiency (" ++ decimal (Efficiency r)
   ++ "%) - consider as template for other routes")%string.

Definition worst_text (r : Route) : string :=
  (Route_name r ++ " has lowest efficiency (" ++ decimal (Efficiency r)
   ++ "%) - recommend redistribution of bins")%string.

(** ** Sample inputs *)

(** A world whose raw draws and clock readings are fixed. *)
Definition sample_world : World :=
  {| rand := fun n => Z.of_nat n * 7919 + 13;
     rand_pos := 0;
     clock := fun n => 1700000000000000 + Z.of_nat n * 2000000;
     clock_pos := 0 |}.

(** A reading of the bin at [location] with the given fill level, its
    status set as line 83 sets it. *)
Definition reading (location : Location) (fill : Z) : Bin :=
  {| id := loc_id location;
     lat := loc_lat location;
     lon := loc_lon location;
     area := loc_area location;
     fill_level := fill;
     status := classify fill;
     last_collection := 0;
     daily_waste := 100;
     waste_classification :=
       [("Plastic", 30); ("Paper", 20); ("Glass", 10); ("Metal", 10); ("Organic", 30)];
     temperature := 25;
     humidity := 60 |}.

(** A reading whose fill level, 10^400, is too large for a double. *)
Definition oversized_reading : Bin :=
  {| id := "BIN001"; lat := S754_zero false; lon := S754_zero false;
     area := "Connaught Place"; fill_level := 10 ^ 400; status := classify (10 ^ 400);
     last_collection := 0; daily_waste := 100;
     waste_classification :=
       [("Plastic", 30); ("Paper", 20); ("Glass", 10); ("Metal", 10); ("Organic", 30)];
     temperature := 25; humidity := 60 |}.

(** The fleet with fill levels 90, 86, 70, 71, 50, 10, 85, 95. *)
Definition scenario : list Bin :=
  map (fun '(location, fill) => reading location fill)
      (combine bin_locations [90; 86; 70; 71; 50; 10; 85; 95]).

Definition bin_ids : list string :=
  ["BIN001"; "BIN002"; "BIN003"; "BIN004"; "BIN005"; "BIN006"; "BIN007"; "BIN008"].

(** A session last refreshed at a fixed instant, and a world whose clock
    shows [t] at every reading. *)
Definition stale_session : SessionState :=
  {| last_update := 1700000000000000; bin_data := scenario |}.

Definition world_at (t : datetime) : World :=
  {| rand := rand sample_world; rand_pos := 0; clock := fun _ => t; clock_pos := 0 |}.

(** ** Notions used in the statements *)

(** A float that is a non-zero number of sign [sx], or that infinity. *)
Definition nonzero_number (sx : bool) (x : F64.float) : Prop :=
  (exists m e, x = S754_finite sx m e) \/ x = S754_infinity sx.

(** [r] is the first entry of [l] that no entry beats, [R a b] reading
    "score [a] beats score [b]". *)
Definition first_best (R : Z -> Z -> Prop) (l : list Route) (r : Route) : Prop :=
  exists l1 l2, l = l1 ++ r :: l2 /\
    (forall x, In x l1 -> R (Efficiency r) (Efficiency x)) /\
    (forall x, In x l2 -> ~ R (Efficiency x) (Efficiency r)).

(** The statuses the classifier produces. *)
Definition known_status (b : Bin) : Prop :=
  status b = "Good" \/ status b = "Warning" \/ status b = "Critical".

(** A snapshot whose fill levels are 64-bit signed integers. *)
Definition int64_fill_levels (bin_data : list Bin) : Prop :=
  Forall (fun b => - 2 ^ 63 <= fill_level b < 2 ^ 63) bin_data.

(** The elapsed time the refresh check is meant to compare with 30 s, in
    microseconds. *)
Definition elapsed_us (now : datetime) (s : SessionState) : Z := now - last_update s.

(** The largest fleet on which the score is analysed: 2^48 bins. *)
Definition fleet_limit : Z := 2 ^ 48.

(** The two constants of line 189 as doubles: 0.7 and 100. *)
Definition c07 : F64.float := S754_finite false 6305039478318694 (-53).
Definition c100 : F64.float := S754_finite false 7036874417766400 (-46).

(** [good_bins + warning_bins * 0.7] and the whole of line 189, on
    operands already converted. *)
Definition served (g w : Z) : F64.float :=
  F64.add (F64.round_int g) (F64.mul (F64.round_int w) (F64.literal 7 1)).

Definition score (g w t : Z) : F64.float :=
  F64.mul (F64.div (served g w) (F64.round_int t)) (F64.round_int 100).

(** The real value of a positive float of mantissa [m] and exponent [e],
    and of any float (0 for the values that are not numbers). *)
Definition val (m : positive) (e : Z) : R := (IZR (Zpos m) * powerRZ 2 e)%R.

Definition to_R (x : F64.float) : R :=
  match x with
  | S754_finite s m e => if s then (- val m e)%R else val m e
  | _ => 0%R
  end.

(** A mantissa of full width, 53 bits. *)
Definition normal (m : positive) : Prop := 2 ^ 52 <= Zpos m < 2 ^ 53.

(** One unit in the last place, relative to a full-width mantissa. *)
Definition eps : R := (/ 4503599627370496)%R.

(** * The rest of [app.py] *)

(** ** [create_city_map]: the marker radius (line 132) *)

(** An int as the exact operand of a true division: mantissa and
    exponent 0, whatever its size. *)
Definition int_operand (z : Z) : F64.float :=
  match z with
  | Z0 => S754_zero false
  | Zpos p => S754_finite false p 0
  | Zneg p => S754_finite true p 0
  end.

(** [a / b] on two Python ints: the double nearest to the exact quotient;
    [ZeroDivisionError] on a zero divisor, [OverflowError] when the
    quotient does not fit in a double. *)
Definition int_truediv (a b : Z) : Py.result F64.float :=
  if b =? 0 then Py.Raise Py.ZeroDivisionError
  else
    let q := F64.div (int_operand a) (int_operand b) in
    if F64.is_finite q then Py.Ok q else Py.Raise Py.OverflowError.

(** [10 + (fill / 10)] at a given fill level. *)
Definition radius_at (fill : Z) : Py.result F64.float :=
  q <- int_truediv fill 10 ;;
  ten <- F64.of_int 10 ;;
  Py.Ok (F64.add ten q).

(** [10 + (bin_info['fill_level'] / 10)] *)
Definition marker_radius (bin_info : Bin) : Py.result F64.float :=
  radius_at (fill_level bin_info).

(** The fill levels the generator can draw. *)
Definition fill_levels : list Z := map (fun n => 10 + Z.of_nat n) (seq 0 86).

(** ** [create_waste_classification_chart] *)

(** A dict with string keys, as Python keeps it: the entries in insertion
    order. *)
Definition dict : Type := list (string * Z).

(** The outcome of code that subscripts a dict: a value, or [KeyError]
    with the key that was missing. *)
Inductive keyed (A : Type) : Type :=
| Found (a : A)
| KeyError (key : string).
Arguments Found {A} a.
Arguments KeyError {A} key.

(** [d[key] += amount]: the entry is read, which raises on a missing key,
    and stored again in its place. *)
Fixpoint dict_iadd (d : dict) (key : string) (amount : Z) : keyed dict :=
  match d with
  | [] => KeyError key
  | (k, v) :: rest =>
      if String.eqb k key then Found ((k, v + amount) :: rest)
      else
        match dict_iadd rest key amount with
        | Found rest' => Found ((k, v) :: rest')
        | KeyError missing => KeyError missing
        end
  end.

(** [for waste_type, amount in bin_info['waste_classification'].items()] *)
Fixpoint add_waste (total_waste : dict) (items : list (string * Z)) : keyed dict :=
  match items with
  | [] => Found total_waste
  | (waste_type, amount) :: rest =>
      match dict_iadd total_waste waste_type amount with
      | Found total_waste' => add_waste total_waste' rest
      | KeyError missing => KeyError missing
      end
  end.

(** [for bin_info in bin_data] *)
Fixpoint add_bins (total_waste : dict) (bin_data : list Bin) : keyed dict :=
  match bin_data with
  | [] => Found total_waste
  | bin_info :: rest =>
      match add_waste total_waste (waste_classification bin_info) with
      | Found total_waste' => add_bins total_waste' rest
      | KeyError missing => KeyError missing
      end
  end.

Definition waste_types : list string := ["Plastic"; "Paper"; "Glass"; "Metal"; "Organic"].

(** The [values] and [names] handed to [px.pie]. *)
Definition create_waste_classification_chart (bin_data : list Bin)
  : keyed (list Z * list string) :=
  match add_bins (map (fun k => (k, 0)) waste_types) bin_data with
  | Found total_waste => Found (map snd total_waste, map fst total_waste)
  | KeyError missing => KeyError missing
  end.

(** All the weight entered under [key] in a snapshot. *)
Definition entered (key : string) (bin_data : list Bin) : Z :=
  Py.sum (map snd (filter (fun e => String.eqb (fst e) key)
                          (flat_map waste_classification bin_data))).

(** ** [create_fill_level_chart] *)

(** A row of the data frame. *)
Record FillRow : Type := {
  row_bin_id : string;
  row_fill_level : Z;
  row_area : string;
  row_status : string
}.

Definition fill_level_rows (bin_data : list Bin) : list FillRow :=
  map (fun bin_info =>
         {| row_bin_id := id bin_info;
            row_fill_level := fill_level bin_info;
            row_area := area bin_info;
            row_status := status bin_info |}) bin_data.

Definition color_discrete_map : list (string * string) :=
  [("Good", "green"); ("Warning", "orange"); ("Critical", "red")].

(** The colour [px.bar] gives a row through [color_discrete_map]; a status
    outside the map is left to the default palette, [None] here. *)
Definition bar_color (row : FillRow) : option string :=
  option_map snd (find (fun e => String.eqb (fst e) (row_status row)) color_discrete_map).

(** The two horizontal lines: height and colour. *)
Definition hlines : list (Z * string) := [(85, "red"); (70, "orange")].

(** ** [main]: the rendered alerts (lines 290 to 310) *)

(** What [st.markdown] is given: a heading, or an alert box with its CSS
    class, the bin's id, area and fill level, and the fixed advice. *)
Inductive Markup : Type :=
| Heading (text : string)
| AlertBox (css_class bin_id bin_area : string) (fill : Z) (advice : string).

Definition render_critical (bin_data : list Bin) : list Markup :=
  let critical_bins := critical_alerts bin_data in
  match critical_bins with
  | [] => []
  | _ =>
      Heading "#### Critical Alerts"
      :: map (fun bin_info =>
                AlertBox "alert-high" (id bin_info) (area bin_info) (fill_level bin_info)
                         "Immediate collection required") critical_bins
  end.

Definition render_warning (bin_data : list Bin) : list Markup :=
  let warning_bins := warning_list bin_data in
  match warning_bins with
  | [] => []
  | _ =>
      Heading "#### Warning Alerts"
      :: map (fun bin_info =>
                AlertBox "alert-medium" (id bin_info) (area bin_info) (fill_level bin_info)
                         "Schedule collection soon") (firstn 3 warning_bins)
  end.

(** ** [main]: the recent classifications (lines 417 to 424) *)

(** [format(n, "03d")]: the sign, then the digits padded with zeros to a
    width of 3 in all. *)
Definition format_03d (n : Z) : string :=
  let sign := if n <? 0 then "-" else "" in
  let digits := NilZero.string_of_uint (N.to_uint (Z.to_N (Z.abs n))) in
  (sign ++ String.concat "" (repeat "0" (3 - String.length sign - String.length digits))
        ++ digits)%string.

(** [[f(random.randint(a, b)) for _ in range(n)]] *)
Fixpoint randint_column {A : Type} (f : Z -> A) (a b : Z) (n : nat) (w : World)
  : list A * World :=
  match n with
  | O => ([], w)
  | S n' =>
      let '(x, w1) := random_randint a b w in
      let '(xs, w2) := randint_column f a b n' w1 in
      (f x :: xs, w2)
  end.

(** The "Bin ID" column. *)
Definition recent_bin_ids (w : World) : list string * World :=
  randint_column (fun n => ("BIN" ++ format_03d n)%string) 1 8 10 w.

(** The "Confidence" column. *)
Definition recent_confidence (w : World) : list Z * World :=
  randint_column (fun n => n) 85 99 10 w.

(** The "Timestamp" column:
    [pd.date_range(start=now - timedelta(hours=2), periods=10, freq='12min')]. *)
Definition recent_timestamps (now : datetime) : list datetime :=
  let start := datetime_minus now (timedelta_hours 2) in
  map (fun i => start + Z.of_nat i * (12 * 60 * 1000000)) (seq 0 10).

(** ** [main]: the deployment progress (lines 463 to 476) *)

Definition phases : list string :=
  ["Phase 1 - Pilot Test"; "Phase 2 - City-wide Rollout"; "Phase 3 - Full Deployment"].

Definition deployment_progress (phase : string) : Z :=
  if String.eqb phase "Phase 1 - Pilot Test" then 100
  else if String.eqb phase "Phase 2 - City-wide Rollout" then 65
  else 30.

(** The fraction given to [st.progress]: [progress/100]. *)
Definition progress_fraction (phase : string) : Py.result F64.float :=
  int_truediv (deployment_progress phase) 100.

(** ** Notions used in the further statements *)

(** A clock that never runs backwards. *)
Definition clock_monotone (w : World) : Prop :=
  forall n m, (n <= m)%nat -> clock w n <= clock w m.

(** The first value stored under a key. *)
Definition lookup (d : dict) (key : string) : option Z :=
  option_map snd (find (fun e => String.eqb (fst e) key) d).

(** Every waste type of every bin is one the chart totals. *)
Definition known_waste (bin_data : list Bin) : Prop :=
  Forall (fun e => In (fst e) waste_types) (flat_map waste_classification bin_data).

(** A snapshot whose statuses are the classifier's. *)
Definition consistent (bin_data : list Bin) : Prop :=
  Forall (fun b => status b = classify (fill_level b)) bin_data.

(** A reading carrying a waste type the chart does not know. *)
Definition rubber_bin : Bin :=
  {| id := "BIN009"; lat := S754_zero false; lon := S754_zero false; area := "Depot";
     fill_level := 40; status := classify 40; last_collection := 0; daily_waste := 100;
     waste_classification := [("Plastic", 30); ("Rubber", 5); ("Paper", 20)];
     temperature := 25; humidity := 60 |}.

(** The weight listed under a waste type in a sequence of entries. *)
Definition weight_under (key : string) (items : list (string * Z)) : Z :=
  Py.sum (map snd (filter (fun e => String.eqb (fst e) key) items)).

(** The radius of line 132 as a rational, and the checks of its range,
    of its distance to [10 + fill / 10] and of its growth with the fill
    level. *)
Definition radius_Q (fill : Z) : Q :=
  match radius_at fill with
  | Py.Ok r => F64.to_Q r
  | Py.Raise _ => 0%Q
  end.

Definition radius_ok (fill : Z) : bool :=
  match radius_at fill with
  | Py.Ok r =>
      F64.leb (F64.round_int 11) r && F64.leb r (F64.literal 195 1)
      && Qle_bool (radius_Q fill - (10 + inject_Z fill / 10)) (1 # 281474976710656)
      && Qle_bool ((10 + inject_Z fill / 10) - radius_Q fill) (1 # 281474976710656)
  | Py.Raise _ => false
  end.

Definition radius_step_ok (fill : Z) : bool :=
  negb (Qle_bool (radius_Q (fill + 1)) (radius_Q fill)).

(** The bin identifiers of the alert boxes of a rendering, in order. *)
Definition box_ids (blocks : list Markup) : list string :=
  flat_map (fun m => match m with
                     | Heading _ => []
                     | AlertBox _ bin_id _ _ _ => [bin_id]
                     end) blocks.

(** * Properties *)

(** ** The classifier *)

Lemma classify_cases (f : Z) :
  (85 < f /\ classify f = "Critical") \/
  (70 < f <= 85 /\ classify f = "Warning") \/
  (f <= 70 /\ classify f = "Good").
Proof.
  unfold classify.
  destruct (f >? 85) eqn:H85; [left; split; [lia | reflexivity] |].
  destruct (f >? 70) eqn:H70; [right; left | right; right]; split; (lia || reflexivity).
Qed.

(** C1: the classifier is a total function of the integer fill level:
    Critical above 85, otherwise Warning above 70, otherwise Good; so 86 is
    Critical, 85 and 71 are Warning, 70 is Good, and no other status is
    ever produced. *)
Theorem classify_total (f : Z) :
  (85 < f -> classify f = "Critical") /\
  (70 < f <= 85 -> classify f = "Warning") /\
  (f <= 70 -> classify f = "Good") /\
  (classify f = "Good" \/ classify f = "Warning" \/ classify f = "Critical") /\
  classify 86 = "Critical" /\ classify 85 = "Warning" /\
  classify 71 = "Warning" /\ classify 70 = "Good".
Proof.
  destruct (classify_cases f) as [[H E] | [[H E] | [H E]]]; rewrite E;
    repeat split; intros; try reflexivity; try lia; auto.
Qed.

Lemma classify_total_witness : 85 < 90 /\ classify 90 = "Critical".
Proof.
  assert (H : 85 < 90) by lia.
  split; [exact H | apply (proj1 (classify_total 90)); exact H].
Defined.

(** ** The generator *)

Lemma random_randint_range (a b : Z) (w : World) :
  a <= b -> a <= fst (random_randint a b w) <= b.
Proof.
  intros Hab. unfold random_randint. simpl.
  pose proof (Z.mod_pos_bound (rand w (rand_pos w)) (b - a + 1)). lia.
Qed.

Lemma generate_bin_location (location : Location) (w : World) :
  location_of (fst (generate_bin location w)) = location.
Proof. destruct location. reflexivity. Qed.

Lemma generate_bin_status (location : Location) (w : World) :
  status (fst (generate_bin location w)) = classify (fill_level (fst (generate_bin location w))).
Proof. reflexivity. Qed.

Lemma generate_bin_fill (location : Location) (w : World) :
  10 <= fill_level (fst (generate_bin location w)) <= 95.
Proof.
  change (fill_level (fst (generate_bin location w))) with (fst (random_randint 10 95 w)).
  apply random_randint_range. lia.
Qed.

Section GenerateLoop.

Variable P : Bin -> Prop.
Hypothesis P_generated : forall location w, P (fst (generate_bin location w)).

Lemma generate_loop_Forall (locations : list Location) :
  forall bins w, Forall P bins -> Forall P (fst (generate_loop locations bins w)).
Proof.
  induction locations as [| location rest IH]; intros bins w Hbins; cbn [generate_loop].
  - exact Hbins.
  - destruct (generate_bin location w) as [b w'] eqn:Hb.
    apply IH. apply Forall_app. split; [exact Hbins |].
    constructor; [| constructor].
    replace b with (fst (generate_bin location w)) by (rewrite Hb; reflexivity).
    apply P_generated.
Qed.

End GenerateLoop.

Lemma generate_loop_locations (locations : list Location) :
  forall bins w,
    map location_of (fst (generate_loop locations bins w)) =
    map location_of bins ++ locations.
Proof.
  induction locations as [| location rest IH]; intros bins w; cbn [generate_loop].
  - cbn [fst]. now rewrite app_nil_r.
  - destruct (generate_bin location w) as [b w'] eqn:Hb.
    assert (Hloc : location_of b = location).
    { replace b with (fst (generate_bin location w)) by (rewrite Hb; reflexivity).
      apply generate_bin_location. }
    rewrite IH, map_app, <- app_assoc. cbn [map app]. now rewrite Hloc.
Qed.

Lemma generate_bin_data_locations (w : World) :
  map location_of (fst (generate_bin_data w)) = bin_locations.
Proof. unfold generate_bin_data. now rewrite generate_loop_locations. Qed.

Lemma map_id_locations (S : list Bin) :
  map id S = map loc_id (map location_of S).
Proof. rewrite map_map. reflexivity. Qed.

(** C8: in every generated snapshot each reading's status is the
    classifier's value at that reading's fill level (which lies between 10
    and 95). *)
Theorem generated_status_consistent (w : World) :
  Forall (fun b => status b = classify (fill_level b) /\ 10 <= fill_level b <= 95)
         (fst (generate_bin_data w)).
Proof.
  unfold generate_bin_data. apply generate_loop_Forall; [| constructor].
  intros location w'. split; [apply generate_bin_status | apply generate_bin_fill].
Qed.

(** ** The marker colour against the stored status *)

(** C10: for a reading whose status is the classifier's value at its fill
    level, the colour [create_city_map] derives again from the fill level
    is red exactly for Critical, orange exactly for Warning and green
    exactly for Good. *)
Theorem marker_color_agrees (b : Bin) :
  status b = classify (fill_level b) ->
  (marker_color b = "red" <-> status b = "Critical") /\
  (marker_color b = "orange" <-> status b = "Warning") /\
  (marker_color b = "green" <-> status b = "Good").
Proof.
  intros Hst. rewrite Hst. unfold marker_color, classify.
  destruct (fill_level b >? 85); [| destruct (fill_level b >? 70)];
    repeat split; intros H; (reflexivity || discriminate H).
Qed.

Lemma marker_color_agrees_witness :
  let b := reading (hd (Build_Location "" (S754_zero false) (S754_zero false) "") bin_locations) 90 in
  status b = classify (fill_level b) /\
  (marker_color b = "red" <-> status b = "Critical") /\
  (marker_color b = "orange" <-> status b = "Warning") /\
  (marker_color b = "green" <-> status b = "Good").
Proof.
  intros b. split; [reflexivity | apply (marker_color_agrees b); reflexivity].
Defined.

(** ** The fleet across refreshes *)

Lemma refresh_bin_data (w : World) :
  bin_data (fst (refresh w)) = fst (generate_bin_data w).
Proof.
  unfold refresh. destruct (generate_bin_data w) as [bins w1]. reflexivity.
Qed.

Lemma init_session_bin_data (w : World) :
  exists w', bin_data (fst (init_session None w)) = fst (generate_bin_data w').
Proof.
  unfold init_session.
  destruct (datetime_now w) as [now w1].
  exists w1. destruct (generate_bin_data w1) as [bins w2]. reflexivity.
Qed.

Lemma auto_refresh_check_state (s : SessionState) (w : World) :
  snd (fst (auto_refresh_check s w)) = s \/
  exists w', snd (fst (auto_refresh_check s w)) = fst (refresh w').
Proof.
  unfold auto_refresh_check.
  destruct (datetime_now w) as [now w1].
  destruct (seconds (datetime_sub now (last_update s)) >? 30).
  - right. exists w1. destruct (refresh w1) as [s' w2]. reflexivity.
  - left. reflexivity.
Qed.

Lemma main_controls_state (auto_refresh button : bool) (s : SessionState) (w : World) :
  snd (fst (main_controls auto_refresh button s w)) = s \/
  exists w', snd (fst (main_controls auto_refresh button s w)) = fst (refresh w').
Proof.
  unfold main_controls.
  destruct auto_refresh.
  - pose proof (auto_refresh_check_state s w) as H.
    destruct (auto_refresh_check s w) as [[flow s1] w1]. cbn [fst snd] in H.
    destruct flow; [exact H |].
    destruct button.
    + right. exists w1. destruct (refresh w1) as [s2 w2]. reflexivity.
    + exact H.
  - destruct button.
    + right. exists w. destruct (refresh w) as [s2 w2]. reflexivity.
    + left. reflexivity.
Qed.

Lemma reachable_locations (s : SessionState) :
  reachable s -> map location_of (bin_data s) = bin_locations.
Proof.
  induction 1 as [w | s auto_refresh button w Hs IH].
  - destruct (init_session_bin_data w) as [w' ->]. apply generate_bin_data_locations.
  - destruct (main_controls_state auto_refresh button s w) as [-> | [w' ->]].
    + exact IH.
    + rewrite refresh_bin_data. apply generate_bin_data_locations.
Qed.

(** C7: every generated snapshot has exactly 8 readings, one per bin id
    BIN001 to BIN008 in registration order, each with the coordinates and
    area of its catalog entry; a refresh stores a newly generated snapshot
    in place of the old one, and over any run the stored snapshot keeps
    the same bin ids. *)
Theorem snapshot_bin_identities :
  (forall w, List.length (fst (generate_bin_data w)) = 8%nat /\
             map id (fst (generate_bin_data w)) = bin_ids /\
             map location_of (fst (generate_bin_data w)) = bin_locations) /\
  NoDup bin_ids /\
  (forall w, bin_data (fst (refresh w)) = fst (generate_bin_data w)) /\
  (forall s, reachable s ->
             map location_of (bin_data s) = bin_locations /\
             map id (bin_data s) = bin_ids) /\
  (forall s auto_refresh button w, reachable s ->
             map id (bin_data (snd (fst (main_controls auto_refresh button s w)))) =
             map id (bin_data s)).
Proof.
  assert (Hgen : forall w, map location_of (fst (generate_bin_data w)) = bin_locations)
    by apply generate_bin_data_locations.
  assert (Hids : forall S, map location_of S = bin_locations -> map id S = bin_ids).
  { intros S HS. rewrite map_id_locations, HS. reflexivity. }
  split; [| split; [| split; [| split]]].
  - intros w. split; [| split].
    + rewrite <- (length_map location_of), Hgen. reflexivity.
    + apply Hids, Hgen.
    + apply Hgen.
  - repeat constructor; simpl; intuition discriminate.
  - apply refresh_bin_data.
  - intros s Hs. split.
    + now apply reachable_locations.
    + now apply Hids, reachable_locations.
  - intros s auto_refresh button w Hs.
    rewrite (Hids (bin_data s)) by now apply reachable_locations.
    apply Hids, reachable_locations. now constructor.
Qed.

Lemma snapshot_bin_identities_witness :
  let s := fst (init_session None sample_world) in
  reachable s /\
  map id (bin_data s) = bin_ids /\
  map id (bin_data (snd (fst (main_controls true true s sample_world)))) = map id (bin_data s).
Proof.
  intros s.
  destruct snapshot_bin_identities as (_ & _ & _ & Hreach & Hpass).
  assert (Hs : reachable s) by apply reach_init.
  split; [exact Hs |]. split; [apply (Hreach s Hs) | apply (Hpass s true true sample_world Hs)].
Defined.

(** ** Counting and the alert lists *)

Lemma sum_ones_from {A : Type} (l : list A) (a : Z) :
  fold_left Z.add (map (fun _ => 1) l) a = a + Z.of_nat (List.length l).
Proof.
  revert a. induction l as [| x l IH]; intros a; cbn [map fold_left List.length].
  - lia.
  - rewrite IH. lia.
Qed.

Lemma count_status_length (s : string) (S : list Bin) :
  count_status s S =
  Z.of_nat (List.length (filter (fun b => String.eqb (status b) s) S)).
Proof. unfold count_status, Py.sum. now rewrite sum_ones_from. Qed.

Lemma count_status_nonneg (s : string) (S : list Bin) : 0 <= count_status s S.
Proof. rewrite count_status_length. lia. Qed.

Lemma count_status_cons (s : string) (b : Bin) (S : list Bin) :
  count_status s (b :: S) =
  (if String.eqb (status b) s then 1 else 0) + count_status s S.
Proof.
  rewrite !count_status_length. cbn [filter].
  destruct (String.eqb (status b) s); cbn [List.length]; lia.
Qed.

(** C5: the critical list holds exactly the Critical bins of the snapshot
    in snapshot order, with no cap, so its length is the critical count;
    the warning list is the first 3 of the Warning bins taken in snapshot
    order, so its length is the smaller of the warning count and 3. *)
Theorem alert_lists (S : list Bin) :
  (forall b, In b (critical_alerts S) <-> In b S /\ status b = "Critical") /\
  (forall S1 S2, critical_alerts (S1 ++ S2) = critical_alerts S1 ++ critical_alerts S2) /\
  (forall b, critical_alerts [b] = if String.eqb (status b) "Critical" then [b] else []) /\
  Z.of_nat (List.length (critical_alerts S)) = count_status "Critical" S /\
  (forall b, In b (warning_list S) <-> In b S /\ status b = "Warning") /\
  (forall S1 S2, warning_list (S1 ++ S2) = warning_list S1 ++ warning_list S2) /\
  (forall b, warning_list [b] = if String.eqb (status b) "Warning" then [b] else []) /\
  warning_alerts S = firstn 3 (warning_list S) /\
  Z.of_nat (List.length (warning_alerts S)) = Z.min (count_status "Warning" S) 3.
Proof.
  split; [| split; [| split; [| split; [| split; [| split; [| split; [| split]]]]]]].
  - intros b. unfold critical_alerts. rewrite filter_In, String.eqb_eq. reflexivity.
  - intros S1 S2. apply filter_app.
  - reflexivity.
  - now rewrite count_status_length.
  - intros b. unfold warning_list. rewrite filter_In, String.eqb_eq. reflexivity.
  - intros S1 S2. apply filter_app.
  - reflexivity.
  - reflexivity.
  - unfold warning_alerts. rewrite length_firstn, count_status_length.
    unfold warning_list. lia.
Qed.

(** ** Routes *)

Section Pick.

Variable better : Z -> Z -> bool.
Variable R : Z -> Z -> Prop.
Hypothesis better_spec : forall a b, better a b = true <-> R a b.
Hypothesis R_trans : forall a b c, R a b -> R b c -> R a c.
Hypothesis R_over : forall a b c, R a b -> ~ R c b -> R a c.

Lemma pick_by_first_best (rest : list Route) :
  forall l1 chosen l2,
    (forall x, In x l1 -> R (Efficiency chosen) (Efficiency x)) ->
    (forall x, In x l2 -> ~ R (Efficiency x) (Efficiency chosen)) ->
    first_best R (l1 ++ chosen :: l2 ++ rest) (pick_by better chosen rest).
Proof.
  induction rest as [| x rest IH]; intros l1 chosen l2 H1 H2.
  - exists l1, l2. rewrite app_nil_r. auto.
  - unfold pick_by in *. cbn [fold_left].
    destruct (better (Efficiency x) (Efficiency chosen)) eqn:Hb.
    + apply better_spec in Hb.
      replace (l1 ++ chosen :: l2 ++ x :: rest)
        with ((l1 ++ chosen :: l2) ++ x :: [] ++ rest)
        by (rewrite <- app_assoc; reflexivity).
      apply IH.
      * intros y Hy. apply in_app_or in Hy. destruct Hy as [Hy | [<- | Hy]].
        -- eapply R_trans; [exact Hb | now apply H1].
        -- exact Hb.
        -- eapply R_over; [exact Hb | now apply H2].
      * intros y [].
    + replace (l1 ++ chosen :: l2 ++ x :: rest)
        with (l1 ++ chosen :: (l2 ++ [x]) ++ rest)
        by (rewrite <- (app_assoc l2); reflexivity).
      apply IH; [exact H1 |].
      intros y Hy. apply in_app_or in Hy. destruct Hy as [Hy | [<- | []]].
      * now apply H2.
      * intros Hr. apply better_spec in Hr. congruence.
Qed.

End Pick.

Lemma best_of_first_max (catalog : list Route) (r : Route) :
  best_of catalog = Some r -> first_best Z.gt catalog r.
Proof.
  destruct catalog as [| r0 rest]; [discriminate |].
  intros [= <-].
  apply (pick_by_first_best Z.gtb Z.gt) with (l1 := []) (l2 := []);
    try (intros; lia); try (intros ? []).
Qed.

Lemma worst_of_first_min (catalog : list Route) (r : Route) :
  worst_of catalog = Some r -> first_best Z.lt catalog r.
Proof.
  destruct catalog as [| r0 rest]; [discriminate |].
  intros [= <-].
  apply (pick_by_first_best Z.ltb Z.lt) with (l1 := []) (l2 := []);
    try (intros; lia); try (intros ? []).
Qed.

(** C6: over the catalog with efficiencies A:85, B:92, C:78, D:88 the best
    route is Route B, the maximum by efficiency, and the worst is Route C,
    the minimum; on any catalog the choice is the first entry in catalog
    order among those of best (or worst) efficiency.  The two route
    recommendations of [main] name exactly these routes and scores. *)
Theorem best_and_worst_route :
  map (fun r => (Route_name r, Efficiency r)) routes =
    [("Route A", 85); ("Route B", 92); ("Route C", 78); ("Route D", 88)] /\
  option_map Route_name best_route = Some "Route B" /\
  option_map Efficiency best_route = Some 92 /\
  option_map Route_name worst_route = Some "Route C" /\
  option_map Efficiency worst_route = Some 78 /\
  (forall catalog r, best_of catalog = Some r ->
     exists l1 l2, catalog = l1 ++ r :: l2 /\
       (forall x, In x l1 -> Efficiency x < Efficiency r) /\
       (forall x, In x l2 -> Efficiency x <= Efficiency r)) /\
  (forall catalog r, worst_of catalog = Some r ->
     exists l1 l2, catalog = l1 ++ r :: l2 /\
       (forall x, In x l1 -> Efficiency r < Efficiency x) /\
       (forall x, In x l2 -> Efficiency r <= Efficiency x)) /\
  (forall catalog, catalog <> [] -> best_of catalog <> None /\ worst_of catalog <> None) /\
  option_map best_text best_route = nth_error recommendations 0 /\
  option_map worst_text worst_route = nth_error recommendations 1.
Proof.
  split; [reflexivity |].
  split; [reflexivity |].
  split; [reflexivity |].
  split; [reflexivity |].
  split; [reflexivity |].
  split; [| split; [| split; [| split; reflexivity]]].
  - intros catalog r H. destruct (best_of_first_max catalog r H) as (l1 & l2 & E & H1 & H2).
    exists l1, l2. split; [exact E |]. split; intros x Hx.
    + specialize (H1 x Hx). lia.
    + specialize (H2 x Hx). lia.
  - intros catalog r H. destruct (worst_of_first_min catalog r H) as (l1 & l2 & E & H1 & H2).
    exists l1, l2. split; [exact E |]. split; intros x Hx.
    + specialize (H1 x Hx). lia.
    + specialize (H2 x Hx). lia.
  - intros [| r rest] Hne; [congruence |]. split; discriminate.
Qed.

Lemma best_and_worst_route_witness :
  exists r, best_of routes = Some r /\
    exists l1 l2, routes = l1 ++ r :: l2 /\
      (forall x, In x l1 -> Efficiency x < Efficiency r) /\
      (forall x, In x l2 -> Efficiency x <= Efficiency r).
Proof.
  destruct best_and_worst_route as (_ & _ & _ & _ & _ & Hbest & _).
  eexists. split; [reflexivity |]. apply Hbest. reflexivity.
Defined.

(** ** Converting integers to binary64

    [SpecFloat] rounds by shifting the mantissa right and inspecting the
    bits shifted out.  The lemmas below follow a positive integer through
    that process: it never rounds to zero, and it stays finite while it is
    below 2^1023. *)

Lemma digits2_pos_size (p : positive) : digits2_pos p = Pos.size p.
Proof. induction p; simpl; congruence. Qed.

Lemma digits2_pos_bounds (p : positive) :
  2 ^ (Zpos (digits2_pos p) - 1) <= Zpos p < 2 ^ Zpos (digits2_pos p).
Proof.
  rewrite digits2_pos_size.
  pose proof (Pos.size_gt p) as Hgt. pose proof (Pos.size_le p) as Hle.
  apply Pos2Z.pos_lt_pos in Hgt. apply Pos2Z.pos_le_pos in Hle.
  rewrite Pos2Z.inj_pow in Hgt, Hle.
  change (Zpos p~0) with (2 * Zpos p) in Hle.
  replace (Zpos (Pos.size p)) with (Z.succ (Zpos (Pos.size p) - 1)) in Hle at 1 by lia.
  rewrite Z.pow_succ_r in Hle by lia.
  change (Z.pos 2) with 2 in *. lia.
Qed.

Lemma shr_1_m (r : shr_record) : 0 <= shr_m r -> shr_m (shr_1 r) = shr_m r / 2.
Proof.
  destruct r as [m r s]. cbn [shr_m]. intros Hm.
  destruct m as [| p | p]; [reflexivity | | lia].
  destruct p as [p | p |]; cbn [shr_1 shr_m].
  - rewrite Pos2Z.inj_xI. apply Z.div_unique with (r := 1); lia.
  - rewrite Pos2Z.inj_xO. apply Z.div_unique with (r := 0); lia.
  - reflexivity.
Qed.

Lemma iter_shr_1_m (n : positive) :
  forall r, 0 <= shr_m r -> shr_m (iter_pos shr_1 n r) = shr_m r / 2 ^ Zpos n.
Proof.
  induction n as [n IH | n IH |]; intros r Hr; cbn [iter_pos].
  - assert (H1 : 0 <= shr_m (shr_1 r)) by (rewrite shr_1_m by lia; apply Z.div_pos; lia).
    assert (H2 : 0 <= shr_m (iter_pos shr_1 n (shr_1 r)))
      by (rewrite IH by lia; apply Z.div_pos; lia).
    rewrite IH, IH, shr_1_m by lia.
    rewrite !Z.div_div by lia.
    f_equal. replace (Zpos n~1) with (1 + Zpos n + Zpos n) by lia.
    rewrite !Z.pow_add_r by lia. ring.
  - assert (H2 : 0 <= shr_m (iter_pos shr_1 n r))
      by (rewrite IH by lia; apply Z.div_pos; lia).
    rewrite IH, IH by lia.
    rewrite !Z.div_div by lia.
    f_equal. replace (Zpos n~0) with (Zpos n + Zpos n) by lia.
    rewrite !Z.pow_add_r by lia. ring.
  - rewrite shr_1_m by lia. reflexivity.
Qed.

Lemma shr_record_of_loc_m (m : Z) (l : location) : shr_m (shr_record_of_loc m l) = m.
Proof. destruct l as [| []]; reflexivity. Qed.

Lemma shr_fexp_pos (m e : Z) (l : location) :
  0 < m -> -1074 <= e ->
  0 < shr_m (fst (shr_fexp 53 1024 m e l)) < 2 ^ 53 /\
  e <= snd (shr_fexp 53 1024 m e l) <= Z.max e (e + Zdigits2 m - 53).
Proof.
  intros Hm He. destruct m as [| p | p]; try lia.
  pose proof (digits2_pos_bounds p) as [Hlo Hhi].
  unfold shr_fexp, shr, fexp, emin. cbn [Zdigits2].
  set (d := Zpos (digits2_pos p)) in *.
  assert (Hd : 0 < d) by (unfold d; lia).
  change (3 - 1024 - 53) with (-1074).
  destruct (Z.max (d + e - 53) (-1074) - e) as [| k | k] eqn:Hn; cbn [fst snd].
  - rewrite shr_record_of_loc_m. split; [| lia]. split; [lia |].
    eapply Z.lt_le_trans; [exact Hhi |]. apply Z.pow_le_mono_r; lia.
  - rewrite iter_shr_1_m by (rewrite shr_record_of_loc_m; lia).
    rewrite shr_record_of_loc_m.
    assert (Hk : Zpos k = d - 53) by lia.
    assert (Hpow : 2 ^ d = 2 ^ Zpos k * 2 ^ 53)
      by (rewrite <- Z.pow_add_r by lia; f_equal; lia).
    assert (Hpow' : 2 ^ (d - 1) = 2 ^ Zpos k * 2 ^ 52)
      by (rewrite <- Z.pow_add_r by lia; f_equal; lia).
    assert (H2k : 0 < 2 ^ Zpos k) by (apply Z.pow_pos_nonneg; lia).
    split; [| lia]. split.
    + apply Z.lt_le_trans with (2 ^ 52); [reflexivity |].
      apply Z.div_le_lower_bound; lia.
    + apply Z.div_lt_upper_bound; lia.
  - rewrite shr_record_of_loc_m. split; [| lia]. split; [lia |].
    eapply Z.lt_le_trans; [exact Hhi |]. apply Z.pow_le_mono_r; lia.
Qed.

Lemma Zdigits2_le (m k : Z) : 0 < m -> 0 <= k -> m <= 2 ^ k -> Zdigits2 m <= k + 1.
Proof.
  intros Hm Hk Hle. destruct m as [| p | p]; try lia. cbn [Zdigits2].
  pose proof (digits2_pos_bounds p) as [Hlo _].
  destruct (Z_le_gt_dec (Zpos (digits2_pos p)) (k + 1)) as [H | H]; [exact H |].
  exfalso.
  assert (2 ^ (k + 1) <= 2 ^ (Zpos (digits2_pos p) - 1)) by (apply Z.pow_le_mono_r; lia).
  assert (2 ^ k < 2 ^ (k + 1)) by (apply Z.pow_lt_mono_r; lia).
  lia.
Qed.

Lemma round_nearest_even_bounds (m : Z) (l : location) :
  m <= round_nearest_even m l <= m + 1.
Proof.
  unfold round_nearest_even. destruct l as [| []]; try lia.
  destruct (Z.even m); lia.
Qed.

Lemma binary_round_aux_pos (sx : bool) (p : positive) (e : Z) (l : location) :
  -1074 <= e ->
  nonzero_number sx (binary_round_aux 53 1024 sx (Zpos p) e l) /\
  (Z.max e (e + Zpos (digits2_pos p) - 53) + 1 <= 971 ->
   exists m' e', binary_round_aux 53 1024 sx (Zpos p) e l = S754_finite sx m' e').
Proof.
  intros He. unfold binary_round_aux.
  pose proof (shr_fexp_pos (Zpos p) e l ltac:(lia) He) as [Hm1 He1].
  destruct (shr_fexp 53 1024 (Zpos p) e l) as [mrs' e'] eqn:E1. cbn [fst snd] in Hm1, He1.
  pose proof (round_nearest_even_bounds (shr_m mrs') (loc_of_shr_record mrs')) as Hr.
  set (m1 := round_nearest_even (shr_m mrs') (loc_of_shr_record mrs')) in *.
  pose proof (shr_fexp_pos m1 e' loc_Exact ltac:(lia) ltac:(lia)) as [Hm2 He2].
  pose proof (Zdigits2_le m1 53 ltac:(lia) ltac:(lia) ltac:(lia)) as Hd1.
  destruct (shr_fexp 53 1024 m1 e' loc_Exact) as [mrs'' e''] eqn:E2. cbn [fst snd] in Hm2, He2.
  cbn [Zdigits2] in He1.
  destruct (shr_m mrs'') as [| m'' | m'']; try lia.
  change (1024 - 53) with 971.
  destruct (e'' <=? 971) eqn:Hle.
  - split; [left; eauto | eauto].
  - split; [right; reflexivity |]. intros Hb. apply Z.leb_gt in Hle. lia.
Qed.

Lemma digits2_pos_iter_xO (p k : positive) :
  digits2_pos (Pos.iter xO p k) = (digits2_pos p + k)%positive.
Proof.
  induction k as [| k IH] using Pos.peano_ind.
  - cbn [Pos.iter digits2_pos]. now rewrite Pos.add_1_r.
  - rewrite Pos.iter_succ. cbn [digits2_pos]. rewrite IH. now rewrite Pos.add_succ_r.
Qed.

Lemma round_int_pos (p : positive) :
  nonzero_number false (F64.round_int (Zpos p)) /\
  (Zpos p < 2 ^ 1023 -> exists m e, F64.round_int (Zpos p) = S754_finite false m e).
Proof.
  unfold F64.round_int, F64.prec, F64.emax, binary_normalize, binary_round, shl_align, fexp, emin.
  pose proof (digits2_pos_bounds p) as [Hlo Hhi].
  set (d := Zpos (digits2_pos p)) in *.
  assert (Hd : 0 < d) by (unfold d; lia).
  change (3 - 1024 - 53) with (-1074).
  destruct (Z.max (d + 0 - 53) (-1074) - 0) as [| k | k] eqn:Hn.
  - pose proof (binary_round_aux_pos false p 0 loc_Exact ltac:(lia)) as [Hnz Hfin].
    split; [exact Hnz |]. intros _. apply Hfin. fold d. lia.
  - pose proof (binary_round_aux_pos false p 0 loc_Exact ltac:(lia)) as [Hnz Hfin].
    split; [exact Hnz |]. intros Hp. apply Hfin. fold d.
    assert (d - 1 < 1023); [| lia].
    apply (Z.pow_lt_mono_r_iff 2); lia.
  - pose proof (binary_round_aux_pos false (Pos.iter xO p k) (Z.max (d + 0 - 53) (-1074))
                  loc_Exact ltac:(lia)) as [Hnz Hfin].
    split; [exact Hnz |]. intros _. apply Hfin.
    rewrite digits2_pos_iter_xO, Pos2Z.inj_add. fold d. lia.
Qed.

Lemma round_int_not_zero (z : Z) : 0 < z -> F64.is_zero (F64.round_int z) = false.
Proof.
  intros Hz. destruct z as [| p | p]; try lia.
  destruct (round_int_pos p) as [[(m & e & ->) | ->] _]; reflexivity.
Qed.

Lemma round_int_finite (z : Z) : 0 <= z < 2 ^ 1023 -> F64.is_finite (F64.round_int z) = true.
Proof.
  intros Hz. destruct z as [| p | p]; try lia; [reflexivity |].
  destruct (round_int_pos p) as [_ Hfin].
  destruct Hfin as (m & e & ->); [lia | reflexivity].
Qed.

Lemma of_int_ok (z : Z) : 0 <= z <= Py.maxsize -> F64.of_int z = Py.Ok (F64.round_int z).
Proof.
  intros Hz. unfold F64.of_int. rewrite round_int_finite; [reflexivity |].
  split; [lia |]. apply Z.le_lt_trans with Py.maxsize; [lia | reflexivity].
Qed.


(** ** Rounding to binary64

    A mantissa of at least 53 bits rounds to a full-width mantissa within
    one unit in the last place; from this, each of the multiplication,
    addition and division of line 189 returns a double within a relative
    [eps] = 2^-52 of the exact result. *)

(** What [shr_fexp] does to a positive mantissa: it drops the bits beyond
    the 53rd. *)
Lemma shr_fexp_floor (p : positive) (e : Z) (l : location) :
  -1074 <= e ->
  let d := Zpos (digits2_pos p) in
  let n := Z.max 0 (d - 53) in
  shr_m (fst (shr_fexp 53 1024 (Zpos p) e l)) = Zpos p / 2 ^ n /\
  snd (shr_fexp 53 1024 (Zpos p) e l) = e + n.
Proof.
  intros He d n.
  unfold shr_fexp, shr, fexp, emin. cbn [Zdigits2]. fold d.
  assert (Hd : 0 < d) by (unfold d; lia).
  change (3 - 1024 - 53) with (-1074).
  destruct (Z.max (d + e - 53) (-1074) - e) as [| k | k] eqn:Hn; cbn [fst snd];
    rewrite ?shr_record_of_loc_m.
  - replace n with 0 by lia. rewrite Z.pow_0_r, Z.div_1_r. split; [reflexivity | lia].
  - rewrite iter_shr_1_m by (rewrite shr_record_of_loc_m; lia).
    rewrite shr_record_of_loc_m. replace n with (Zpos k) by lia. split; [reflexivity | lia].
  - replace n with 0 by lia. rewrite Z.pow_0_r, Z.div_1_r. split; [reflexivity | lia].
Qed.

Lemma binary_round_aux_normal (sx : bool) (p : positive) (e : Z) (l : location) :
  2 ^ 52 <= Zpos p -> -1074 <= e -> e + Zpos (digits2_pos p) <= 1000 ->
  exists m' e',
    binary_round_aux 53 1024 sx (Zpos p) e l = S754_finite sx m' e' /\
    2 ^ 52 <= Zpos m' < 2 ^ 53 /\
    e + (Zpos (digits2_pos p) - 53) <= e' <= e + (Zpos (digits2_pos p) - 53) + 1 /\
    Zpos p - 2 ^ (e' - e) < Zpos m' * 2 ^ (e' - e) <= Zpos p + 2 ^ (e' - e).
Proof.
  intros Hp He Hov. unfold binary_round_aux.
  pose proof (digits2_pos_bounds p) as [Hlo Hhi].
  remember (Zpos (digits2_pos p)) as d eqn:Ed.
  assert (Hd : 53 <= d).
  { destruct (Z_le_gt_dec 53 d) as [H | H]; [exact H | exfalso].
    assert (2 ^ d <= 2 ^ 52) by (apply Z.pow_le_mono_r; lia). lia. }
  pose proof (shr_fexp_floor p e l He) as [Hm1 He1]. cbv zeta in Hm1, He1. rewrite <- Ed in Hm1, He1.
  replace (Z.max 0 (d - 53)) with (d - 53) in Hm1, He1 by lia.
  destruct (shr_fexp 53 1024 (Zpos p) e l) as [mrs' e1] eqn:E1. cbn [fst snd] in Hm1, He1.
  remember (d - 53) as n eqn:Hn.
  assert (H2n : 0 < 2 ^ n) by (apply Z.pow_pos_nonneg; lia).
  assert (Hpow : 2 ^ d = 2 ^ n * 2 ^ 53)
    by (rewrite <- Z.pow_add_r by lia; f_equal; lia).
  assert (Hpow' : 2 ^ (d - 1) = 2 ^ n * 2 ^ 52)
    by (rewrite <- Z.pow_add_r by lia; f_equal; lia).
  assert (Hm1lo : 2 ^ 52 <= shr_m mrs') by (rewrite Hm1; apply Z.div_le_lower_bound; lia).
  assert (Hm1hi : shr_m mrs' < 2 ^ 53) by (rewrite Hm1; apply Z.div_lt_upper_bound; lia).
  assert (Hfloor : shr_m mrs' * 2 ^ n <= Zpos p < shr_m mrs' * 2 ^ n + 2 ^ n).
  { rewrite Hm1. pose proof (Z.mul_div_le (Zpos p) (2 ^ n) H2n).
    pose proof (Z.mul_succ_div_gt (Zpos p) (2 ^ n) H2n). lia. }
  pose proof (round_nearest_even_bounds (shr_m mrs') (loc_of_shr_record mrs')) as Hr.
  set (m1 := round_nearest_even (shr_m mrs') (loc_of_shr_record mrs')) in *.
  destruct m1 as [| q | q] eqn:Eq1; try lia.
  pose proof (shr_fexp_floor q e1 loc_Exact ltac:(lia)) as [Hm2 He2]. cbv zeta in Hm2, He2.
  pose proof (digits2_pos_bounds q) as [Hqlo Hqhi].
  remember (Zpos (digits2_pos q)) as dq eqn:Edq.
  destruct (shr_fexp 53 1024 (Zpos q) e1 loc_Exact) as [mrs'' e2] eqn:E2.
  cbn [fst snd] in Hm2, He2.
  assert (Hdq : dq = 53 \/ (dq = 54 /\ Zpos q = 2 ^ 53)).
  { destruct (Z_le_gt_dec dq 52) as [H | H].
    - exfalso. assert (2 ^ dq <= 2 ^ 52) by (apply Z.pow_le_mono_r; lia). lia.
    - destruct (Z_le_gt_dec 55 dq) as [H' | H'].
      + exfalso. assert (2 ^ 54 <= 2 ^ (dq - 1)) by (apply Z.pow_le_mono_r; lia).
        assert (2 ^ 53 < 2 ^ 54) by reflexivity. lia.
      + assert (dq = 53 \/ dq = 54) as [-> | ->] by lia; [left; reflexivity | right].
        split; [reflexivity |]. change (2 ^ (54 - 1)) with (2 ^ 53) in Hqlo. lia. }
  change (1024 - 53) with 971.
  destruct Hdq as [Hdq | [Hdq Hq]].
  - rewrite Hdq in Hm2, He2. change (Z.max 0 (53 - 53)) with 0 in Hm2, He2.
    rewrite Z.pow_0_r, Z.div_1_r in Hm2. rewrite Hm2.
    replace (e2 <=? 971) with true by (symmetry; apply Z.leb_le; lia).
    exists q, e2. split; [reflexivity |].
    rewrite Hdq in Hqhi, Hqlo. change (2 ^ (53 - 1)) with (2 ^ 52) in Hqlo.
    split; [lia |]. split; [lia |].
    replace (e2 - e) with n by lia. nia.
  - rewrite Hdq in Hm2, He2. change (Z.max 0 (54 - 53)) with 1 in Hm2, He2.
    rewrite Hq in Hm2. change (2 ^ 53 / 2 ^ 1) with (2 ^ 52) in Hm2. rewrite Hm2.
    change (2 ^ 52) with (Zpos (2 ^ 52)%positive).
    replace (e2 <=? 971) with true by (symmetry; apply Z.leb_le; lia).
    exists (2 ^ 52)%positive, e2. split; [reflexivity |].
    split; [split; [reflexivity | reflexivity] |]. split; [lia |].
    replace (e2 - e) with (n + 1) by lia.
    rewrite Z.pow_add_r by lia. change (2 ^ 1) with 2.
    change (Zpos (2 ^ 52)%positive) with (2 ^ 52).
    assert (2 ^ 53 = 2 * 2 ^ 52) by reflexivity. nia.
Qed.

Lemma IZR_pow2 (k : Z) : 0 <= k -> IZR (2 ^ k) = powerRZ 2 k.
Proof.
  intros Hk. destruct k as [| p | p]; try lia; [reflexivity |].
  change (2 ^ Zpos p) with (Z.pow_pos 2 p). apply Zpower_pos_powerRZ.
Qed.

Lemma pow2_pos (e : Z) : (0 < powerRZ 2 e)%R.
Proof. apply powerRZ_lt. lra. Qed.

Lemma pow2_add (a b : Z) : powerRZ 2 (a + b) = (powerRZ 2 a * powerRZ 2 b)%R.
Proof. apply powerRZ_add. lra. Qed.

Lemma val_shift (m : Z) (e k : Z) :
  0 <= k -> (IZR m * powerRZ 2 (e + k) = IZR (m * 2 ^ k) * powerRZ 2 e)%R.
Proof.
  intros Hk. rewrite mult_IZR, IZR_pow2, pow2_add by lia. ring.
Qed.

Lemma val_ulp (m : positive) (e : Z) :
  2 ^ 52 <= Zpos m -> (powerRZ 2 e <= eps * val m e)%R.
Proof.
  intros Hm. unfold val, eps. apply IZR_le in Hm.
  change (IZR (2 ^ 52)) with 4503599627370496%R in Hm.
  pose proof (pow2_pos e). nra.
Qed.

(** Rounding a mantissa of at least 53 bits: the result is within one
    unit in the last place. *)
Lemma binary_round_aux_R (p : positive) (e : Z) (l : location) :
  2 ^ 52 <= Zpos p -> -1074 <= e -> e + Zpos (digits2_pos p) <= 1000 ->
  exists m' e',
    binary_round_aux 53 1024 false (Zpos p) e l = S754_finite false m' e' /\
    2 ^ 52 <= Zpos m' < 2 ^ 53 /\
    e + (Zpos (digits2_pos p) - 53) <= e' <= e + (Zpos (digits2_pos p) - 53) + 1 /\
    (val m' e' * (1 - eps) <= IZR (Zpos p) * powerRZ 2 e)%R /\
    (IZR (Zpos p) * powerRZ 2 e + powerRZ 2 e <= val m' e' * (1 + eps))%R.
Proof.
  intros Hp He Hov.
  destruct (binary_round_aux_normal false p e l Hp He Hov) as (m' & e' & Hr & Hm & He' & Hlo & Hhi).
  exists m', e'. split; [exact Hr |]. split; [exact Hm |]. split; [exact He' |].
  pose proof (digits2_pos_bounds p) as [Hdlo Hdhi].
  assert (Hd : 53 <= Zpos (digits2_pos p)).
  { destruct (Z_le_gt_dec 53 (Zpos (digits2_pos p))) as [H | H]; [exact H | exfalso].
    assert (2 ^ Zpos (digits2_pos p) <= 2 ^ 52) by (apply Z.pow_le_mono_r; lia). lia. }
  assert (Hk : 0 <= e' - e) by lia.
  pose proof (val_ulp m' e' (proj1 Hm)) as Hulp.
  assert (Hv : val m' e' = (IZR (Zpos m' * 2 ^ (e' - e)) * powerRZ 2 e)%R).
  { unfold val. rewrite <- val_shift by lia. do 2 f_equal. lia. }
  assert (Hu : powerRZ 2 e' = (IZR (2 ^ (e' - e)) * powerRZ 2 e)%R).
  { rewrite IZR_pow2 by lia. rewrite <- pow2_add. f_equal. lia. }
  pose proof (pow2_pos e) as He0.
  assert (H1 : (IZR (Zpos m' * 2 ^ (e' - e)) <= IZR (Zpos p) + IZR (2 ^ (e' - e)))%R)
    by (rewrite <- plus_IZR; apply IZR_le; lia).
  assert (H2 : (IZR (Zpos p) + 1 <= IZR (Zpos m' * 2 ^ (e' - e)) + IZR (2 ^ (e' - e)))%R).
  { rewrite <- !plus_IZR. apply IZR_le. lia. }
  assert (Ha : (val m' e' <= IZR (Zpos p) * powerRZ 2 e + powerRZ 2 e')%R)
    by (rewrite Hv, Hu; nra).
  assert (Hb : (IZR (Zpos p) * powerRZ 2 e + powerRZ 2 e <= val m' e' + powerRZ 2 e')%R)
    by (rewrite Hv, Hu; nra).
  clear - Ha Hb Hulp. unfold eps in *.
  generalize dependent (val m' e'). generalize (powerRZ 2 e'). generalize (powerRZ 2 e).
  generalize (IZR (Zpos p)). intros x pe pe' v Hulp Ha Hb. split; lra.
Qed.

Lemma digits2_pos_range (m : positive) (a b : Z) :
  0 <= a -> 2 ^ a <= Zpos m < 2 ^ b -> a + 1 <= Zpos (digits2_pos m) <= b.
Proof.
  intros Ha [Hlo Hhi]. pose proof (digits2_pos_bounds m) as [Hdlo Hdhi].
  assert (Hb : 0 <= b).
  { destruct (Z_le_gt_dec 0 b) as [H | H]; [exact H | exfalso].
    rewrite Z.pow_neg_r in Hhi by lia. lia. }
  split.
  - destruct (Z_le_gt_dec (a + 1) (Zpos (digits2_pos m))) as [H | H]; [exact H | exfalso].
    assert (2 ^ Zpos (digits2_pos m) <= 2 ^ a) by (apply Z.pow_le_mono_r; lia). lia.
  - destruct (Z_le_gt_dec (Zpos (digits2_pos m)) b) as [H | H]; [exact H | exfalso].
    assert (2 ^ b <= 2 ^ (Zpos (digits2_pos m) - 1)) by (apply Z.pow_le_mono_r; lia). lia.
Qed.

Lemma digits2_pos_normal (m : positive) : normal m -> Zpos (digits2_pos m) = 53.
Proof.
  intros Hm. pose proof (digits2_pos_range m 52 53 ltac:(lia) Hm). lia.
Qed.

Lemma val_pos (m : positive) (e : Z) : (0 < val m e)%R.
Proof.
  unfold val. apply Rmult_lt_0_compat; [apply IZR_lt; lia | apply pow2_pos].
Qed.

(** Multiplication of two positive doubles. *)
Lemma mul_spec (mx my : positive) (ex ey : Z) :
  normal mx -> normal my -> -500 <= ex <= 400 -> -500 <= ey <= 400 ->
  exists m e,
    SFmul 53 1024 (S754_finite false mx ex) (S754_finite false my ey) = S754_finite false m e /\
    normal m /\ ex + ey + 52 <= e <= ex + ey + 54 /\
    (val m e * (1 - eps) <= val mx ex * val my ey <= val m e * (1 + eps))%R.
Proof.
  intros Hx Hy Hex Hey. unfold normal in *. cbn [SFmul xorb].
  assert (Hp : 2 ^ 104 <= Zpos (mx * my) < 2 ^ 106).
  { rewrite Pos2Z.inj_mul. change (2 ^ 104) with (2 ^ 52 * 2 ^ 52).
    change (2 ^ 106) with (2 ^ 53 * 2 ^ 53). nia. }
  pose proof (digits2_pos_range (mx * my) 104 106 ltac:(lia) Hp) as Hd.
  destruct (binary_round_aux_R (mx * my) (ex + ey) loc_Exact) as (m & e & Hr & Hm & He & Hlo & Hhi);
    try lia.
  exists m, e. split; [exact Hr |]. split; [exact Hm |]. split; [lia |].
  assert (Hv : (val mx ex * val my ey = IZR (Zpos (mx * my)) * powerRZ 2 (ex + ey))%R).
  { unfold val. rewrite Pos2Z.inj_mul, mult_IZR, pow2_add. ring. }
  rewrite Hv. pose proof (pow2_pos (ex + ey)). split; lra.
Qed.

Lemma Zpos_iter_xO (p k : positive) : Zpos (Pos.iter xO p k) = Zpos p * 2 ^ Zpos k.
Proof.
  induction k as [| k IH] using Pos.peano_ind.
  - cbn [Pos.iter]. rewrite Pos2Z.inj_xO. change (2 ^ 1) with 2. lia.
  - rewrite Pos.iter_succ, Pos2Z.inj_xO, IH, Pos2Z.inj_succ, Z.pow_succ_r by lia. ring.
Qed.

Lemma shl_align_fst (m : positive) (e e' : Z) :
  e' <= e -> Zpos (fst (shl_align m e e')) = Zpos m * 2 ^ (e - e').
Proof.
  intros He. unfold shl_align.
  destruct (e' - e) as [| d | d] eqn:Hd; cbn [fst]; try lia.
  - replace (e - e') with 0 by lia. lia.
  - rewrite Zpos_iter_xO. f_equal. f_equal. lia.
Qed.

(** Addition of two positive doubles. *)
Lemma add_spec (mx my : positive) (ex ey : Z) :
  normal mx -> normal my -> -500 <= ex <= 400 -> -500 <= ey <= 400 ->
  exists m e,
    SFadd 53 1024 (S754_finite false mx ex) (S754_finite false my ey) = S754_finite false m e /\
    normal m /\ Z.max ex ey <= e <= Z.max ex ey + 2 /\
    (val m e * (1 - eps) <= val mx ex + val my ey <= val m e * (1 + eps))%R.
Proof.
  intros Hx Hy Hex Hey. unfold normal in *. cbn [SFadd cond_Zopp].
  set (ez := Z.min ex ey).
  assert (Hzx : ez <= ex) by (unfold ez; lia). assert (Hzy : ez <= ey) by (unfold ez; lia).
  rewrite <- Pos2Z.inj_add.
  set (M := (fst (shl_align mx ex ez) + fst (shl_align my ey ez))%positive).
  assert (HM : Zpos M = Zpos mx * 2 ^ (ex - ez) + Zpos my * 2 ^ (ey - ez)).
  { unfold M. rewrite Pos2Z.inj_add, !shl_align_fst by lia. reflexivity. }
  set (hi := Z.max ex ey).
  assert (Hpw : 2 ^ (ex - ez) <= 2 ^ (hi - ez) /\ 2 ^ (ey - ez) <= 2 ^ (hi - ez) /\
                (2 ^ (ex - ez) = 2 ^ (hi - ez) \/ 2 ^ (ey - ez) = 2 ^ (hi - ez)) /\
                1 <= 2 ^ (ex - ez) /\ 1 <= 2 ^ (ey - ez)).
  { repeat split; try (apply Z.pow_le_mono_r; unfold hi; lia);
      try (apply (Z.pow_le_mono_r 2 0); lia).
    unfold hi. destruct (Z.max_spec ex ey) as [[_ ->] | [_ ->]]; auto. }
  destruct Hpw as (Hp1 & Hp2 & Hp3 & Hp4 & Hp5).
  assert (HMb : 2 ^ (52 + (hi - ez)) <= Zpos M < 2 ^ (54 + (hi - ez))).
  { rewrite !Z.pow_add_r by (unfold hi; lia). rewrite HM.
    change (2 ^ 54) with (2 * 2 ^ 53).
    assert (0 < 2 ^ (hi - ez)) by (apply Z.pow_pos_nonneg; unfold hi; lia). nia. }
  assert (HM53 : 2 ^ 53 <= Zpos M).
  { rewrite HM. change (2 ^ 53) with (2 ^ 52 + 2 ^ 52). nia. }
  pose proof (digits2_pos_range M (52 + (hi - ez)) (54 + (hi - ez)) ltac:(unfold hi; lia) HMb) as Hd.
  pose proof (digits2_pos_range M 53 (54 + (hi - ez)) ltac:(lia) (conj HM53 (proj2 HMb))) as Hd'.
  unfold binary_normalize, binary_round.
  assert (Hal : shl_align M ez (fexp 53 1024 (Zpos (digits2_pos M) + ez)) = (M, ez)).
  { unfold shl_align, fexp, emin.
    destruct (Z.max (Zpos (digits2_pos M) + ez - 53) (3 - 1024 - 53) - ez) eqn:E; try reflexivity.
    lia. }
  rewrite Hal.
  destruct (binary_round_aux_R M ez loc_Exact) as (m & e & Hr & Hm & He & Hlo & Hhi);
    try (unfold hi, ez in *; lia).
  exists m, e. split; [exact Hr |]. split; [exact Hm |].
  split; [unfold hi, ez in *; lia |].
  assert (Hv : (val mx ex + val my ey = IZR (Zpos M) * powerRZ 2 ez)%R).
  { unfold val. rewrite HM, plus_IZR.
    replace ex with (ez + (ex - ez)) at 1 by lia. replace ey with (ez + (ey - ez)) at 1 by lia.
    rewrite !val_shift by lia. ring. }
  rewrite Hv. pose proof (pow2_pos ez). split; lra.
Qed.

(** The quotient mantissa and exponent that division hands to the
    rounding step. *)
Lemma div_core_normal (mx my : positive) (ex ey : Z) :
  normal mx -> normal my -> -400 <= ex <= 400 -> -400 <= ey <= 400 ->
  SFdiv_core_binary 53 1024 (Zpos mx) ex (Zpos my) ey =
  (Zpos mx * 2 ^ 53 / Zpos my, ex - ey - 53,
   new_location (Zpos my) ((Zpos mx * 2 ^ 53) mod Zpos my)).
Proof.
  intros Hx Hy Hex Hey. unfold SFdiv_core_binary. cbn [Zdigits2].
  rewrite (digits2_pos_normal mx Hx), (digits2_pos_normal my Hy).
  unfold fexp, emin.
  replace (Z.min (Z.max (53 + ex - (53 + ey) - 53) (3 - 1024 - 53)) (ex - ey))
    with (ex - ey - 53) by lia.
  replace (ex - ey - (ex - ey - 53)) with 53 by lia.
  rewrite Z.shiftl_mul_pow2 by lia.
  unfold Z.div, Z.modulo.
  destruct (Z.div_eucl (Zpos mx * 2 ^ 53) (Zpos my)) as [q r]. reflexivity.
Qed.

Lemma div_spec (mx my : positive) (ex ey : Z) :
  normal mx -> normal my -> -400 <= ex <= 400 -> -400 <= ey <= 400 ->
  exists m e,
    SFdiv 53 1024 (S754_finite false mx ex) (S754_finite false my ey) = S754_finite false m e /\
    normal m /\ ex - ey - 53 <= e <= ex - ey - 51 /\
    (val m e * val my ey * (1 - eps) <= val mx ex <= val m e * val my ey * (1 + eps))%R.
Proof.
  intros Hx Hy Hex Hey. cbn [SFdiv xorb].
  rewrite (div_core_normal mx my ex ey Hx Hy Hex Hey).
  unfold normal in *.
  pose proof (Z.div_mod (Zpos mx * 2 ^ 53) (Zpos my) ltac:(lia)) as Hdm.
  pose proof (Z.mod_pos_bound (Zpos mx * 2 ^ 53) (Zpos my) ltac:(lia)) as Hmod.
  set (q := Zpos mx * 2 ^ 53 / Zpos my) in *.
  set (r := (Zpos mx * 2 ^ 53) mod Zpos my) in *.
  assert (Hq : 2 ^ 52 <= q < 2 ^ 54).
  { change (2 ^ 54) with (2 * 2 ^ 53). change (2 ^ 53) with (2 * 2 ^ 52) in *. nia. }
  destruct q as [| pq | pq] eqn:Eq; try lia.
  pose proof (digits2_pos_range pq 52 54 ltac:(lia) Hq) as Hd.
  destruct (binary_round_aux_R pq (ex - ey - 53) (new_location (Zpos my) r))
    as (m & e & Hr & Hm & He & Hlo & Hhi); try lia.
  exists m, e. split; [exact Hr |]. split; [exact Hm |]. split; [lia |].
  set (e0 := ex - ey - 53) in *.
  assert (Hvy : (val my ey = IZR (Zpos my) * powerRZ 2 ey)%R) by reflexivity.
  assert (Hvx : (val mx ex = IZR (Zpos my * Zpos pq + r) * (powerRZ 2 e0 * powerRZ 2 ey))%R).
  { unfold val. rewrite <- Hdm, mult_IZR, <- pow2_add.
    rewrite (IZR_pow2 53) by lia. rewrite Rmult_assoc, <- pow2_add.
    do 2 f_equal. unfold e0. lia. }
  rewrite plus_IZR, mult_IZR in Hvx.
  assert (Hr0 : (0 <= IZR r)%R) by (apply IZR_le; lia).
  assert (Hr1 : (IZR r + 1 <= IZR (Zpos my))%R) by (rewrite <- plus_IZR; apply IZR_le; lia).
  pose proof (pow2_pos e0) as H0. pose proof (pow2_pos ey) as Hy0.
  assert (Hmy : (0 < IZR (Zpos my))%R) by (apply IZR_lt; lia).
  rewrite Hvx, Hvy. clear Hvx Hvy Hr.
  generalize dependent (val m e). generalize dependent (IZR (Zpos pq)).
  generalize dependent (IZR r). generalize dependent (IZR (Zpos my)).
  generalize dependent (powerRZ 2 e0). generalize dependent (powerRZ 2 ey).
  intros py Hypos p0 Hp0 y Hypos' rr Hrr0 Hrr1 qq v Hlo Hhi.
  assert (Hpy : (0 < py * y)%R) by nra.
  assert (H1 : (v * (1 - eps) * (py * y) <= qq * p0 * (py * y))%R)
    by (apply Rmult_le_compat_r; lra).
  assert (H2 : ((qq * p0 + p0) * (py * y) <= v * (1 + eps) * (py * y))%R)
    by (apply Rmult_le_compat_r; lra).
  assert (H3 : (0 <= rr * (p0 * py))%R) by (apply Rmult_le_pos; nra).
  assert (H4 : (0 <= (y - rr) * (p0 * py))%R) by (apply Rmult_le_pos; nra).
  split; lra.
Qed.

Lemma shl_align_snd (m : positive) (e e' : Z) : e' <= e -> snd (shl_align m e e') = e'.
Proof.
  intros He. unfold shl_align. destruct (e' - e) eqn:Hd; cbn [snd]; lia.
Qed.

Lemma binary_round_aux_exact (sx : bool) (m : positive) (e : Z) :
  normal m -> -1074 <= e <= 971 ->
  binary_round_aux 53 1024 sx (Zpos m) e loc_Exact = S754_finite sx m e.
Proof.
  intros Hm He.
  assert (Hs : forall l, shr_fexp 53 1024 (Zpos m) e l = (shr_record_of_loc (Zpos m) l, e)).
  { intros l. unfold shr_fexp, shr, fexp, emin. cbn [Zdigits2].
    rewrite (digits2_pos_normal m Hm).
    replace (Z.max (53 + e - 53) (3 - 1024 - 53) - e) with 0 by lia. reflexivity. }
  unfold binary_round_aux. rewrite Hs. cbn [shr_record_of_loc shr_m loc_of_shr_record round_nearest_even].
  rewrite Hs. cbn [shr_record_of_loc shr_m].
  replace (e <=? 1024 - 53) with true by (symmetry; apply Z.leb_le; lia). reflexivity.
Qed.

(** Integers below 2^53 convert exactly. *)
Lemma round_int_exact (z : Z) :
  1 <= z < 2 ^ 53 ->
  exists m e, F64.round_int z = S754_finite false m e /\ normal m /\ -52 <= e <= 0 /\
              Zpos m = z * 2 ^ (- e) /\ val m e = IZR z.
Proof.
  intros Hz. destruct z as [| p | p]; try lia.
  unfold F64.round_int, F64.prec, F64.emax, binary_normalize, binary_round.
  pose proof (digits2_pos_bounds p) as [Hlo Hhi].
  pose proof (digits2_pos_range p 0 53 ltac:(lia) ltac:(split; [change (2 ^ 0) with 1; lia | lia])) as Hd.
  remember (Zpos (digits2_pos p)) as d eqn:Ed.
  replace (fexp 53 1024 (d + 0)) with (d - 53) by (unfold fexp, emin; lia).
  pose proof (shl_align_fst p 0 (d - 53) ltac:(lia)) as Hf.
  pose proof (shl_align_snd p 0 (d - 53) ltac:(lia)) as Hs.
  destruct (shl_align p 0 (d - 53)) as [mz ez]. cbn [fst snd] in Hf, Hs. subst ez.
  replace (0 - (d - 53)) with (53 - d) in Hf by lia.
  assert (Hpow : 2 ^ 53 = 2 ^ d * 2 ^ (53 - d))
    by (rewrite <- Z.pow_add_r by lia; f_equal; lia).
  assert (Hpow' : 2 ^ 52 = 2 ^ (d - 1) * 2 ^ (53 - d))
    by (rewrite <- Z.pow_add_r by lia; f_equal; lia).
  assert (H2 : 0 < 2 ^ (53 - d)) by (apply Z.pow_pos_nonneg; lia).
  assert (Hn : normal mz) by (unfold normal; rewrite Hf; nia).
  rewrite binary_round_aux_exact by (auto; lia).
  exists mz, (d - 53). split; [reflexivity |]. split; [exact Hn |]. split; [lia |].
  replace (- (d - 53)) with (53 - d) by lia. split; [exact Hf |].
  unfold val. rewrite Hf, mult_IZR, IZR_pow2 by lia.
  rewrite Rmult_assoc, <- pow2_add. replace (53 - d + (d - 53)) with 0 by lia.
  cbn [powerRZ]. ring.
Qed.

Lemma div_self (m : positive) (e : Z) :
  normal m -> -400 <= e <= 400 ->
  SFdiv 53 1024 (S754_finite false m e) (S754_finite false m e) =
  S754_finite false 4503599627370496 (-52).
Proof.
  intros Hm He. cbn [SFdiv xorb]. rewrite (div_core_normal m m e e Hm Hm He He).
  rewrite (Z.mul_comm (Zpos m)), Z.div_mul, Z.mod_mul by lia.
  replace (e - e - 53) with (-53) by lia.
  replace (new_location (Zpos m) 0) with loc_Exact
    by (unfold new_location; destruct (Z.even (Zpos m)); reflexivity).
  vm_compute. reflexivity.
Qed.

Lemma pow2_mono (a b : Z) : a <= b -> (powerRZ 2 a <= powerRZ 2 b)%R.
Proof.
  intros Hab.
  assert (H : 1 <= 2 ^ (b - a)) by (apply (Z.pow_le_mono_r 2 0); lia).
  apply IZR_le in H. rewrite IZR_pow2 in H by lia.
  replace b with (a + (b - a)) at 1 by lia. rewrite pow2_add.
  pose proof (pow2_pos a). nra.
Qed.

Lemma pow2_neg (k : Z) : 0 <= k -> powerRZ 2 (- k) = (/ IZR (2 ^ k))%R.
Proof. intros Hk. rewrite IZR_pow2 by lia. apply powerRZ_neg'. Qed.

Lemma below_100 (m : positive) (e : Z) :
  normal m -> (val m e < 100)%R ->
  SFcompare (S754_finite false m e) c100 = Some Lt.
Proof.
  intros Hm Hv. unfold c100. cbn [SFcompare]. unfold normal in Hm. unfold val in Hv.
  destruct (Z.compare_spec e (-46)) as [He | He | He].
  - subst e. f_equal. rewrite Pos.compare_cont_spec.
    assert (H : Zpos m < 7036874417766400).
    { apply lt_IZR. pose proof (pow2_neg 46 ltac:(lia)) as H46. cbn [Z.opp] in H46.
      rewrite H46 in Hv. change (2 ^ 46) with 70368744177664 in Hv. lra. }
    destruct (Pos.compare_spec m 7036874417766400) as [E | E | E];
      [subst m; lia | reflexivity | lia].
  - reflexivity.
  - exfalso. pose proof (pow2_mono (-45) e ltac:(lia)) as Hp.
    destruct Hm as [Hm _]. apply IZR_le in Hm.
    change (2 ^ 52) with 4503599627370496 in Hm.
    pose proof (pow2_neg 45 ltac:(lia)) as H45. cbn [Z.opp] in H45.
    rewrite H45 in Hp. change (2 ^ 45) with 35184372088832 in Hp.
    pose proof (pow2_pos e). nra.
Qed.

Lemma literal_07 : F64.literal 7 1 = c07.
Proof. vm_compute. reflexivity. Qed.

Lemma round_int_100 : F64.round_int 100 = c100.
Proof. vm_compute. reflexivity. Qed.

Lemma val_c100 : val 7036874417766400 (-46) = 100%R.
Proof.
  unfold val. pose proof (pow2_neg 46 ltac:(lia)) as H46. cbn [Z.opp] in H46.
  rewrite H46. change (2 ^ 46) with 70368744177664. lra.
Qed.

Lemma val_c07 : (7 / 10 - / 18014398509481984 <= val 6305039478318694 (-53) <= 7 / 10)%R.
Proof.
  unfold val. pose proof (pow2_neg 53 ltac:(lia)) as H53. cbn [Z.opp] in H53.
  rewrite H53. change (2 ^ 53) with 9007199254740992. lra.
Qed.

Lemma normal_c100 : normal 7036874417766400.
Proof. unfold normal. split; [discriminate | reflexivity]. Qed.

Lemma normal_c07 : normal 6305039478318694.
Proof. unfold normal. split; [discriminate | reflexivity]. Qed.

Lemma round_int_fleet (z : Z) :
  1 <= z <= 2 ^ 48 ->
  exists m e, F64.round_int z = S754_finite false m e /\ normal m /\ -52 <= e <= 0 /\
              val m e = IZR z.
Proof.
  intros Hz. destruct (round_int_exact z) as (m & e & H1 & H2 & H3 & _ & H4).
  - split; [lia |]. apply Z.le_lt_trans with (2 ^ 48); [lia | reflexivity].
  - eauto 6.
Qed.

(** Dividing a served count by the total and scaling by 100. *)
Lemma div_mul_100 (ms : positive) (es t : Z) :
  normal ms -> -60 <= es <= 60 -> 1 <= t <= 2 ^ 48 ->
  exists m e,
    F64.mul (F64.div (S754_finite false ms es) (F64.round_int t)) (F64.round_int 100) =
      S754_finite false m e /\
    normal m /\
    (val m e * IZR t * ((1 - eps) * (1 - eps)) <= 100 * val ms es)%R /\
    (100 * val ms es <= val m e * IZR t * ((1 + eps) * (1 + eps)))%R.
Proof.
  intros Hs Hes Ht. rewrite round_int_100. unfold F64.mul, F64.div, F64.prec, F64.emax, c100.
  destruct (round_int_fleet t Ht) as (mt & et & -> & Hmt & Het & Hvt).
  destruct (div_spec ms mt es et Hs Hmt ltac:(lia) ltac:(lia))
    as (mq & eq & -> & Hmq & Heq & Hq1 & Hq2).
  destruct (mul_spec mq 7036874417766400 eq (-46) Hmq normal_c100 ltac:(lia) ltac:(lia))
    as (m & e & Hr & Hm & He & H1 & H2).
  exists m, e. split; [exact Hr |]. split; [exact Hm |].
  rewrite val_c100 in H1, H2. rewrite Hvt in Hq1, Hq2.
  pose proof (val_pos m e) as Hv0. pose proof (val_pos mq eq) as Hq0.
  assert (HT : (1 <= IZR t)%R) by (apply IZR_le; lia).
  unfold eps in *. clear Hvt Hr.
  set (V := val m e) in *. set (Q := val mq eq) in *.
  set (S := val ms es) in *. set (T := IZR t) in *. clearbody V Q S T.
  assert (Ha : (V * (1 - / 4503599627370496) * (T * (1 - / 4503599627370496))
                <= Q * 100 * (T * (1 - / 4503599627370496)))%R)
    by (apply Rmult_le_compat_r; lra).
  assert (Hb : (Q * 100 * (T * (1 + / 4503599627370496))
                <= V * (1 + / 4503599627370496) * (T * (1 + / 4503599627370496)))%R)
    by (apply Rmult_le_compat_r; lra).
  split; lra.
Qed.

Lemma served_spec (g w : Z) :
  0 <= g -> 0 <= w -> 1 <= g + w <= 2 ^ 48 ->
  exists ms es,
    served g w = S754_finite false ms es /\ normal ms /\ -60 <= es <= 60 /\
    (w = 0 -> F64.round_int g = S754_finite false ms es) /\
    (val ms es * ((1 - eps) * (1 - eps)) <= IZR g + 7 / 10 * IZR w)%R /\
    (IZR g + 7 / 10 * IZR w - IZR w * / 18014398509481984
       <= val ms es * ((1 + eps) * (1 + eps)))%R.
Proof.
  intros Hg Hw Hgw. unfold served. rewrite literal_07.
  unfold F64.add, F64.mul, F64.prec, F64.emax.
  assert (Hgr : (0 <= IZR g)%R) by (apply IZR_le; lia).
  assert (Hwr : (0 <= IZR w)%R) by (apply IZR_le; lia).
  destruct (Z.eq_dec w 0) as [-> | Hw0].
  - (* no Warning bin: the served count is the Good count itself *)
    destruct (round_int_fleet g ltac:(lia)) as (mg & eg & Hrg & Hmg & Heg & Hvg).
    rewrite Hrg. exists mg, eg. split; [reflexivity |]. split; [exact Hmg |].
    split; [lia |]. split; [reflexivity |]. rewrite Hvg. unfold eps. split; nra.
  - destruct (round_int_fleet w ltac:(lia)) as (mw & ew & Hrw & Hmw & Hew & Hvw).
    rewrite Hrw. unfold c07.
    destruct (mul_spec mw 6305039478318694 ew (-53) Hmw normal_c07 ltac:(lia) ltac:(lia))
      as (ma & ea & Hra & Hma & Hea & Ha1 & Ha2).
    rewrite Hra. rewrite Hvw in Ha1, Ha2.
    pose proof val_c07 as [Hc1 Hc2]. pose proof (val_pos ma ea) as Ha0.
    assert (Hwr1 : (1 <= IZR w)%R) by (apply IZR_le; lia).
    destruct (Z.eq_dec g 0) as [-> | Hg0].
    + (* no Good bin: the served count is the weighted Warning count *)
      change (F64.round_int 0) with (S754_zero false). cbn [SFadd].
      exists ma, ea. split; [reflexivity |]. split; [exact Hma |]. split; [lia |].
      split; [intros; lia |].
      unfold eps in *. clear Hra Hrw Hvw.
      set (A := val ma ea) in *. set (C := val 6305039478318694 (-53)) in *.
      set (W := IZR w) in *. clearbody A C W.
      assert (H1 : (W * C <= W * (7 / 10))%R) by (apply Rmult_le_compat_l; lra).
      assert (H2 : (W * (7 / 10 - / 18014398509481984) <= W * C)%R)
        by (apply Rmult_le_compat_l; lra).
      split; nra.
    + destruct (round_int_fleet g ltac:(lia)) as (mg & eg & Hrg & Hmg & Heg & Hvg).
      rewrite Hrg.
      destruct (add_spec mg ma eg ea Hmg Hma ltac:(lia) ltac:(lia))
        as (ms & es & Hrs & Hms & Hes & Hs1 & Hs2).
      exists ms, es. split; [exact Hrs |]. split; [exact Hms |]. split; [lia |].
      split; [intros; lia |].
      rewrite Hvg in Hs1, Hs2. pose proof (val_pos ms es) as Hs0.
      unfold eps in *. clear Hra Hrw Hvw Hrg Hvg Hrs.
      set (S := val ms es) in *. set (A := val ma ea) in *.
      set (C := val 6305039478318694 (-53)) in *.
      set (W := IZR w) in *. set (G := IZR g) in *. clearbody S A C W G.
      assert (H1 : (W * C <= W * (7 / 10))%R) by (apply Rmult_le_compat_l; lra).
      assert (H2 : (W * (7 / 10 - / 18014398509481984) <= W * C)%R)
        by (apply Rmult_le_compat_l; lra).
      assert (H3 : (S * (1 - / 4503599627370496) * (1 - / 4503599627370496)
                    <= (G + A) * (1 - / 4503599627370496))%R)
        by (apply Rmult_le_compat_r; lra).
      assert (H4 : ((G + A) * (1 + / 4503599627370496)
                    <= S * (1 + / 4503599627370496) * (1 + / 4503599627370496))%R)
        by (apply Rmult_le_compat_r; lra).
      split; nra.
Qed.

Lemma score_zero (t : Z) : 1 <= t <= 2 ^ 48 -> score 0 0 t = S754_zero false.
Proof.
  intros Ht. unfold score, served.
  destruct (round_int_fleet t Ht) as (mt & et & -> & _). reflexivity.
Qed.

Lemma score_full (t : Z) : 1 <= t <= 2 ^ 48 -> score t 0 t = c100.
Proof.
  intros Ht. unfold score.
  destruct (served_spec t 0 ltac:(lia) ltac:(lia) ltac:(lia))
    as (ms & es & -> & Hms & Hes & Hg & _).
  rewrite (Hg eq_refl). unfold F64.div, F64.prec, F64.emax.
  rewrite div_self by (auto; lia). vm_compute. reflexivity.
Qed.

Lemma score_partial (g w t : Z) :
  0 <= g -> 0 <= w -> 1 <= g + w -> g + w <= t -> t <= 2 ^ 48 ->
  exists m e,
    score g w t = S754_finite false m e /\ normal m /\
    (val m e * IZR t * ((1 - eps) * (1 - eps) * ((1 - eps) * (1 - eps)))
       <= 100 * (IZR g + 7 / 10 * IZR w))%R /\
    (100 * (IZR g + 7 / 10 * IZR w - IZR w * / 18014398509481984)
       <= val m e * IZR t * ((1 + eps) * (1 + eps) * ((1 + eps) * (1 + eps))))%R.
Proof.
  intros Hg Hw Hgw Hle Ht. unfold score.
  destruct (served_spec g w Hg Hw ltac:(lia)) as (ms & es & -> & Hms & Hes & _ & Hs1 & Hs2).
  destruct (div_mul_100 ms es t Hms Hes ltac:(lia)) as (m & e & -> & Hm & H1 & H2).
  exists m, e. split; [reflexivity |]. split; [exact Hm |].
  unfold eps in *.
  set (V := val m e) in *. set (S := val ms es) in *.
  set (T := IZR t) in *. set (Y := (IZR g + 7 / 10 * IZR w)%R) in *.
  set (D := (IZR w * / 18014398509481984)%R) in *. clearbody V S T Y D.
  set (k := ((1 - / 4503599627370496) * (1 - / 4503599627370496))%R) in *.
  set (k' := ((1 + / 4503599627370496) * (1 + / 4503599627370496))%R) in *.
  assert (Hk : (0 < k)%R) by (unfold k; lra).
  assert (Hk' : (0 < k')%R) by (unfold k'; lra).
  split.
  - apply Rle_trans with (100 * S * k)%R; [| nra].
    replace (V * T * (k * k))%R with (V * T * k * k)%R by ring.
    apply Rmult_le_compat_r; lra.
  - apply Rle_trans with (100 * S * k')%R; [nra |].
    replace (V * T * (k' * k'))%R with (V * T * k' * k')%R by ring.
    apply Rmult_le_compat_r; lra.
Qed.

(** The score stays below 100 as soon as one bin is not Good. *)
Lemma score_below_100 (g w t : Z) (m : positive) (e : Z) :
  0 <= g -> 0 <= w -> g + w <= t -> t <= 2 ^ 48 -> (1 <= w \/ g + w < t) ->
  (val m e * IZR t * ((1 - eps) * (1 - eps) * ((1 - eps) * (1 - eps)))
     <= 100 * (IZR g + 7 / 10 * IZR w))%R ->
  (val m e < 100)%R.
Proof.
  intros Hg Hw Hle Ht Hnot H.
  assert (HY : (IZR g + 7 / 10 * IZR w <= IZR t - 3 / 10)%R).
  { destruct Hnot as [Hw1 | Hlt].
    - assert (IZR g + IZR w <= IZR t)%R by (rewrite <- plus_IZR; apply IZR_le; lia).
      assert (1 <= IZR w)%R by (apply IZR_le; lia). lra.
    - assert (IZR g + IZR w + 1 <= IZR t)%R by (rewrite <- !plus_IZR; apply IZR_le; lia).
      assert (0 <= IZR w)%R by (apply IZR_le; lia). lra. }
  assert (HT1 : (1 <= IZR t)%R) by (apply IZR_le; lia).
  assert (HT2 : (IZR t <= 281474976710656)%R) by (apply IZR_le; exact Ht).
  destruct (Rlt_le_dec (val m e) 100) as [Hlt | Hge]; [exact Hlt | exfalso].
  assert (HVT : (100 * IZR t <= val m e * IZR t)%R) by (apply Rmult_le_compat_r; lra).
  unfold eps in *.
  set (V := val m e) in *. set (T := IZR t) in *.
  set (Y := (IZR g + 7 / 10 * IZR w)%R) in *. clearbody V T Y.
  set (VT := (V * T)%R) in *. clearbody VT. lra.
Qed.

(** The score is within 2^-43 of the exact formula. *)
Lemma score_error (g w t : Z) (m : positive) (e : Z) :
  0 <= g -> 0 <= w -> g + w <= t -> 1 <= t ->
  (val m e <= 100)%R ->
  (val m e * IZR t * ((1 - eps) * (1 - eps) * ((1 - eps) * (1 - eps)))
     <= 100 * (IZR g + 7 / 10 * IZR w))%R ->
  (100 * (IZR g + 7 / 10 * IZR w - IZR w * / 18014398509481984)
     <= val m e * IZR t * ((1 + eps) * (1 + eps) * ((1 + eps) * (1 + eps))))%R ->
  (val m e - 100 * (IZR g + 7 / 10 * IZR w) / IZR t <= / 8796093022208)%R /\
  (100 * (IZR g + 7 / 10 * IZR w) / IZR t - val m e <= / 8796093022208)%R.
Proof.
  intros Hg Hw Hle Ht Hv H1 H2.
  assert (HT : (1 <= IZR t)%R) by (apply IZR_le; lia).
  assert (HG : (0 <= IZR g)%R) by (apply IZR_le; lia).
  assert (HW : (0 <= IZR w)%R) by (apply IZR_le; lia).
  assert (HGW : (IZR g + IZR w <= IZR t)%R) by (rewrite <- plus_IZR; apply IZR_le; lia).
  pose proof (val_pos m e) as Hv0.
  assert (HVT : (val m e * IZR t <= 100 * IZR t)%R) by (apply Rmult_le_compat_r; lra).
  assert (HVT0 : (0 <= val m e * IZR t)%R) by (apply Rmult_le_pos; lra).
  set (X := (100 * (IZR g + 7 / 10 * IZR w) / IZR t)%R).
  assert (HX : (X * IZR t = 100 * (IZR g + 7 / 10 * IZR w))%R) by (unfold X; field; lra).
  unfold eps in *.
  set (V := val m e) in *. set (T := IZR t) in *. set (G := IZR g) in *.
  set (W := IZR w) in *. clearbody X V T G W.
  split; apply Rmult_le_reg_r with T; lra.
Qed.

(** ** The aggregator *)

Lemma counts_le_len (S : list Bin) :
  count_status "Critical" S + count_status "Warning" S <= Py.len S.
Proof.
  unfold Py.len. induction S as [| b S IH]; [reflexivity |].
  rewrite !count_status_cons. cbn [List.length]. rewrite Nat2Z.inj_succ.
  destruct (String.eqb (status b) "Critical") eqn:Hc;
    destruct (String.eqb (status b) "Warning") eqn:Hw; try lia.
  apply String.eqb_eq in Hc, Hw. congruence.
Qed.

Lemma len_pos {A : Type} (l : list A) : l <> [] -> 0 < Py.len l.
Proof. unfold Py.len. destruct l; [congruence | cbn [List.length]; lia]. Qed.

(** The fuel of [pairwise_sum] and of [chunks] is enough: with the
    length of the block for fuel the splitting never runs out, and the
    buffers hold the whole array. *)
Lemma pairwise_sum_fuel (fuel : nat) :
  forall fuel' a, (List.length a <= fuel)%nat -> (List.length a <= fuel')%nat ->
                  pairwise_sum fuel a = pairwise_sum fuel' a.
Proof.
  induction fuel as [| fuel IH]; intros fuel' a H H'.
  - destruct a; [| cbn in H; lia]. destruct fuel'; reflexivity.
  - destruct fuel' as [| fuel'].
    + destruct a; [reflexivity | cbn in H'; lia].
    + cbn [pairwise_sum]. cbv zeta.
      destruct (List.length a <? 8)%nat; [reflexivity |].
      destruct (Nat.leb_spec (List.length a) 128) as [Hs | Hbig]; [reflexivity |].
      set (n := List.length a) in *.
      assert (Hn2 : (0 < n / 2 - (n / 2) mod 8 < n)%nat).
      { pose proof (Nat.div_mod_eq n 2) as E2.
        pose proof (Nat.mod_upper_bound n 2 ltac:(lia)).
        pose proof (Nat.mod_upper_bound (n / 2) 8 ltac:(lia)). lia. }
      f_equal; apply IH; rewrite ?length_firstn, ?length_skipn; fold n; lia.
Qed.

Lemma chunks_concat {A : Type} (size : nat) :
  (0 < size)%nat ->
  forall fuel (a : list A), (List.length a <= fuel)%nat -> List.concat (chunks fuel size a) = a.
Proof.
  intros Hsize. induction fuel as [| fuel IH]; intros a H.
  - destruct a; [reflexivity | cbn in H; lia].
  - destruct a as [| x a]; [reflexivity |].
    cbn [chunks List.concat]. rewrite IH; [apply firstn_skipn |].
    rewrite length_skipn. cbn [List.length] in *. lia.
Qed.

(** A list of 64-bit signed ints makes an int64 array, and its mean is
    computed without error. *)
Lemma array_dtype_int64 (x : Z) (xs : list Z) :
  Forall (fun y => - 2 ^ 63 <= y < 2 ^ 63) (x :: xs) -> array_dtype (x :: xs) = int64.
Proof.
  intros H. inversion H as [| y ys Hx Hxs]; subst.
  assert (Hd : forall y, - 2 ^ 63 <= y < 2 ^ 63 -> discover y = int64).
  { intros y Hy. unfold discover.
    destruct (Z.leb_spec (- 2 ^ 63) y); [| lia].
    destruct (Z.ltb_spec y (2 ^ 63)); [reflexivity | lia]. }
  cbn [array_dtype]. rewrite (Hd x Hx). clear Hx H.
  induction Hxs as [| y ys Hy _ IH]; [reflexivity |].
  cbn [fold_left]. rewrite (Hd y Hy). exact IH.
Qed.

Lemma np_mean_int64 (xs : list Z) :
  Forall (fun y => - 2 ^ 63 <= y < 2 ^ 63) xs -> exists avg, np_mean xs = Py.Ok avg.
Proof.
  intros H. destruct xs as [| x xs].
  - eexists. unfold np_mean. cbn [array_dtype]. reflexivity.
  - eexists. unfold np_mean. rewrite (array_dtype_int64 x xs H). reflexivity.
Qed.

Lemma np_mean_fill_levels (S : list Bin) :
  int64_fill_levels S -> exists avg, np_mean (map fill_level S) = Py.Ok avg.
Proof.
  intros H. apply np_mean_int64. apply Forall_map. exact H.
Qed.

(** The score as one expression of binary64 operations. *)
Lemma efficiency_value (good warning total : Z) :
  0 <= good <= Py.maxsize -> 0 <= warning <= Py.maxsize -> 0 < total <= Py.maxsize ->
  efficiency good warning total =
  Py.Ok (F64.mul
           (F64.div (F64.add (F64.round_int good)
                             (F64.mul (F64.round_int warning) (F64.literal 7 1)))
                    (F64.round_int total))
           (F64.round_int 100)).
Proof.
  intros Hg Hw Ht. unfold efficiency, F64.truediv.
  rewrite (of_int_ok warning), (of_int_ok good), (of_int_ok total) by lia.
  cbn [Py.bind]. rewrite round_int_not_zero by lia. reflexivity.
Qed.

Lemma create_efficiency_metrics_value (S : list Bin) :
  S <> [] -> Py.len S <= Py.maxsize -> int64_fill_levels S ->
  exists avg eff,
    np_mean (map fill_level S) = Py.Ok avg /\
    efficiency (Py.len S - count_status "Critical" S - count_status "Warning" S)
               (count_status "Warning" S) (Py.len S) = Py.Ok eff /\
    create_efficiency_metrics S =
    Py.Ok {| total_bins := Py.len S;
             critical_bins := count_status "Critical" S;
             warning_bins := count_status "Warning" S;
             good_bins := Py.len S - count_status "Critical" S - count_status "Warning" S;
             avg_fill_level := avg;
             total_daily_waste := Py.sum (map daily_waste S);
             collection_efficiency := eff |}.
Proof.
  intros Hne Hmax Hfit.
  pose proof (counts_le_len S). pose proof (len_pos S Hne).
  pose proof (count_status_nonneg "Critical" S). pose proof (count_status_nonneg "Warning" S).
  destruct (np_mean_fill_levels S Hfit) as [avg Havg].
  unfold create_efficiency_metrics. rewrite Havg. cbn [Py.bind].
  rewrite efficiency_value by lia. exists avg. eexists.
  split; [reflexivity |]. split; reflexivity.
Qed.

Lemma create_efficiency_metrics_fields (S : list Bin) (m : Metrics) :
  create_efficiency_metrics S = Py.Ok m ->
  total_bins m = Py.len S /\
  critical_bins m = count_status "Critical" S /\
  warning_bins m = count_status "Warning" S /\
  good_bins m = Py.len S - count_status "Critical" S - count_status "Warning" S /\
  efficiency (good_bins m) (warning_bins m) (total_bins m) = Py.Ok (collection_efficiency m).
Proof.
  unfold create_efficiency_metrics.
  destruct (np_mean _) as [avg | e]; cbn [Py.bind]; [| discriminate].
  destruct (efficiency _ _ _) as [eff | e] eqn:Heff; cbn [Py.bind]; [| discriminate].
  intros [= <-]. cbn. auto.
Qed.

(** C3: the metrics of a snapshot satisfy good + warning + critical =
    total = the number of readings, where critical and warning count the
    readings whose status field is Critical and Warning and good is total
    less both; every non-empty snapshot whose fill levels are 64-bit
    signed integers has such metrics. *)
Theorem metrics_counts_partition (S : list Bin) :
  (forall m, create_efficiency_metrics S = Py.Ok m ->
     good_bins m + warning_bins m + critical_bins m = total_bins m /\
     total_bins m = Z.of_nat (List.length S) /\
     critical_bins m =
       Z.of_nat (List.length (filter (fun b => String.eqb (status b) "Critical") S)) /\
     warning_bins m =
       Z.of_nat (List.length (filter (fun b => String.eqb (status b) "Warning") S)) /\
     good_bins m = total_bins m - critical_bins m - warning_bins m /\
     0 <= good_bins m) /\
  (S <> [] -> Py.len S <= Py.maxsize -> int64_fill_levels S ->
   exists m, create_efficiency_metrics S = Py.Ok m).
Proof.
  split.
  - intros m Hm.
    destruct (create_efficiency_metrics_fields S m Hm) as (Ht & Hc & Hw & Hg & _).
    pose proof (counts_le_len S).
    rewrite <- !count_status_length, Hg, Hc, Hw, Ht. unfold Py.len in *.
    repeat split; lia.
  - intros Hne Hmax Hfit.
    destruct (create_efficiency_metrics_value S Hne Hmax Hfit) as (avg & eff & _ & _ & ->).
    eauto.
Qed.

Lemma metrics_counts_partition_witness :
  scenario <> [] /\ Py.len scenario <= Py.maxsize /\ int64_fill_levels scenario /\
  exists m, create_efficiency_metrics scenario = Py.Ok m /\
            good_bins m + warning_bins m + critical_bins m = total_bins m.
Proof.
  assert (Hne : scenario <> []) by discriminate.
  assert (Hmax : Py.len scenario <= Py.maxsize) by (vm_compute; discriminate).
  assert (Hfit : int64_fill_levels scenario) by (repeat constructor; discriminate).
  split; [exact Hne |]. split; [exact Hmax |]. split; [exact Hfit |].
  destruct (metrics_counts_partition scenario) as [Hfields Hex].
  destruct (Hex Hne Hmax Hfit) as [m Hm].
  exists m. split; [exact Hm | apply (Hfields m Hm)].
Defined.

Lemma create_efficiency_metrics_empty :
  create_efficiency_metrics [] = Py.Raise Py.ZeroDivisionError.
Proof. reflexivity. Qed.

(** C4: on an empty snapshot the aggregator divides by total_bins = 0
    with no guard: the mean of line 185 is nan, NumPy raising nothing,
    and the float division of line 189 finds the divisor 0.0 and raises
    Python's ZeroDivisionError.  On every non-empty snapshot whose fill
    levels are 64-bit signed integers the computation succeeds. *)
Theorem empty_fleet_unguarded :
  create_efficiency_metrics [] = Py.Raise Py.ZeroDivisionError /\
  (exists avg, np_mean (map fill_level []) = Py.Ok avg) /\
  (forall x, F64.truediv x (F64.round_int (Py.len (@nil Bin))) = Py.Raise Py.ZeroDivisionError) /\
  (forall S, S <> [] -> Py.len S <= Py.maxsize -> int64_fill_levels S ->
     exists m, create_efficiency_metrics S = Py.Ok m).
Proof.
  split; [apply create_efficiency_metrics_empty |].
  split; [apply np_mean_fill_levels; constructor |]. split; [reflexivity |].
  intros S Hne Hmax Hfit.
  destruct (create_efficiency_metrics_value S Hne Hmax Hfit) as (avg & eff & _ & _ & ->).
  eauto.
Qed.

Lemma empty_fleet_unguarded_witness :
  scenario <> [] /\ Py.len scenario <= Py.maxsize /\ int64_fill_levels scenario /\
  exists m, create_efficiency_metrics scenario = Py.Ok m.
Proof.
  assert (Hne : scenario <> []) by discriminate.
  assert (Hmax : Py.len scenario <= Py.maxsize) by (vm_compute; discriminate).
  assert (Hfit : int64_fill_levels scenario) by (repeat constructor; discriminate).
  split; [exact Hne |]. split; [exact Hmax |]. split; [exact Hfit |].
  destruct empty_fleet_unguarded as (_ & _ & _ & Hex). exact (Hex scenario Hne Hmax Hfit).
Defined.

(** The bound on the fill levels is needed: a fill level too large for
    a double stops the aggregator at line 185, before the division. *)
Remark oversized_fill_level_overflows :
  create_efficiency_metrics [oversized_reading] = Py.Raise Py.OverflowError.
Proof. vm_compute. reflexivity. Qed.

(** The empty snapshot fails with the raw division error and with no
    other: no guard stands before the division. *)
Lemma empty_fleet_no_guard :
  ~ (exists e, create_efficiency_metrics [] = Py.Raise e /\ e <> Py.ZeroDivisionError).
Proof.
  intros (e & He & Hne). apply Hne.
  rewrite create_efficiency_metrics_empty in He. congruence.
Qed.

(** ** The collection-efficiency score *)

Lemma count_status_le_len (s : string) (S : list Bin) : count_status s S <= Py.len S.
Proof.
  rewrite count_status_length. unfold Py.len.
  apply inj_le, filter_length_le.
Qed.

Lemma count_status_none (s : string) (S : list Bin) :
  count_status s S = 0 <-> Forall (fun b => status b <> s) S.
Proof.
  induction S as [| b S IH].
  - split; [constructor | reflexivity].
  - rewrite count_status_cons. pose proof (count_status_nonneg s S).
    destruct (String.eqb (status b) s) eqn:Hb.
    + apply String.eqb_eq in Hb. split; [lia |]. intros HF. inversion HF. congruence.
    + apply String.eqb_neq in Hb. split.
      * intros H0. constructor; [exact Hb | apply IH; lia].
      * intros HF. inversion HF; subst. apply IH in H3. lia.
Qed.

Lemma count_status_all (s : string) (S : list Bin) :
  count_status s S = Py.len S <-> Forall (fun b => status b = s) S.
Proof.
  induction S as [| b S IH].
  - split; [constructor | reflexivity].
  - rewrite count_status_cons. pose proof (count_status_le_len s S).
    unfold Py.len in *. cbn [List.length]. rewrite Nat2Z.inj_succ.
    destruct (String.eqb (status b) s) eqn:Hb.
    + apply String.eqb_eq in Hb. split.
      * intros H0. constructor; [exact Hb | apply IH; lia].
      * intros HF. inversion HF; subst. apply IH in H3. lia.
    + apply String.eqb_neq in Hb. split; [lia |]. intros HF. inversion HF. congruence.
Qed.

Lemma all_good_iff (S : list Bin) :
  Forall known_status S ->
  (count_status "Critical" S = 0 /\ count_status "Warning" S = 0 <->
   Forall (fun b => status b = "Good") S).
Proof.
  intros Hk. rewrite !count_status_none, !Forall_forall.
  rewrite Forall_forall in Hk. split.
  - intros [Hc Hw] b Hb. destruct (Hk b Hb) as [H | [H | H]]; [exact H | |].
    + now apply Hw in H.
    + now apply Hc in H.
  - intros Hg. split; intros b Hb; rewrite (Hg b Hb); discriminate.
Qed.

Lemma Q2R_inject_Z (z : Z) : Q2R (inject_Z z) = IZR z.
Proof. unfold Q2R, inject_Z. cbn [Qnum Qden]. lra. Qed.

Lemma to_Q_val (m : positive) (e : Z) :
  Q2R (F64.to_Q (S754_finite false m e)) = val m e.
Proof.
  unfold F64.to_Q, val. destruct e as [| p | p].
  - rewrite Q2R_inject_Z. cbn [powerRZ]. lra.
  - rewrite Q2R_inject_Z, mult_IZR, IZR_pow2 by lia. reflexivity.
  - unfold Q2R. cbn [Qnum Qden].
    rewrite Pos2Z.inj_pow. change (Z.pos 2) with 2.
    pose proof (pow2_neg (Zpos p) ltac:(lia)) as Hp. cbn [Z.opp] in Hp.
    now rewrite Hp.
Qed.

Lemma exact_efficiency_R (g w t : Z) :
  1 <= t ->
  Q2R (exact_efficiency g w t) = (100 * (IZR g + 7 / 10 * IZR w) / IZR t)%R.
Proof.
  intros Ht. unfold exact_efficiency.
  assert (Hnz : ~ (inject_Z t == 0)%Q).
  { unfold Qeq, inject_Z. cbn [Qnum Qden]. lia. }
  rewrite Q2R_div, Q2R_mult, Q2R_plus, Q2R_mult, !Q2R_inject_Z by exact Hnz.
  replace (Q2R 100) with 100%R by (unfold Q2R; cbn [Qnum Qden]; lra).
  replace (Q2R (7 # 10)) with (7 / 10)%R by (unfold Q2R; cbn [Qnum Qden]; lra).
  reflexivity.
Qed.

(** From real bounds on the error to the rational ones of the statement. *)
Lemma error_in_Q (x : F64.float) (g w t : Z) :
  1 <= t -> Q2R (F64.to_Q x) = to_R x ->
  (to_R x - 100 * (IZR g + 7 / 10 * IZR w) / IZR t <= / 8796093022208)%R /\
  (100 * (IZR g + 7 / 10 * IZR w) / IZR t - to_R x <= / 8796093022208)%R ->
  (F64.to_Q x - exact_efficiency g w t <= 1 # 8796093022208)%Q /\
  (exact_efficiency g w t - F64.to_Q x <= 1 # 8796093022208)%Q.
Proof.
  intros Ht Hx [H1 H2].
  assert (Hb : Q2R (1 # 8796093022208) = (/ 8796093022208)%R)
    by (unfold Q2R; cbn [Qnum Qden]; lra).
  split; apply Rle_Qle; rewrite Q2R_minus, Hb, Hx, exact_efficiency_R by exact Ht;
    assumption.
Qed.

(** The score of a fleet of [t] bins of which [g] are Good and [w] are
    Warning. *)
Lemma score_props (g w t : Z) :
  0 <= g -> 0 <= w -> g + w <= t -> 1 <= t <= fleet_limit ->
  F64.is_finite (score g w t) = true /\
  F64.leb (S754_zero false) (score g w t) = true /\
  F64.leb (score g w t) (F64.round_int 100) = true /\
  (F64.eqb (score g w t) (F64.round_int 100) = true <-> g = t) /\
  (F64.eqb (score g w t) (S754_zero false) = true <-> g = 0 /\ w = 0) /\
  (F64.to_Q (score g w t) - exact_efficiency g w t <= 1 # 8796093022208)%Q /\
  (exact_efficiency g w t - F64.to_Q (score g w t) <= 1 # 8796093022208)%Q.
Proof.
  intros Hg Hw Hle [Ht1 Ht2]. unfold fleet_limit in Ht2.
  assert (HT : (1 <= IZR t)%R) by (apply IZR_le; lia).
  destruct (Z.eq_dec (g + w) 0) as [H0 | H0].
  - (* every bin Critical *)
    assert (g = 0) by lia. assert (w = 0) by lia. subst g w.
    rewrite score_zero by lia. rewrite round_int_100.
    repeat (split; [reflexivity |]). split; [| split].
    + split; [discriminate | lia].
    + split; [intros _; lia | reflexivity].
    + apply error_in_Q; [lia | apply Q2R_inject_Z |].
      cbn [to_R]. replace (100 * (0 + 7 / 10 * 0) / IZR t)%R with 0%R by (field; lra).
      split; lra.
  - destruct (Z.eq_dec g t) as [Hgt | Hgt].
    + (* every bin Good *)
      assert (w = 0) by lia. subst g w.
      rewrite score_full by lia. rewrite round_int_100.
      repeat (split; [reflexivity |]). split; [| split].
      * split; reflexivity.
      * split; [discriminate | lia].
      * apply error_in_Q; [lia | apply to_Q_val |].
        cbn [to_R c100]. rewrite val_c100.
        replace (100 * (IZR t + 7 / 10 * 0) / IZR t)%R with 100%R by (field; lra).
        split; lra.
    + destruct (score_partial g w t Hg Hw ltac:(lia) Hle Ht2) as (m & e & -> & Hm & H1 & H2).
      pose proof (score_below_100 g w t m e Hg Hw Hle Ht2 ltac:(lia) H1) as Hlt.
      pose proof (below_100 m e Hm Hlt) as Hcmp. rewrite round_int_100.
      split; [reflexivity |]. split; [reflexivity |].
      unfold F64.leb, F64.eqb, SFleb, SFeqb. rewrite Hcmp.
      split; [reflexivity |]. split; [split; [discriminate | lia] |].
      split; [split; [discriminate | lia] |].
      apply error_in_Q; [lia | apply to_Q_val |]. cbn [to_R].
      apply (score_error g w t m e); auto; lra.
Qed.

(** C2, as the code has it: on a non-empty snapshot of at most 2^48
    bins with statuses Good, Warning or Critical and fill levels that are
    64-bit signed integers, the aggregator returns
    the binary64 value of ((good + warning * 0.7) / total) * 100, each
    operation rounded to nearest; it is within 2^-43 of the exact
    100 (good + 0.7 warning) / total, lies in [0, 100], equals 100 exactly
    when every bin is Good and equals 0 exactly when every bin is
    Critical. *)
Theorem collection_efficiency_score (S : list Bin) :
  S <> [] -> Py.len S <= 2 ^ 48 -> Forall known_status S -> int64_fill_levels S ->
  exists m,
    create_efficiency_metrics S = Py.Ok m /\
    collection_efficiency m =
      F64.mul
        (F64.div (F64.add (F64.round_int (good_bins m))
                          (F64.mul (F64.round_int (warning_bins m)) (F64.literal 7 1)))
                 (F64.round_int (total_bins m)))
        (F64.round_int 100) /\
    F64.is_finite (collection_efficiency m) = true /\
    (F64.to_Q (collection_efficiency m)
       - exact_efficiency (good_bins m) (warning_bins m) (total_bins m)
       <= 1 # 8796093022208)%Q /\
    (exact_efficiency (good_bins m) (warning_bins m) (total_bins m)
       - F64.to_Q (collection_efficiency m)
       <= 1 # 8796093022208)%Q /\
    F64.leb (S754_zero false) (collection_efficiency m) = true /\
    F64.leb (collection_efficiency m) (F64.round_int 100) = true /\
    (F64.eqb (collection_efficiency m) (F64.round_int 100) = true <->
       Forall (fun b => status b = "Good") S) /\
    (F64.eqb (collection_efficiency m) (S754_zero false) = true <->
       Forall (fun b => status b = "Critical") S).
Proof.
  intros Hne Hlen Hk Hfit.
  pose proof (counts_le_len S) as Hcw. pose proof (len_pos S Hne) as Hpos.
  pose proof (count_status_nonneg "Critical" S) as Hc0.
  pose proof (count_status_nonneg "Warning" S) as Hw0.
  assert (Hmax : Py.len S <= Py.maxsize).
  { eapply Z.le_trans; [exact Hlen | vm_compute; discriminate]. }
  destruct (create_efficiency_metrics_value S Hne Hmax Hfit) as (avg & eff & _ & Heff & Hm).
  rewrite efficiency_value in Heff by lia. injection Heff as <-.
  eexists. split; [exact Hm |].
  cbn [collection_efficiency good_bins warning_bins total_bins].
  split; [reflexivity |].
  set (c := count_status "Critical" S) in *. set (w := count_status "Warning" S) in *.
  set (t := Py.len S) in *.
  destruct (score_props (t - c - w) w t) as (Hfin & Hge & Hle & H100 & H0 & He1 & He2);
    try lia; [unfold fleet_limit; lia |].
  split; [exact Hfin |]. split; [exact He1 |]. split; [exact He2 |].
  split; [exact Hge |]. split; [exact Hle |]. split.
  - unfold score, served in H100. rewrite H100.
    rewrite <- (all_good_iff S Hk). fold c w. lia.
  - unfold score, served in H0. rewrite H0.
    rewrite <- (count_status_all "Critical" S). fold c t. lia.
Qed.

Lemma collection_efficiency_score_witness :
  scenario <> [] /\ Py.len scenario <= 2 ^ 48 /\ Forall known_status scenario /\
  int64_fill_levels scenario /\
  exists m, create_efficiency_metrics scenario = Py.Ok m /\
            F64.leb (collection_efficiency m) (F64.round_int 100) = true.
Proof.
  assert (Hne : scenario <> []) by discriminate.
  assert (Hlen : Py.len scenario <= 2 ^ 48) by (vm_compute; discriminate).
  assert (Hk : Forall known_status scenario).
  { unfold known_status. repeat constructor; vm_compute; tauto. }
  assert (Hfit : int64_fill_levels scenario) by (repeat constructor; discriminate).
  split; [exact Hne |]. split; [exact Hlen |]. split; [exact Hk |]. split; [exact Hfit |].
  destruct (collection_efficiency_score scenario Hne Hlen Hk Hfit)
    as (m & Hm & _ & _ & _ & _ & _ & Hle & _).
  exists m. split; [exact Hm | exact Hle].
Defined.

(** On the fleet with fill levels 90, 86, 70, 71, 50, 10, 85, 95 (3 Good,
    2 Warning, 3 Critical) the formula is worth exactly 55, and the
    aggregator returns the double just above it, 55.00000000000001. *)
Lemma scenario_score_above_55 :
  exists m,
    create_efficiency_metrics scenario = Py.Ok m /\
    (good_bins m, warning_bins m, critical_bins m, total_bins m) = (3, 2, 3, 8) /\
    (exact_efficiency (good_bins m) (warning_bins m) (total_bins m) == 55)%Q /\
    collection_efficiency m = S754_finite false 7740561859543041 (-47) /\
    ~ (F64.to_Q (collection_efficiency m)
       == exact_efficiency (good_bins m) (warning_bins m) (total_bins m))%Q.
Proof.
  eexists. split; [vm_compute; reflexivity |].
  cbn [good_bins warning_bins critical_bins total_bins collection_efficiency].
  split; [reflexivity |]. split; [reflexivity |]. split; [reflexivity |].
  intros H. vm_compute in H. discriminate H.
Qed.

(** Far beyond any fleet, the rounding also breaks "100 only if all are
    Good": with 10^17 bins of which one is Warning, the served count
    10^17 - 0.3 and the total round to the same double. *)
Remark efficiency_rounds_to_100 :
  efficiency (10 ^ 17 - 1) 1 (10 ^ 17) = Py.Ok (F64.round_int 100).
Proof. vm_compute. reflexivity. Qed.

(** ** The periodic refresh check *)

Lemma auto_refresh_check_cases (s : SessionState) (w : World) :
  let now := clock w (clock_pos w) in
  (30 < seconds (datetime_sub now (last_update s)) ->
   fst (fst (auto_refresh_check s w)) = Rerun /\
   exists w', snd (fst (auto_refresh_check s w)) = fst (refresh w')) /\
  (seconds (datetime_sub now (last_update s)) <= 30 ->
   fst (fst (auto_refresh_check s w)) = Render /\
   snd (fst (auto_refresh_check s w)) = s).
Proof.
  intros now. unfold auto_refresh_check, datetime_now. fold now.
  destruct (seconds (datetime_sub now (last_update s)) >? 30) eqn:Hs.
  - split; [| lia]. intros _.
    match goal with |- context [refresh ?w1] => destruct (refresh w1) as [s' w2] eqn:Hr;
      split; [reflexivity | exists w1; rewrite Hr; reflexivity] end.
  - split; [lia |]. intros _. split; reflexivity.
Qed.

(** What the check compares with 30 is the seconds field of the
    difference: the whole seconds elapsed, less the whole days. *)
Lemma seconds_of_elapsed (now : datetime) (s : SessionState) :
  seconds (datetime_sub now (last_update s)) = (elapsed_us now s / 1000000) mod 86400.
Proof. reflexivity. Qed.

(** Within a day of the last refresh the check fires from 31 s on. *)
Lemma auto_refresh_within_a_day (s : SessionState) (w : World) :
  let now := clock w (clock_pos w) in
  (31 * 1000000 <= elapsed_us now s < 86400 * 1000000 ->
   fst (fst (auto_refresh_check s w)) = Rerun) /\
  (0 <= elapsed_us now s <= 30 * 1000000 ->
   fst (fst (auto_refresh_check s w)) = Render /\
   snd (fst (auto_refresh_check s w)) = s).
Proof.
  intros now. destruct (auto_refresh_check_cases s w) as [Hyes Hno]. fold now in Hyes, Hno.
  rewrite seconds_of_elapsed in Hyes, Hno.
  split; intros He.
  - apply Hyes. rewrite Z.mod_small.
    + apply Z.lt_le_trans with 31; [lia |]. apply Z.div_le_lower_bound; lia.
    + split; [apply Z.div_pos; lia | apply Z.div_lt_upper_bound; lia].
  - apply Hno. rewrite Z.mod_small.
    + assert (elapsed_us now s / 1000000 < 31); [apply Z.div_lt_upper_bound; lia | lia].
    + split; [apply Z.div_pos; lia | apply Z.div_lt_upper_bound; lia].
Qed.

(** C9 fails on the code: with periodic refresh enabled, a pass made one
    day and ten seconds after the last refresh, or 30.5 seconds after it,
    finds more than 30 seconds elapsed and yet keeps the stored snapshot
    and timestamp, because the check reads the seconds field of the
    difference (10, and 30) and not its total. *)
Theorem auto_refresh_overlooks_elapsed_time :
  let day_later := last_update stale_session + 86410 * 1000000 in
  let half_second_late := last_update stale_session + 30500000 in
  (30 * 1000000 < elapsed_us day_later stale_session /\
   seconds (datetime_sub day_later (last_update stale_session)) = 10 /\
   fst (fst (main_controls true false stale_session (world_at day_later))) = Render /\
   snd (fst (main_controls true false stale_session (world_at day_later))) = stale_session) /\
  (30 * 1000000 < elapsed_us half_second_late stale_session /\
   seconds (datetime_sub half_second_late (last_update stale_session)) = 30 /\
   fst (fst (main_controls true false stale_session (world_at half_second_late))) = Render /\
   snd (fst (main_controls true false stale_session (world_at half_second_late))) = stale_session).
Proof.
  cbv zeta. split; (split; [reflexivity |]); (split; [reflexivity |]);
    split; reflexivity.
Qed.


(** * Further properties *)

(** ** The classifier and the generator *)

(** X1: the classifier is monotone in the fill level: a fuller bin is
    never given a milder status. *)
Theorem classify_monotone (f f' : Z) :
  f <= f' ->
  (classify f = "Critical" -> classify f' = "Critical") /\
  (classify f = "Warning" -> classify f' = "Warning" \/ classify f' = "Critical") /\
  (classify f' = "Good" -> classify f = "Good") /\
  (classify f' = "Warning" -> classify f = "Warning" \/ classify f = "Good").
Proof.
  intros Hle.
  destruct (classify_cases f) as [[H E] | [[H E] | [H E]]];
    destruct (classify_cases f') as [[H' E'] | [[H' E'] | [H' E']]];
    rewrite E, E'; repeat split; intros; try discriminate; try lia; auto.
Qed.

Lemma classify_monotone_witness :
  71 <= 90 /\ (classify 90 = "Warning" -> classify 71 = "Warning" \/ classify 71 = "Good").
Proof.
  assert (H : 71 <= 90) by lia.
  split; [exact H | apply (classify_monotone 71 90 H)].
Defined.

Lemma randint_bounds (a b r : Z) : a <= b -> a <= a + r mod (b - a + 1) <= b.
Proof. intros Hab. pose proof (Z.mod_pos_bound r (b - a + 1)). lia. Qed.

Lemma generate_bin_ranges (location : Location) (w : World) :
  let b := fst (generate_bin location w) in
  50 <= daily_waste b <= 200 /\ 20 <= temperature b <= 35 /\ 40 <= humidity b <= 80.
Proof.
  cbv zeta.
  assert (H1 : exists w', daily_waste (fst (generate_bin location w)) =
                          fst (random_randint 50 200 w')) by (eexists; reflexivity).
  assert (H2 : exists w', temperature (fst (generate_bin location w)) =
                          fst (random_randint 20 35 w')) by (eexists; reflexivity).
  assert (H3 : exists w', humidity (fst (generate_bin location w)) =
                          fst (random_randint 40 80 w')) by (eexists; reflexivity).
  destruct H1 as [w1 ->], H2 as [w2 ->], H3 as [w3 ->].
  repeat split; apply random_randint_range; lia.
Qed.

(** X2: in every generated snapshot each reading has a daily waste
    between 50 and 200, a temperature between 20 and 35 and a humidity
    between 40 and 80. *)
Theorem generated_field_ranges (w : World) :
  Forall (fun b => 50 <= daily_waste b <= 200 /\
                   20 <= temperature b <= 35 /\
                   40 <= humidity b <= 80)
         (fst (generate_bin_data w)).
Proof.
  unfold generate_bin_data. apply generate_loop_Forall; [| constructor].
  intros location w'. apply generate_bin_ranges.
Qed.

Lemma generate_bin_waste (location : Location) (w : World) :
  exists plastic paper glass metal organic,
    waste_classification (fst (generate_bin location w)) =
      [("Plastic", plastic); ("Paper", paper); ("Glass", glass);
       ("Metal", metal); ("Organic", organic)] /\
    20 <= plastic <= 40 /\ 15 <= paper <= 30 /\ 5 <= glass <= 20 /\
    5 <= metal <= 15 /\ 25 <= organic <= 45.
Proof.
  assert (H : exists w1 w2 w3 w4 w5,
             waste_classification (fst (generate_bin location w)) =
             [("Plastic", fst (random_randint 20 40 w1));
              ("Paper", fst (random_randint 15 30 w2));
              ("Glass", fst (random_randint 5 20 w3));
              ("Metal", fst (random_randint 5 15 w4));
              ("Organic", fst (random_randint 25 45 w5))])
    by (do 5 eexists; reflexivity).
  destruct H as (w1 & w2 & w3 & w4 & w5 & ->).
  do 5 eexists. split; [reflexivity |].
  repeat split; apply random_randint_range; lia.
Qed.

(** X3: in every generated snapshot each reading's waste classification
    has exactly the five entries Plastic, Paper, Glass, Metal, Organic, in
    this order, each weight within its own range (20-40, 15-30, 5-20,
    5-15, 25-45); the five weights add up to between 70 and 150, so they
    are not percentages of a whole. *)
Theorem generated_waste_classification (w : World) :
  Forall (fun b =>
            exists plastic paper glass metal organic,
              waste_classification b =
                [("Plastic", plastic); ("Paper", paper); ("Glass", glass);
                 ("Metal", metal); ("Organic", organic)] /\
              20 <= plastic <= 40 /\ 15 <= paper <= 30 /\ 5 <= glass <= 20 /\
              5 <= metal <= 15 /\ 25 <= organic <= 45 /\
              70 <= plastic + paper + glass + metal + organic <= 150)
         (fst (generate_bin_data w)).
Proof.
  unfold generate_bin_data. apply generate_loop_Forall; [| constructor].
  intros location w'.
  destruct (generate_bin_waste location w') as (p & pa & g & m & o & E & Hp & Hpa & Hg & Hm & Ho).
  exists p, pa, g, m, o. repeat split; try assumption; lia.
Qed.

(** ** Draws and clock readings *)

Lemma timedelta_round_trip (us : Z) : timedelta_us (timedelta_of_us us) = us.
Proof.
  unfold timedelta_us, timedelta_of_us. cbn [days seconds microseconds].
  pose proof (Z.div_mod us 1000000 ltac:(lia)) as H1.
  pose proof (Z.div_mod (us / 1000000) 86400 ltac:(lia)) as H2.
  rewrite Z.div_div in H2 by lia. change (1000000 * 86400) with 86400000000 in H2. lia.
Qed.

Lemma generate_bin_world (location : Location) (w : World) :
  rand (snd (generate_bin location w)) = rand w /\
  rand_pos (snd (generate_bin location w)) = (10 + rand_pos w)%nat /\
  clock (snd (generate_bin location w)) = clock w /\
  clock_pos (snd (generate_bin location w)) = S (clock_pos w).
Proof. repeat split; reflexivity. Qed.

Lemma generate_bin_draws (location : Location) (w : World) :
  fill_level (fst (generate_bin location w)) = 10 + rand w (rand_pos w) mod 86 /\
  exists hours, 2 <= hours <= 48 /\
    last_collection (fst (generate_bin location w)) =
    clock w (clock_pos w) - hours * 3600000000.
Proof.
  split; [reflexivity |].
  assert (H : exists w', last_collection (fst (generate_bin location w)) =
              datetime_minus (clock w (clock_pos w))
                             (timedelta_hours (fst (random_randint 2 48 w'))))
    by (eexists; reflexivity).
  destruct H as [w' ->].
  exists (fst (random_randint 2 48 w')). split; [apply random_randint_range; lia |].
  unfold datetime_minus, timedelta_hours. now rewrite timedelta_round_trip.
Qed.

Lemma generate_loop_trace (locations : list Location) :
  forall bins w,
  exists news,
    fst (generate_loop locations bins w) = bins ++ news /\
    List.length news = List.length locations /\
    rand (snd (generate_loop locations bins w)) = rand w /\
    rand_pos (snd (generate_loop locations bins w)) =
      (rand_pos w + 10 * List.length locations)%nat /\
    clock (snd (generate_loop locations bins w)) = clock w /\
    clock_pos (snd (generate_loop locations bins w)) =
      (clock_pos w + List.length locations)%nat /\
    forall i b, nth_error news i = Some b ->
      fill_level b = 10 + rand w (rand_pos w + 10 * i) mod 86 /\
      exists hours, 2 <= hours <= 48 /\
        last_collection b = clock w (clock_pos w + i) - hours * 3600000000.
Proof.
  induction locations as [| location rest IH]; intros bins w; cbn [generate_loop].
  - exists []. cbn [fst snd List.length]. rewrite app_nil_r.
    repeat split; try reflexivity; try lia; destruct i; discriminate.
  - pose proof (generate_bin_world location w) as (Hr & Hp & Hc & Hcp).
    pose proof (generate_bin_draws location w) as Hd.
    destruct (generate_bin location w) as [b0 w'] eqn:Hb. cbn [fst snd] in Hr, Hp, Hc, Hcp, Hd.
    destruct (IH (bins ++ [b0]) w') as (news & E & Hlen & Hr' & Hp' & Hc' & Hcp' & Hnth).
    exists (b0 :: news). rewrite E, <- app_assoc. cbn [app List.length].
    rewrite Hr', Hp', Hc', Hcp', Hr, Hp, Hc, Hcp, Hlen.
    split; [reflexivity |]. split; [reflexivity |]. split; [reflexivity |].
    split; [lia |]. split; [reflexivity |]. split; [lia |].
    intros [| i] b Hb'.
    + injection Hb' as <-. rewrite Nat.mul_0_r, !Nat.add_0_r. exact Hd.
    + cbn [nth_error] in Hb'. specialize (Hnth i b Hb').
      rewrite Hr, Hp, Hc, Hcp in Hnth.
      replace (rand_pos w + 10 * S i)%nat with (10 + rand_pos w + 10 * i)%nat by lia.
      replace (clock_pos w + S i)%nat with (S (clock_pos w) + i)%nat by lia.
      exact Hnth.
Qed.


Lemma refresh_fields (w : World) :
  last_update (fst (refresh w)) =
    clock (snd (generate_bin_data w)) (clock_pos (snd (generate_bin_data w))) /\
  bin_data (fst (refresh w)) = fst (generate_bin_data w).
Proof.
  unfold refresh. destruct (generate_bin_data w) as [bins w1]. split; reflexivity.
Qed.

Lemma init_session_fields (w : World) :
  last_update (fst (init_session None w)) = clock w (clock_pos w) /\
  bin_data (fst (init_session None w)) = fst (generate_bin_data (snd (datetime_now w))).
Proof.
  unfold init_session.
  destruct (datetime_now w) as [now w1] eqn:Hn.
  assert (Hnow : now = clock w (clock_pos w)) by (injection Hn as <- _; reflexivity).
  cbn [snd]. destruct (generate_bin_data w1) as [bins w2]. split; [exact Hnow | reflexivity].
Qed.

(** X5: with a clock that never runs backwards.  A refresh stamps the
    session after its snapshot was generated: the last collection of the
    i-th bin lies a whole number of hours, between 2 and 48, before the
    i-th clock reading of the generation, and that reading is not later
    than [last_update]; so it is at least 2 hours before [last_update].
    The first pass stamps the session before generating: there the
    reading is not earlier than [last_update], so every last collection
    is at most 48 hours before [last_update]. *)
Theorem session_timestamps (w : World) :
  clock_monotone w ->
  (last_update (fst (refresh w)) = clock w (clock_pos w + 8) /\
   forall i b, nth_error (bin_data (fst (refresh w))) i = Some b ->
     exists hours,
       2 <= hours <= 48 /\
       last_collection b = clock w (clock_pos w + i) - hours * 3600000000 /\
       clock w (clock_pos w + i) <= last_update (fst (refresh w)) /\
       last_collection b + 2 * 3600000000 <= last_update (fst (refresh w))) /\
  (last_update (fst (init_session None w)) = clock w (clock_pos w) /\
   forall i b, nth_error (bin_data (fst (init_session None w))) i = Some b ->
     exists hours,
       2 <= hours <= 48 /\
       last_collection b = clock w (clock_pos w + 1 + i) - hours * 3600000000 /\
       last_update (fst (init_session None w)) <= clock w (clock_pos w + 1 + i) /\
       last_update (fst (init_session None w)) - 48 * 3600000000 <= last_collection b).
Proof.
  intros Hmono. split.
  - destruct (refresh_fields w) as [-> ->]. unfold generate_bin_data.
    destruct (generate_loop_trace bin_locations [] w)
      as (news & -> & Hlen & _ & _ & -> & -> & Hnth).
    cbn [app]. change (List.length bin_locations) with 8%nat in *.
    split; [reflexivity |]. intros i b Hi.
    assert (Hi8 : (i < 8)%nat).
    { rewrite <- Hlen. apply nth_error_Some. congruence. }
    destruct (Hnth i b Hi) as (_ & hours & Hh & E).
    pose proof (Hmono (clock_pos w + i)%nat (clock_pos w + 8)%nat ltac:(lia)) as Hle.
    exists hours. split; [exact Hh |]. split; [exact E |]. split; [exact Hle | lia].
  - destruct (init_session_fields w) as [-> ->]. unfold generate_bin_data.
    destruct (generate_loop_trace bin_locations [] (snd (datetime_now w)))
      as (news & -> & _ & _ & _ & _ & _ & Hnth).
    cbn [app]. split; [reflexivity |]. intros i b Hi.
    destruct (Hnth i b Hi) as (_ & hours & Hh & E).
    cbn [datetime_now snd clock clock_pos] in E.
    replace (clock_pos w + 1 + i)%nat with (S (clock_pos w) + i)%nat by lia.
    pose proof (Hmono (clock_pos w) (S (clock_pos w) + i)%nat ltac:(lia)) as Hle.
    exists hours. split; [exact Hh |]. split; [exact E |]. split; [exact Hle | lia].
Qed.

Lemma session_timestamps_witness :
  clock_monotone sample_world /\
  last_update (fst (refresh sample_world)) = clock sample_world (clock_pos sample_world + 8).
Proof.
  assert (H : clock_monotone sample_world).
  { intros n m Hnm. cbn [sample_world clock]. lia. }
  split; [exact H | apply (session_timestamps sample_world H)].
Defined.

(** ** The refresh controls *)

(** X6: a pass through the refresh controls either goes on to render
    with the session state untouched, or stores a whole new snapshot
    with its timestamp and reruns: it never renders a state it has just
    changed.  Pressing the button always ends in a rerun; with the
    checkbox off and the button not pressed nothing at all happens. *)
Theorem main_controls_flow (auto_refresh button : bool) (s : SessionState) (w : World) :
  (fst (fst (main_controls auto_refresh button s w)) = Render ->
   snd (fst (main_controls auto_refresh button s w)) = s /\ button = false) /\
  (fst (fst (main_controls auto_refresh button s w)) = Rerun ->
   exists w', snd (fst (main_controls auto_refresh button s w)) = fst (refresh w')) /\
  (button = true -> fst (fst (main_controls auto_refresh button s w)) = Rerun) /\
  (auto_refresh = false -> button = false ->
   main_controls auto_refresh button s w = (Render, s, w)).
Proof.
  unfold main_controls.
  destruct auto_refresh.
  - unfold auto_refresh_check.
    destruct (datetime_now w) as [now w1].
    destruct (seconds (datetime_sub now (last_update s)) >? 30).
    + destruct (refresh w1) as [s' w2] eqn:Hr. cbn [fst snd].
      split; [discriminate |]. split; [| split; [reflexivity | discriminate]].
      intros _. exists w1. now rewrite Hr.
    + destruct button.
      * destruct (refresh w1) as [s' w2] eqn:Hr. cbn [fst snd].
        split; [discriminate |]. split; [| split; [reflexivity | discriminate]].
        intros _. exists w1. now rewrite Hr.
      * cbn [fst snd]. split; [intros _; split; reflexivity |].
        split; [discriminate |]. split; discriminate.
  - destruct button.
    + destruct (refresh w) as [s' w2] eqn:Hr. cbn [fst snd].
      split; [discriminate |]. split; [| split; [reflexivity | discriminate]].
      intros _. exists w. now rewrite Hr.
    + cbn [fst snd]. split; [intros _; split; reflexivity |].
      split; [discriminate |]. split; [discriminate | reflexivity].
Qed.

Lemma main_controls_flow_witness :
  fst (fst (main_controls true true stale_session sample_world)) = Rerun.
Proof.
  apply (main_controls_flow true true stale_session sample_world). reflexivity.
Defined.

(** ** The metrics of a stored snapshot *)

Lemma reachable_generated (s : SessionState) :
  reachable s -> exists w, bin_data s = fst (generate_bin_data w).
Proof.
  induction 1 as [w | s auto_refresh button w Hs IH].
  - apply init_session_bin_data.
  - destruct (main_controls_state auto_refresh button s w) as [-> | [w' ->]].
    + exact IH.
    + exists w'. apply refresh_bin_data.
Qed.

Lemma Py_sum_from (xs : list Z) (a : Z) : fold_left Z.add xs a = a + Py.sum xs.
Proof.
  unfold Py.sum. revert a. induction xs as [| x xs IH]; intros a; cbn [fold_left].
  - lia.
  - rewrite IH, (IH (0 + x)). lia.
Qed.

Lemma Py_sum_cons (x : Z) (xs : list Z) : Py.sum (x :: xs) = x + Py.sum xs.
Proof. unfold Py.sum at 1. cbn [fold_left]. rewrite Py_sum_from. lia. Qed.

Lemma Py_sum_app (xs ys : list Z) : Py.sum (xs ++ ys) = Py.sum xs + Py.sum ys.
Proof.
  induction xs as [| x xs IH]; [reflexivity |].
  cbn [app]. rewrite !Py_sum_cons, IH. lia.
Qed.

Lemma Py_sum_bounds (lo hi : Z) (xs : list Z) :
  Forall (fun x => lo <= x <= hi) xs ->
  Py.len xs * lo <= Py.sum xs <= Py.len xs * hi.
Proof.
  unfold Py.len. induction 1 as [| x xs Hx _ IH]; [cbn; lia |].
  rewrite Py_sum_cons. cbn [List.length]. rewrite Nat2Z.inj_succ. lia.
Qed.

Lemma reachable_fill_levels (s : SessionState) :
  reachable s ->
  Forall (fun b => 10 <= fill_level b <= 95 /\ status b = classify (fill_level b))
         (bin_data s).
Proof.
  intros Hs. destruct (reachable_generated s Hs) as [w ->]. unfold generate_bin_data.
  apply generate_loop_Forall; [| constructor].
  intros location w'. split; [apply generate_bin_fill | apply generate_bin_status].
Qed.

Lemma count_status_by_fill (S : list Bin) :
  Forall (fun b => status b = classify (fill_level b)) S ->
  count_status "Critical" S = Py.len (filter (fun b => 85 <? fill_level b) S) /\
  count_status "Warning" S =
    Py.len (filter (fun b => (70 <? fill_level b) && (fill_level b <=? 85)) S).
Proof.
  intros Hc. rewrite Forall_forall in Hc. rewrite !count_status_length. unfold Py.len.
  split; f_equal; f_equal; apply filter_ext_in; intros b Hb; rewrite (Hc b Hb);
    destruct (classify_cases (fill_level b)) as [[H E] | [[H E] | [H E]]]; rewrite E;
    destruct (Z.ltb_spec 85 (fill_level b)); destruct (Z.ltb_spec 70 (fill_level b));
    destruct (Z.leb_spec (fill_level b) 85); try lia; reflexivity.
Qed.

(** X7: on the snapshot of any session state a run can reach, the
    metrics computation succeeds.  It counts 8 bins; critical_bins is the
    number of bins filled above 85 and warning_bins the number filled
    above 70 and at most 85; the three counts are not negative and add up
    to 8; the total daily waste lies between 400 and 1600, and the
    collection efficiency between 0 and 100. *)
Theorem reachable_metrics (s : SessionState) :
  reachable s ->
  exists m,
    create_efficiency_metrics (bin_data s) = Py.Ok m /\
    total_bins m = 8 /\
    critical_bins m = Py.len (filter (fun b => 85 <? fill_level b) (bin_data s)) /\
    warning_bins m =
      Py.len (filter (fun b => (70 <? fill_level b) && (fill_level b <=? 85)) (bin_data s)) /\
    0 <= critical_bins m /\ 0 <= warning_bins m /\ 0 <= good_bins m /\
    good_bins m + warning_bins m + critical_bins m = 8 /\
    400 <= total_daily_waste m <= 1600 /\
    F64.leb (S754_zero false) (collection_efficiency m) = true /\
    F64.leb (collection_efficiency m) (F64.round_int 100) = true.
Proof.
  intros Hs. destruct (reachable_generated s Hs) as [w Hw].
  pose proof (reachable_fill_levels s Hs) as Hfill.
  assert (Hlen : Py.len (bin_data s) = 8).
  { unfold Py.len. rewrite Hw, <- (length_map location_of), generate_bin_data_locations.
    reflexivity. }
  assert (Hne : bin_data s <> []).
  { intros E. rewrite E in Hlen. discriminate Hlen. }
  assert (Hmax : Py.len (bin_data s) <= Py.maxsize) by (rewrite Hlen; discriminate).
  assert (Hfit : int64_fill_levels (bin_data s)).
  { eapply Forall_impl; [| exact Hfill]. intros b [Hb _]. cbv beta. lia. }
  assert (Hcons : Forall (fun b => status b = classify (fill_level b)) (bin_data s)).
  { eapply Forall_impl; [| exact Hfill]. intros b [_ Hb]. exact Hb. }
  destruct (count_status_by_fill (bin_data s) Hcons) as [Hcrit Hwarn].
  destruct (create_efficiency_metrics_value (bin_data s) Hne Hmax Hfit)
    as (avg & eff & _ & Heff & Hm).
  pose proof (counts_le_len (bin_data s)) as Hcw.
  pose proof (count_status_nonneg "Critical" (bin_data s)) as Hc0.
  pose proof (count_status_nonneg "Warning" (bin_data s)) as Hw0.
  rewrite efficiency_value in Heff by lia. injection Heff as <-.
  eexists. split; [exact Hm |].
  cbn [total_bins critical_bins warning_bins good_bins total_daily_waste
       collection_efficiency].
  split; [exact Hlen |]. split; [exact Hcrit |]. split; [exact Hwarn |].
  split; [exact Hc0 |]. split; [exact Hw0 |]. split; [lia |]. split; [lia |]. split.
  - assert (Hd : Forall (fun x => 50 <= x <= 200) (map daily_waste (bin_data s))).
    { rewrite Hw. apply Forall_map. unfold generate_bin_data.
      apply generate_loop_Forall; [| constructor].
      intros location w'. apply (generate_bin_ranges location w'). }
    pose proof (Py_sum_bounds 50 200 _ Hd) as Hb.
    unfold Py.len in Hb, Hlen. rewrite length_map in Hb. lia.
  - destruct (score_props (Py.len (bin_data s) - count_status "Critical" (bin_data s)
                           - count_status "Warning" (bin_data s))
                          (count_status "Warning" (bin_data s)) (Py.len (bin_data s)))
      as (_ & Hge & Hle & _); try lia.
    + unfold fleet_limit. rewrite Hlen. split; [lia | discriminate].
    + split; [exact Hge | exact Hle].
Qed.

Lemma reachable_metrics_witness :
  reachable (fst (init_session None sample_world)) /\
  exists m, create_efficiency_metrics (bin_data (fst (init_session None sample_world))) = Py.Ok m /\
            total_bins m = 8.
Proof.
  assert (H : reachable (fst (init_session None sample_world))) by apply reach_init.
  split; [exact H |].
  destruct (reachable_metrics _ H) as (m & Hm & H8 & _). exists m. split; assumption.
Defined.

(** ** The waste totals *)

Lemma lookup_cons (k : string) (v : Z) (d : dict) (key : string) :
  lookup ((k, v) :: d) key = if String.eqb k key then Some v else lookup d key.
Proof. unfold lookup. cbn [find fst]. destruct (String.eqb k key); reflexivity. Qed.

Lemma lookup_In (d : dict) (key : string) :
  In key (map fst d) <-> exists v, lookup d key = Some v.
Proof.
  induction d as [| [k v] d IH]; cbn [map In fst].
  - split; [intros [] | intros [v H]; discriminate H].
  - rewrite lookup_cons. destruct (String.eqb k key) eqn:E.
    + apply String.eqb_eq in E. split; [eauto | auto].
    + apply String.eqb_neq in E. rewrite IH. split; [intros [H | H]; [congruence | exact H] | auto].
Qed.

(** X8: [d[key] += amount] on a dict kept in insertion order: a missing
    key raises KeyError with that key; otherwise the entry under the key
    grows by the amount, every other entry keeps its value and the order
    of the keys is unchanged. *)
Theorem dict_iadd_lookup (d : dict) (key : string) (amount : Z) :
  (lookup d key = None -> dict_iadd d key amount = KeyError key) /\
  (forall v, lookup d key = Some v ->
     exists d', dict_iadd d key amount = Found d' /\
                map fst d' = map fst d /\
                lookup d' key = Some (v + amount) /\
                forall k, k <> key -> lookup d' k = lookup d k).
Proof.
  induction d as [| [k v0] d [IHnone IHsome]].
  - split; [reflexivity | discriminate].
  - cbn [dict_iadd]. rewrite lookup_cons. destruct (String.eqb k key) eqn:E.
    + apply String.eqb_eq in E. subst k. split; [discriminate |].
      intros v [= <-]. eexists. split; [reflexivity |]. split; [reflexivity |].
      rewrite lookup_cons, String.eqb_refl. split; [reflexivity |].
      intros k Hk. rewrite !lookup_cons.
      destruct (String.eqb key k) eqn:E'; [apply String.eqb_eq in E'; congruence | reflexivity].
    + split.
      * intros Hn. now rewrite (IHnone Hn).
      * intros v Hv. destruct (IHsome v Hv) as (d' & -> & Hk & Hl & Ho).
        eexists. split; [reflexivity |]. cbn [map fst]. split; [now rewrite Hk |].
        rewrite lookup_cons, E. split; [exact Hl |].
        intros k' Hk'. rewrite !lookup_cons. destruct (String.eqb k k'); [reflexivity | now apply Ho].
Qed.

Lemma dict_iadd_lookup_witness :
  lookup [("Plastic", 0); ("Paper", 0)] "Paper" = Some 0 /\
  exists d', dict_iadd [("Plastic", 0); ("Paper", 0)] "Paper" 5 = Found d' /\
             lookup d' "Paper" = Some 5.
Proof.
  assert (H : lookup [("Plastic", 0); ("Paper", 0)] "Paper" = Some 0) by reflexivity.
  split; [exact H |].
  destruct (proj2 (dict_iadd_lookup [("Plastic", 0); ("Paper", 0)] "Paper" 5) 0 H)
    as (d' & Hd & _ & Hl & _).
  exists d'. split; assumption.
Defined.

Lemma dict_iadd_notin (d : dict) (key : string) (amount : Z) :
  ~ In key (map fst d) -> dict_iadd d key amount = KeyError key.
Proof.
  induction d as [| [k v] d IH]; [reflexivity |].
  cbn [map In fst dict_iadd]. intros Hn.
  destruct (String.eqb k key) eqn:E.
  - apply String.eqb_eq in E. tauto.
  - rewrite IH by tauto. reflexivity.
Qed.

Lemma dict_iadd_in (d : dict) (key : string) (amount : Z) :
  In key (map fst d) ->
  exists d', dict_iadd d key amount = Found d' /\
             map fst d' = map fst d /\
             forall k v, lookup d k = Some v ->
                         lookup d' k = Some (if String.eqb key k then v + amount else v).
Proof.
  induction d as [| [k0 v0] d IH]; [intros [] |].
  cbn [map In fst dict_iadd]. intros Hin.
  destruct (String.eqb k0 key) eqn:E.
  - apply String.eqb_eq in E. subst k0.
    eexists. split; [reflexivity |]. split; [reflexivity |].
    intros k v. rewrite !lookup_cons. destruct (String.eqb key k); [| auto].
    now intros [= <-].
  - assert (Hin' : In key (map fst d)).
    { destruct Hin as [H | H]; [| exact H]. apply String.eqb_neq in E. congruence. }
    destruct (IH Hin') as (d' & -> & Hk & Hl).
    eexists. split; [reflexivity |]. cbn [map fst]. split; [now rewrite Hk |].
    intros k v. rewrite !lookup_cons. destruct (String.eqb k0 k) eqn:E'; [| apply Hl].
    intros [= <-]. apply String.eqb_eq in E'. subst k0. now rewrite String.eqb_sym, E.
Qed.

Lemma entered_weight (key : string) (S : list Bin) :
  entered key S = weight_under key (flat_map waste_classification S).
Proof. reflexivity. Qed.

Lemma weight_under_cons (key k : string) (a : Z) (items : list (string * Z)) :
  weight_under key ((k, a) :: items) =
  (if String.eqb k key then a else 0) + weight_under key items.
Proof.
  unfold weight_under. cbn [filter fst]. destruct (String.eqb k key); [| lia].
  cbn [map snd]. apply Py_sum_cons.
Qed.

Lemma weight_under_app (key : string) (l1 l2 : list (string * Z)) :
  weight_under key (l1 ++ l2) = weight_under key l1 + weight_under key l2.
Proof. unfold weight_under. now rewrite filter_app, map_app, Py_sum_app. Qed.

Lemma add_waste_known (items : list (string * Z)) :
  forall d,
    Forall (fun e => In (fst e) (map fst d)) items ->
    exists d', add_waste d items = Found d' /\
               map fst d' = map fst d /\
               forall k v, lookup d k = Some v ->
                           lookup d' k = Some (v + weight_under k items).
Proof.
  induction items as [| [kt a] items IH]; intros d Hk.
  - exists d. split; [reflexivity |]. split; [reflexivity |].
    intros k v Hv. rewrite Hv. f_equal. unfold weight_under. cbn. lia.
  - inversion Hk as [| e l Hin Hrest]; subst. cbn [fst] in Hin.
    destruct (dict_iadd_in d kt a Hin) as (d1 & Hd1 & Hk1 & Hl1).
    cbn [add_waste]. rewrite Hd1.
    destruct (IH d1) as (d' & Hd' & Hk' & Hl').
    { rewrite Hk1. exact Hrest. }
    exists d'. split; [exact Hd' |]. split; [congruence |].
    intros k v Hv. rewrite (Hl' k _ (Hl1 k v Hv)), weight_under_cons.
    f_equal. destruct (String.eqb kt k); lia.
Qed.

Lemma add_bins_known (S : list Bin) :
  forall d,
    Forall (fun e => In (fst e) (map fst d)) (flat_map waste_classification S) ->
    exists d', add_bins d S = Found d' /\
               map fst d' = map fst d /\
               forall k v, lookup d k = Some v ->
                           lookup d' k = Some (v + entered k S).
Proof.
  induction S as [| b S IH]; intros d Hk.
  - exists d. split; [reflexivity |]. split; [reflexivity |].
    intros k v Hv. rewrite Hv. f_equal. unfold entered, Py.sum. cbn. lia.
  - cbn [flat_map] in Hk. apply Forall_app in Hk. destruct Hk as [Hb HS].
    destruct (add_waste_known (waste_classification b) d Hb) as (d1 & Hd1 & Hk1 & Hl1).
    cbn [add_bins]. rewrite Hd1.
    destruct (IH d1) as (d' & Hd' & Hk' & Hl').
    { rewrite Hk1. exact HS. }
    exists d'. split; [exact Hd' |]. split; [congruence |].
    intros k v Hv. rewrite (Hl' k _ (Hl1 k v Hv)).
    rewrite !entered_weight. cbn [flat_map]. rewrite weight_under_app. f_equal. lia.
Qed.

Lemma values_by_lookup (f : string -> Z) (d : dict) :
  NoDup (map fst d) ->
  (forall k, In k (map fst d) -> lookup d k = Some (f k)) ->
  map snd d = map f (map fst d).
Proof.
  induction d as [| [k v] d IH]; [reflexivity |].
  cbn [map fst snd]. intros Hnd Hl. inversion Hnd as [| x l Hnotin Hnd']; subst.
  f_equal.
  - specialize (Hl k (or_introl eq_refl)). rewrite lookup_cons, String.eqb_refl in Hl.
    congruence.
  - apply IH; [exact Hnd' |]. intros k' Hk'.
    specialize (Hl k' (or_intror Hk')). rewrite lookup_cons in Hl.
    destruct (String.eqb k k') eqn:E; [| exact Hl].
    apply String.eqb_eq in E. congruence.
Qed.

Lemma weights_split (L : list (string * Z)) :
  Forall (fun e => In (fst e) waste_types) L ->
  Py.sum (map (fun k => weight_under k L) waste_types) = Py.sum (map snd L).
Proof.
  induction 1 as [| [k a] L Hk _ IH].
  - reflexivity.
  - cbn [map snd waste_types] in *. rewrite !Py_sum_cons in *.
    rewrite !weight_under_cons. cbn [fst] in Hk.
    destruct Hk as [<- | [<- | [<- | [<- | [<- | []]]]]]; cbn; cbn in IH; lia.
Qed.

Lemma chart_of_known (S : list Bin) :
  known_waste S ->
  create_waste_classification_chart S =
    Found (map (fun k => entered k S) waste_types, waste_types).
Proof.
  intros Hk. unfold create_waste_classification_chart.
  destruct (add_bins_known S (map (fun k => (k, 0)) waste_types) Hk) as (d' & -> & Hkeys & Hl).
  change (map fst (map (fun k => (k, 0)) waste_types)) with waste_types in Hkeys.
  rewrite <- Hkeys at 2. f_equal. f_equal.
  rewrite (values_by_lookup (fun k => entered k S) d'), Hkeys; [reflexivity | |].
  - rewrite Hkeys. repeat constructor; cbn; intuition discriminate.
  - rewrite Hkeys. intros k Hin.
    assert (H0 : lookup (map (fun k => (k, 0)) waste_types) k = Some 0).
    { destruct Hin as [<- | [<- | [<- | [<- | [<- | []]]]]]; reflexivity. }
    rewrite (Hl k 0 H0). reflexivity.
Qed.

(** X9: when every waste type in the snapshot is one of the five the
    chart totals, the chart is built: its names are the five types in
    their fixed order, each value is all the weight entered under that
    type over the whole snapshot, and the values add up to all the weight
    entered. *)
Theorem waste_chart_totals (S : list Bin) :
  known_waste S ->
  create_waste_classification_chart S =
    Found (map (fun k => entered k S) waste_types, waste_types) /\
  Py.sum (map (fun k => entered k S) waste_types) =
    Py.sum (map snd (flat_map waste_classification S)).
Proof.
  intros Hk. split.
  - now apply chart_of_known.
  - apply (weights_split _ Hk).
Qed.

Lemma scenario_known_waste : known_waste scenario.
Proof.
  unfold known_waste. apply Forall_forall. intros e He.
  cbn in He. repeat (destruct He as [<- | He]; [cbn; tauto |]). destruct He.
Qed.

Lemma waste_chart_totals_witness :
  known_waste scenario /\
  create_waste_classification_chart scenario =
    Found (map (fun k => entered k scenario) waste_types, waste_types).
Proof.
  split; [exact scenario_known_waste | apply (waste_chart_totals scenario scenario_known_waste)].
Defined.

Lemma add_waste_app (l1 l2 : list (string * Z)) :
  forall d,
    add_waste d (l1 ++ l2) =
    match add_waste d l1 with
    | Found d1 => add_waste d1 l2
    | KeyError missing => KeyError missing
    end.
Proof.
  induction l1 as [| [k a] l1 IH]; intros d; [reflexivity |].
  cbn [app add_waste]. destruct (dict_iadd d k a); [apply IH | reflexivity].
Qed.

Lemma add_bins_app (S1 S2 : list Bin) :
  forall d,
    add_bins d (S1 ++ S2) =
    match add_bins d S1 with
    | Found d1 => add_bins d1 S2
    | KeyError missing => KeyError missing
    end.
Proof.
  induction S1 as [| b S1 IH]; intros d; [reflexivity |].
  cbn [app add_bins]. destruct (add_waste d (waste_classification b)); [apply IH | reflexivity].
Qed.

(** X10: a waste type outside the five stops the chart: the first such
    entry met, bin after bin and entry after entry, raises KeyError with
    that type, whatever comes after it. *)
Theorem waste_chart_key_error
  (before after : list Bin) (b : Bin) (l1 l2 : list (string * Z)) (k : string) (a : Z) :
  known_waste before ->
  waste_classification b = l1 ++ (k, a) :: l2 ->
  Forall (fun e => In (fst e) waste_types) l1 ->
  ~ In k waste_types ->
  create_waste_classification_chart (before ++ b :: after) = KeyError k.
Proof.
  intros Hbefore Hb Hl1 Hk. unfold create_waste_classification_chart.
  rewrite add_bins_app.
  destruct (add_bins_known before (map (fun k => (k, 0)) waste_types) Hbefore)
    as (d1 & -> & Hkeys & _).
  change (map fst (map (fun k => (k, 0)) waste_types)) with waste_types in Hkeys.
  cbn [add_bins]. rewrite Hb, add_waste_app.
  destruct (add_waste_known l1 d1) as (d2 & -> & Hkeys2 & _).
  { rewrite Hkeys. exact Hl1. }
  cbn [add_waste]. rewrite dict_iadd_notin; [reflexivity |].
  rewrite Hkeys2, Hkeys. exact Hk.
Qed.

Lemma waste_chart_key_error_witness :
  create_waste_classification_chart (scenario ++ [rubber_bin]) = KeyError "Rubber".
Proof.
  apply (waste_chart_key_error scenario [] rubber_bin [("Plastic", 30)] [("Paper", 20)]
           "Rubber" 5 scenario_known_waste).
  - reflexivity.
  - repeat constructor.
  - cbn. intuition discriminate.
Defined.

(** ** The waste totals of a generated snapshot *)

Lemma entered_cons (key : string) (b : Bin) (S : list Bin) :
  entered key (b :: S) = weight_under key (waste_classification b) + entered key S.
Proof. rewrite !entered_weight. cbn [flat_map]. apply weight_under_app. Qed.

Lemma generated_known_waste (w : World) : known_waste (fst (generate_bin_data w)).
Proof.
  unfold known_waste. apply Forall_flat_map.
  unfold generate_bin_data. apply generate_loop_Forall; [| constructor].
  intros location w'.
  destruct (generate_bin_waste location w') as (p & pa & g & m & o & -> & _).
  repeat constructor; cbn; tauto.
Qed.

Lemma five_weights_bounds (S : list Bin) :
  Forall (fun b =>
            exists plastic paper glass metal organic,
              waste_classification b =
                [("Plastic", plastic); ("Paper", paper); ("Glass", glass);
                 ("Metal", metal); ("Organic", organic)] /\
              20 <= plastic <= 40 /\ 15 <= paper <= 30 /\ 5 <= glass <= 20 /\
              5 <= metal <= 15 /\ 25 <= organic <= 45) S ->
  Py.len S * 20 <= entered "Plastic" S <= Py.len S * 40 /\
  Py.len S * 15 <= entered "Paper" S <= Py.len S * 30 /\
  Py.len S * 5 <= entered "Glass" S <= Py.len S * 20 /\
  Py.len S * 5 <= entered "Metal" S <= Py.len S * 15 /\
  Py.len S * 25 <= entered "Organic" S <= Py.len S * 45.
Proof.
  unfold Py.len. induction 1 as [| b S Hb _ IH]; [cbn; lia |].
  destruct Hb as (p & pa & g & m & o & E & Hp & Hpa & Hg & Hm & Ho).
  rewrite !entered_cons, E. cbn [List.length]. rewrite Nat2Z.inj_succ.
  rewrite !weight_under_cons. cbn [String.eqb Ascii.eqb Bool.eqb].
  unfold weight_under, Py.sum. cbn [filter map snd fold_left]. lia.
Qed.

(** X11: on every generated snapshot the waste chart is built, and its
    five values, in the order Plastic, Paper, Glass, Metal, Organic, lie
    within 160-320, 120-240, 40-160, 40-120 and 200-360. *)
Theorem generated_waste_chart (w : World) :
  exists plastic paper glass metal organic,
    create_waste_classification_chart (fst (generate_bin_data w)) =
      Found ([plastic; paper; glass; metal; organic], waste_types) /\
    160 <= plastic <= 320 /\ 120 <= paper <= 240 /\ 40 <= glass <= 160 /\
    40 <= metal <= 120 /\ 200 <= organic <= 360.
Proof.
  set (S := fst (generate_bin_data w)).
  assert (Hlen : Py.len S = 8).
  { unfold Py.len, S. rewrite <- (length_map location_of), generate_bin_data_locations.
    reflexivity. }
  assert (Hb : Py.len S * 20 <= entered "Plastic" S <= Py.len S * 40 /\
               Py.len S * 15 <= entered "Paper" S <= Py.len S * 30 /\
               Py.len S * 5 <= entered "Glass" S <= Py.len S * 20 /\
               Py.len S * 5 <= entered "Metal" S <= Py.len S * 15 /\
               Py.len S * 25 <= entered "Organic" S <= Py.len S * 45).
  { apply five_weights_bounds. unfold S, generate_bin_data.
    apply generate_loop_Forall; [| constructor].
    intros location w'. apply generate_bin_waste. }
  rewrite Hlen in Hb.
  exists (entered "Plastic" S), (entered "Paper" S), (entered "Glass" S),
         (entered "Metal" S), (entered "Organic" S).
  split; [| lia].
  apply (chart_of_known S). apply generated_known_waste.
Qed.

(** ** The fill level chart *)

(** X12: on a snapshot whose statuses are the classifier's, the
    colour the fill level chart gives each bin's row through
    [color_discrete_map] is the colour of that bin's map marker, so no
    status is left to the default palette; and a row is coloured red
    exactly when its fill level is above the line at 85, orange exactly
    when it is above the line at 70 but not the one at 85, green
    otherwise. *)
Theorem fill_chart_colours (S : list Bin) :
  consistent S ->
  map bar_color (fill_level_rows S) = map Some (create_city_map S) /\
  Forall (fun r => (bar_color r = Some "red" <-> 85 < row_fill_level r) /\
                   (bar_color r = Some "orange" <-> 70 < row_fill_level r <= 85) /\
                   (bar_color r = Some "green" <-> row_fill_level r <= 70))
         (fill_level_rows S).
Proof.
  intros Hc. unfold fill_level_rows, create_city_map. rewrite !map_map. split.
  - apply map_ext_Forall. eapply Forall_impl; [| exact Hc].
    intros b Hb. unfold bar_color, marker_color. cbn [row_status]. rewrite Hb.
    unfold classify. destruct (fill_level b >? 85); [reflexivity |].
    destruct (fill_level b >? 70); reflexivity.
  - apply Forall_map. eapply Forall_impl; [| exact Hc].
    intros b Hb. unfold bar_color. cbn [row_status row_fill_level]. rewrite Hb.
    destruct (classify_cases (fill_level b)) as [[H E] | [[H E] | [H E]]]; rewrite E;
      cbn; (split; [| split]); split; intros; try discriminate; try lia; reflexivity.
Qed.

Lemma fill_chart_colours_witness :
  consistent scenario /\
  map bar_color (fill_level_rows scenario) = map Some (create_city_map scenario).
Proof.
  assert (H : consistent scenario) by (repeat constructor).
  split; [exact H | apply (fill_chart_colours scenario H)].
Defined.

(** ** The marker radius *)

Lemma In_fill_levels (f : Z) : 10 <= f <= 95 -> In f fill_levels.
Proof.
  intros Hf. unfold fill_levels. apply in_map_iff. exists (Z.to_nat (f - 10)).
  split; [lia | apply in_seq; lia].
Qed.

Lemma radius_checked : forallb radius_ok fill_levels = true.
Proof. vm_compute. reflexivity. Qed.

Lemma radius_steps_checked : forallb radius_step_ok (removelast fill_levels) = true.
Proof. vm_compute. reflexivity. Qed.

Lemma radius_step (f : Z) : 10 <= f < 95 -> (radius_Q f < radius_Q (f + 1))%Q.
Proof.
  intros Hf. pose proof radius_steps_checked as H. rewrite forallb_forall in H.
  assert (Hin : In f (removelast fill_levels)).
  { change (removelast fill_levels) with (map (fun n => 10 + Z.of_nat n) (seq 0 85)).
    apply in_map_iff. exists (Z.to_nat (f - 10)). split; [lia | apply in_seq; lia]. }
  specialize (H f Hin). unfold radius_step_ok in H.
  apply negb_true_iff in H. apply Qnot_le_lt. intros Hle.
  apply Qle_bool_iff in Hle. congruence.
Qed.

Lemma radius_increasing (n : nat) :
  forall f, 10 <= f -> f + Z.of_nat (S n) <= 95 ->
            (radius_Q f < radius_Q (f + Z.of_nat (S n)))%Q.
Proof.
  induction n as [| n IH]; intros f Hlo Hhi.
  - change (Z.of_nat 1) with 1. apply radius_step. lia.
  - apply Qlt_trans with (radius_Q (f + Z.of_nat (S n))).
    + apply IH; lia.
    + replace (f + Z.of_nat (S (S n))) with (f + Z.of_nat (S n) + 1) by lia.
      apply radius_step. lia.
Qed.

(** X13: for fill levels between 10 and 95, those the generator draws,
    the marker radius 10 + fill_level / 10 is computed without error and
    lies between 11 and 19.5, within 2^-48 of the exact value; of two
    such bins the fuller one gets the strictly larger marker. *)
Theorem marker_radius_range (b b' : Bin) :
  10 <= fill_level b -> fill_level b <= fill_level b' -> fill_level b' <= 95 ->
  exists r r',
    marker_radius b = Py.Ok r /\ marker_radius b' = Py.Ok r' /\
    F64.leb (F64.round_int 11) r = true /\ F64.leb r (F64.literal 195 1) = true /\
    (F64.to_Q r - (10 + inject_Z (fill_level b) / 10) <= 1 # 281474976710656)%Q /\
    ((10 + inject_Z (fill_level b) / 10) - F64.to_Q r <= 1 # 281474976710656)%Q /\
    (fill_level b < fill_level b' -> (F64.to_Q r < F64.to_Q r')%Q).
Proof.
  intros Hlo Hle Hhi. unfold marker_radius.
  pose proof radius_checked as Hall. rewrite forallb_forall in Hall.
  pose proof (Hall _ (In_fill_levels (fill_level b) ltac:(lia))) as Hb.
  pose proof (Hall _ (In_fill_levels (fill_level b') ltac:(lia))) as Hb'.
  assert (Hinc : fill_level b < fill_level b' ->
                 (radius_Q (fill_level b) < radius_Q (fill_level b'))%Q).
  { intros Hlt.
    replace (fill_level b') with
      (fill_level b + Z.of_nat (S (Z.to_nat (fill_level b' - fill_level b - 1)))) by lia.
    apply radius_increasing; lia. }
  unfold radius_ok in Hb, Hb'. unfold radius_Q in *.
  destruct (radius_at (fill_level b)) as [r | e]; [| discriminate].
  destruct (radius_at (fill_level b')) as [r' | e']; [| discriminate].
  rewrite !andb_true_iff, !Qle_bool_iff in Hb.
  destruct Hb as (((H11 & H19) & He1) & He2).
  exists r, r'. split; [reflexivity |]. split; [reflexivity |].
  split; [exact H11 |]. split; [exact H19 |]. split; [exact He1 |]. split; [exact He2 |].
  exact Hinc.
Qed.

Lemma marker_radius_range_witness :
  let b := reading (hd (Build_Location "" (S754_zero false) (S754_zero false) "") bin_locations) 10 in
  let b' := reading (hd (Build_Location "" (S754_zero false) (S754_zero false) "") bin_locations) 95 in
  exists r r', marker_radius b = Py.Ok r /\ marker_radius b' = Py.Ok r' /\
               (F64.to_Q r < F64.to_Q r')%Q.
Proof.
  intros b b'.
  assert (H1 : 10 <= fill_level b) by (cbn; lia).
  assert (H2 : fill_level b <= fill_level b') by (cbn; lia).
  assert (H3 : fill_level b' <= 95) by (cbn; lia).
  destruct (marker_radius_range b b' H1 H2 H3) as (r & r' & Hr & Hr' & _ & _ & _ & _ & Hlt).
  exists r, r'. split; [exact Hr |]. split; [exact Hr' |]. apply Hlt. cbn. lia.
Defined.

(** ** The recent classifications *)

Lemma randint_column_spec {A : Type} (f : Z -> A) (a b : Z) (n : nat) :
  a <= b ->
  forall w,
    List.length (fst (randint_column f a b n w)) = n /\
    Forall (fun y => exists x, a <= x <= b /\ y = f x) (fst (randint_column f a b n w)).
Proof.
  intros Hab. induction n as [| n IH]; intros w; cbn [randint_column].
  - split; [reflexivity | constructor].
  - pose proof (random_randint_range a b w Hab) as Hx.
    destruct (random_randint a b w) as [x w1]. cbn [fst] in Hx.
    specialize (IH w1). destruct (randint_column f a b n w1) as [xs w2].
    cbn [fst] in *. destruct IH as [Hlen Hall].
    split; [cbn [List.length]; now rewrite Hlen |]. constructor; [eauto | exact Hall].
Qed.

(** X14: the recent-classifications table has 10 rows; every bin id
    in it is the id of one of the 8 bins of the fleet, every confidence
    lies between 85 and 99, and the timestamps run from 2 hours before
    now to 12 minutes before now in steps of 12 minutes. *)
Theorem recent_classifications (w : World) (now : datetime) :
  List.length (fst (recent_bin_ids w)) = 10%nat /\
  Forall (fun i => In i bin_ids) (fst (recent_bin_ids w)) /\
  List.length (fst (recent_confidence w)) = 10%nat /\
  Forall (fun c => 85 <= c <= 99) (fst (recent_confidence w)) /\
  List.length (recent_timestamps now) = 10%nat /\
  (forall i t, nth_error (recent_timestamps now) i = Some t ->
               t = now - 7200000000 + Z.of_nat i * 720000000 /\
               now - 7200000000 <= t <= now - 720000000).
Proof.
  destruct (randint_column_spec (fun n => ("BIN" ++ format_03d n)%string) 1 8 10 ltac:(lia) w)
    as [Hl1 Hf1].
  destruct (randint_column_spec (fun n => n) 85 99 10 ltac:(lia) w) as [Hl2 Hf2].
  split; [exact Hl1 |]. split.
  { eapply Forall_impl; [| exact Hf1]. intros y (x & Hx & ->).
    assert (Hc : x = 1 \/ x = 2 \/ x = 3 \/ x = 4 \/ x = 5 \/ x = 6 \/ x = 7 \/ x = 8) by lia.
    destruct Hc as [-> | [-> | [-> | [-> | [-> | [-> | [-> | ->]]]]]]]; cbn; tauto. }
  split; [exact Hl2 |]. split.
  { eapply Forall_impl; [| exact Hf2]. intros y (x & Hx & ->). exact Hx. }
  unfold recent_timestamps, datetime_minus, timedelta_hours. cbv zeta.
  rewrite timedelta_round_trip. split; [reflexivity |].
  intros i t Hi. unfold datetime in *.
  assert (Hlt : (i < 10)%nat).
  { match type of Hi with
    | nth_error ?l _ = _ =>
        assert (H : (i < List.length l)%nat)
          by (apply (proj1 (nth_error_Some l i)); rewrite Hi; discriminate)
    end.
    rewrite length_map, length_seq in H. exact H. }
  rewrite nth_error_map in Hi.
  rewrite (nth_error_nth' (seq 0 10) O) in Hi by (rewrite length_seq; exact Hlt).
  rewrite seq_nth in Hi by exact Hlt. cbn [option_map] in Hi. injection Hi as <-.
  split; lia.
Qed.

(** ** The deployment progress *)

(** X15: whatever the phase, the progress shown is 100, 65 or 30: 100
    for the pilot phase only, 65 for the roll-out phase only, 30 for
    everything else; and the fraction progress/100 given to the progress
    bar is computed without error: it is the double 1.0 for the pilot
    phase, 0.65 for the roll-out phase and 0.3 otherwise, the same
    doubles as those literals, and so a value between 0 and 1. *)
Theorem deployment_progress_fraction (phase : string) :
  (deployment_progress phase = 100 <-> phase = "Phase 1 - Pilot Test") /\
  (deployment_progress phase = 65 <-> phase = "Phase 2 - City-wide Rollout") /\
  (deployment_progress phase = 30 <->
     phase <> "Phase 1 - Pilot Test" /\ phase <> "Phase 2 - City-wide Rollout") /\
  (phase = "Phase 1 - Pilot Test" ->
   progress_fraction phase = Py.Ok (S754_finite false 4503599627370496 (-52))) /\
  (phase = "Phase 2 - City-wide Rollout" ->
   progress_fraction phase = Py.Ok (S754_finite false 5854679515581645 (-53))) /\
  (phase <> "Phase 1 - Pilot Test" -> phase <> "Phase 2 - City-wide Rollout" ->
   progress_fraction phase = Py.Ok (S754_finite false 5404319552844595 (-54))) /\
  F64.literal 10 1 = S754_finite false 4503599627370496 (-52) /\
  F64.literal 65 2 = S754_finite false 5854679515581645 (-53) /\
  F64.literal 3 1 = S754_finite false 5404319552844595 (-54) /\
  exists x, progress_fraction phase = Py.Ok x /\
            F64.leb (S754_zero false) x = true /\
            F64.leb x (F64.round_int 1) = true.
Proof.
  assert (L1 : F64.literal 10 1 = S754_finite false 4503599627370496 (-52))
    by (vm_compute; reflexivity).
  assert (L2 : F64.literal 65 2 = S754_finite false 5854679515581645 (-53))
    by (vm_compute; reflexivity).
  assert (L3 : F64.literal 3 1 = S754_finite false 5404319552844595 (-54))
    by (vm_compute; reflexivity).
  unfold progress_fraction, deployment_progress.
  destruct (String.eqb phase "Phase 1 - Pilot Test") eqn:E1.
  - apply String.eqb_eq in E1. subst phase.
    split; [tauto |]. split; [split; discriminate |]. split; [split; [discriminate | tauto] |].
    split; [intros _; vm_compute; reflexivity |]. split; [discriminate |].
    split; [tauto |]. split; [exact L1 |]. split; [exact L2 |]. split; [exact L3 |].
    eexists. split; [vm_compute; reflexivity |]. split; reflexivity.
  - apply String.eqb_neq in E1.
    destruct (String.eqb phase "Phase 2 - City-wide Rollout") eqn:E2.
    + apply String.eqb_eq in E2. subst phase.
      split; [split; discriminate |]. split; [tauto |]. split; [split; [discriminate | tauto] |].
      split; [discriminate |]. split; [intros _; vm_compute; reflexivity |].
      split; [tauto |]. split; [exact L1 |]. split; [exact L2 |]. split; [exact L3 |].
      eexists. split; [vm_compute; reflexivity |]. split; reflexivity.
    + apply String.eqb_neq in E2.
      split; [split; [discriminate | tauto] |]. split; [split; [discriminate | tauto] |].
      split; [tauto |]. split; [tauto |]. split; [tauto |].
      split; [intros _ _; vm_compute; reflexivity |].
      split; [exact L1 |]. split; [exact L2 |]. split; [exact L3 |].
      eexists. split; [vm_compute; reflexivity |]. split; reflexivity.
Qed.

(** ** The alerts *)

Lemma consistent_status (S : list Bin) (b : Bin) :
  consistent S -> In b S ->
  (status b = "Critical" <-> 85 < fill_level b) /\
  (status b = "Warning" <-> 70 < fill_level b <= 85) /\
  (status b = "Good" <-> fill_level b <= 70).
Proof.
  intros Hc Hb. unfold consistent in Hc. rewrite Forall_forall in Hc. rewrite (Hc b Hb).
  destruct (classify_cases (fill_level b)) as [[H E] | [[H E] | [H E]]]; rewrite E;
    (split; [| split]); split; intros; try discriminate; try lia; reflexivity.
Qed.

(** X16: on a snapshot whose statuses are the classifier's, the
    critical alerts are exactly the bins filled above 85 and the warning
    bins exactly those filled above 70 and at most 85, none left out; no
    bin is in both lists; the warning alerts shown are the first 3 of the
    warning bins, or all of them when there are fewer: a prefix of the
    warning bins of length min(3, their number); and a bin that is in
    neither full list is filled at most 70. *)
Theorem alerts_by_fill_level (S : list Bin) :
  consistent S ->
  (forall b, In b (critical_alerts S) <-> In b S /\ 85 < fill_level b) /\
  (forall b, In b (warning_list S) <-> In b S /\ 70 < fill_level b <= 85) /\
  (forall b, ~ (In b (critical_alerts S) /\ In b (warning_list S))) /\
  (exists rest, warning_list S = warning_alerts S ++ rest) /\
  List.length (warning_alerts S) = Nat.min 3 (List.length (warning_list S)) /\
  (List.length (warning_alerts S) <= 3)%nat /\
  (forall b, In b (warning_alerts S) -> In b S /\ 70 < fill_level b <= 85) /\
  (forall b, In b S -> ~ In b (critical_alerts S) -> ~ In b (warning_list S) ->
             fill_level b <= 70).
Proof.
  intros Hc.
  assert (Hcrit : forall b, In b (critical_alerts S) <-> In b S /\ 85 < fill_level b).
  { intros b. unfold critical_alerts. rewrite filter_In, String.eqb_eq. split.
    - intros [Hb Hs]. split; [exact Hb |]. now apply (consistent_status S b Hc Hb).
    - intros [Hb Hf]. split; [exact Hb |]. now apply (consistent_status S b Hc Hb). }
  assert (Hwarn : forall b, In b (warning_list S) <-> In b S /\ 70 < fill_level b <= 85).
  { intros b. unfold warning_list. rewrite filter_In, String.eqb_eq. split.
    - intros [Hb Hs]. split; [exact Hb |]. now apply (consistent_status S b Hc Hb).
    - intros [Hb Hf]. split; [exact Hb |]. now apply (consistent_status S b Hc Hb). }
  assert (Hlen : List.length (warning_alerts S) = Nat.min 3 (List.length (warning_list S)))
    by (unfold warning_alerts; apply length_firstn).
  split; [exact Hcrit |]. split; [exact Hwarn |]. split.
  { intros b [H1 H2]. apply Hcrit in H1. apply Hwarn in H2. lia. }
  split.
  { exists (skipn 3 (warning_list S)). unfold warning_alerts.
    symmetry. apply firstn_skipn. }
  split; [exact Hlen |]. split; [rewrite Hlen; apply Nat.le_min_l |]. split.
  - intros b Hb. apply Hwarn. unfold warning_alerts in Hb.
    rewrite <- (firstn_skipn 3 (warning_list S)). apply in_or_app. now left.
  - intros b Hb Hnc Hnw.
    destruct (Z_le_gt_dec (fill_level b) 70) as [H | H]; [exact H | exfalso].
    destruct (Z_le_gt_dec (fill_level b) 85) as [H' | H'].
    + apply Hnw, Hwarn. split; [exact Hb | lia].
    + apply Hnc, Hcrit. split; [exact Hb | lia].
Qed.

Lemma alerts_by_fill_level_witness :
  consistent scenario /\
  forall b, In b (critical_alerts scenario) <-> In b scenario /\ 85 < fill_level b.
Proof.
  assert (H : consistent scenario) by (repeat constructor).
  split; [exact H | apply (alerts_by_fill_level scenario H)].
Defined.

Lemma box_ids_boxes (css advice : string) (l : list Bin) :
  box_ids (map (fun b => AlertBox css (id b) (area b) (fill_level b) advice) l) = map id l.
Proof. induction l as [| b l IH]; [reflexivity |]. cbn. now rewrite <- IH. Qed.

Lemma render_critical_shape (bins : list Bin) :
  (render_critical bins = [] <-> count_status "Critical" bins = 0) /\
  Z.of_nat (List.length (render_critical bins)) =
    (if count_status "Critical" bins =? 0 then 0 else 1 + count_status "Critical" bins) /\
  box_ids (render_critical bins) = map id (critical_alerts bins) /\
  (forall m, nth_error (render_critical bins) 0 = Some m -> m = Heading "#### Critical Alerts").
Proof.
  rewrite !count_status_length. unfold render_critical. fold (critical_alerts bins).
  destruct (critical_alerts bins) as [| c cs]; cbv zeta.
  - split; [split; reflexivity |]. split; [reflexivity |]. split; [reflexivity |].
    intros m H; discriminate H.
  - split; [split; [discriminate | cbn [List.length]; lia] |].
    split.
    + cbn [List.length]. rewrite length_map. cbn [List.length].
      replace (Z.of_nat (Datatypes.S (List.length cs)) =? 0) with false
        by (symmetry; apply Z.eqb_neq; lia).
      cbv iota. lia.
    + split.
      * change (box_ids (Heading "#### Critical Alerts" :: ?l)) with (box_ids l).
        apply box_ids_boxes.
      * intros m H. now injection H as <-.
Qed.

Lemma render_warning_shape (bins : list Bin) :
  (render_warning bins = [] <-> count_status "Warning" bins = 0) /\
  Z.of_nat (List.length (render_warning bins)) =
    (if count_status "Warning" bins =? 0 then 0
     else 1 + Z.min (count_status "Warning" bins) 3) /\
  box_ids (render_warning bins) = map id (warning_alerts bins) /\
  (forall m, nth_error (render_warning bins) 0 = Some m -> m = Heading "#### Warning Alerts").
Proof.
  rewrite !count_status_length. unfold render_warning, warning_alerts.
  fold (warning_list bins).
  destruct (warning_list bins) as [| x xs]; cbv zeta.
  - split; [split; reflexivity |]. split; [reflexivity |]. split; [reflexivity |].
    intros m H; discriminate H.
  - split; [split; [discriminate | cbn [List.length]; lia] |].
    split.
    + cbn [List.length]. rewrite length_map, length_firstn. cbn [List.length].
      replace (Z.of_nat (Datatypes.S (List.length xs)) =? 0) with false
        by (symmetry; apply Z.eqb_neq; lia).
      cbv iota. lia.
    + split.
      * change (box_ids (Heading "#### Warning Alerts" :: ?l)) with (box_ids l).
        apply box_ids_boxes.
      * intros m H. now injection H as <-.
Qed.

(** X17: each alert column shows nothing at all when it has no bin
    to report; otherwise one heading, then one box per reported bin in
    snapshot order: all the Critical bins, and at most the first 3 of the
    Warning bins. *)
Theorem rendered_alerts (bins : list Bin) :
  (render_critical bins = [] <-> count_status "Critical" bins = 0) /\
  (render_warning bins = [] <-> count_status "Warning" bins = 0) /\
  Z.of_nat (List.length (render_critical bins)) =
    (if count_status "Critical" bins =? 0 then 0 else 1 + count_status "Critical" bins) /\
  Z.of_nat (List.length (render_warning bins)) =
    (if count_status "Warning" bins =? 0 then 0
     else 1 + Z.min (count_status "Warning" bins) 3) /\
  box_ids (render_critical bins) = map id (critical_alerts bins) /\
  box_ids (render_warning bins) = map id (warning_alerts bins) /\
  (forall m, nth_error (render_critical bins) 0 = Some m ->
             m = Heading "#### Critical Alerts") /\
  (forall m, nth_error (render_warning bins) 0 = Some m ->
             m = Heading "#### Warning Alerts").
Proof.
  destruct (render_critical_shape bins) as (C1 & C2 & C3 & C4).
  destruct (render_warning_shape bins) as (W1 & W2 & W3 & W4).
  split; [exact C1 |]. split; [exact W1 |]. split; [exact C2 |]. split; [exact W2 |].
  split; [exact C3 |]. split; [exact W3 |]. split; [exact C4 | exact W4].
Qed.

(** ** The periodic check within a day *)

(** X18: with the clock at most one day past the last refresh and
    not before it, the periodic check regenerates the snapshot exactly
    when at least 31 whole seconds have elapsed: it then stores a newly
    generated snapshot and reruns; otherwise it leaves the session as it
    is and goes on to render. *)
Theorem auto_refresh_fires_from_31s (s : SessionState) (w : World) :
  0 <= elapsed_us (clock w (clock_pos w)) s < 86400 * 1000000 ->
  (fst (fst (auto_refresh_check s w)) = Rerun <->
   31 * 1000000 <= elapsed_us (clock w (clock_pos w)) s) /\
  (fst (fst (auto_refresh_check s w)) = Rerun ->
   snd (fst (auto_refresh_check s w)) = fst (refresh (snd (datetime_now w)))) /\
  (fst (fst (auto_refresh_check s w)) = Render ->
   snd (fst (auto_refresh_check s w)) = s).
Proof.
  intros He.
  assert (Hs : seconds (datetime_sub (clock w (clock_pos w)) (last_update s)) =
               elapsed_us (clock w (clock_pos w)) s / 1000000).
  { rewrite seconds_of_elapsed. apply Z.mod_small.
    split; [apply Z.div_pos; lia | apply Z.div_lt_upper_bound; lia]. }
  unfold auto_refresh_check.
  destruct (datetime_now w) as [now w1] eqn:Hn.
  assert (Hnow : now = clock w (clock_pos w)) by (injection Hn as <- _; reflexivity).
  subst now. cbn [snd]. rewrite Hs.
  destruct (elapsed_us (clock w (clock_pos w)) s / 1000000 >? 30) eqn:Hgt.
  - destruct (refresh w1) as [s' w2]. cbn [fst snd].
    split; [| split; [reflexivity | discriminate]].
    split; [intros _ | reflexivity].
    assert (31 <= elapsed_us (clock w (clock_pos w)) s / 1000000) by lia.
    apply Z.le_trans with (1000000 * (elapsed_us (clock w (clock_pos w)) s / 1000000));
      [lia | apply Z.mul_div_le; lia].
  - cbn [fst snd]. split; [| split; [discriminate | reflexivity]].
    split; [discriminate |]. intros H31. exfalso.
    assert (31 <= elapsed_us (clock w (clock_pos w)) s / 1000000)
      by (apply Z.div_le_lower_bound; lia).
    lia.
Qed.

Lemma auto_refresh_fires_from_31s_witness :
  let w := world_at (last_update stale_session + 45000000) in
  0 <= elapsed_us (clock w (clock_pos w)) stale_session < 86400 * 1000000 /\
  fst (fst (auto_refresh_check stale_session w)) = Rerun.
Proof.
  intros w.
  assert (H : 0 <= elapsed_us (clock w (clock_pos w)) stale_session < 86400 * 1000000)
    by (vm_compute; split; congruence).
  split; [exact H |].
  apply (proj1 (auto_refresh_fires_from_31s stale_session w H)). vm_compute. congruence.
Defined.
